(** * flytekit: the registration-serialization pipeline

    A shallow embedding of [flytekit/clis/sdk_in_container/serialize.py]:
    [_determine_text_chars], [serialize_tasks_only], [serialize_all] and
    [fast_workflows], together with the Python built-ins they lean on
    ([str], [str.zfill], [os.path.join], [enumerate], [tarfile.add]); and
    of [flytekit/taskplugins/sidecar/task.py]: [Sidecar] and
    [SidecarFunctionTask.get_custom].

    Stateful code is written in a small state-and-exception monad over a
    [World] holding the process-wide entity registry and the trace of
    observable effects (files written, log lines, console output). *)

From Stdlib Require Import Ascii Reals Lra.
From stdpp Require Import base numbers strings list pretty gmap.

Local Open Scope nat_scope.

(** ** Python built-ins on text *)

Module Py.

(** [str(i)] for a non-negative [int]: decimal digits, no sign, no leading
    zero ([str(0)] is ["0"]). *)
Definition str (i : nat) : string := pretty i.

(** The run of ['0'] characters [str.zfill] puts in front. *)
Fixpoint zeros (k : nat) : string :=
  match k with
  | O => ""
  | S k' => String "0"%char (zeros k')
  end.

Definition is_sign (c : ascii) : bool :=
  bool_decide (c = "+"%char) || bool_decide (c = "-"%char).

(** A string that does not start with a sign. *)
Definition unsigned (s : string) : Prop :=
  match s with
  | String c _ => is_sign c = false
  | EmptyString => True
  end.

(** [s.zfill(width)]: left-fill with ['0'] up to [width] characters, after a
    leading sign when there is one; a string that already has [width]
    characters or more is returned as it is (nothing is ever cut). *)
Definition zfill (s : string) (width : nat) : string :=
  let fill := zeros (width - String.length s) in
  match s with
  | String c rest => if is_sign c then String c (fill +:+ rest) else fill +:+ s
  | EmptyString => fill
  end.

(** [int(s)] for a string of decimal digits (leading zeros allowed). *)
Definition digit_value (c : ascii) : nat :=
  if bool_decide (c = "1"%char) then 1
  else if bool_decide (c = "2"%char) then 2
  else if bool_decide (c = "3"%char) then 3
  else if bool_decide (c = "4"%char) then 4
  else if bool_decide (c = "5"%char) then 5
  else if bool_decide (c = "6"%char) then 6
  else if bool_decide (c = "7"%char) then 7
  else if bool_decide (c = "8"%char) then 8
  else if bool_decide (c = "9"%char) then 9
  else 0.

Fixpoint int (s : string) : nat :=
  match s with
  | EmptyString => 0
  | String c rest => digit_value c * 10 ^ String.length rest + int rest
  end.

(** [math.ceil(math.log(n, 10))] for an integer [n >= 1], in exact
    arithmetic: the least [k] with [n <= 10 ^ k], found by running through
    the powers of ten; [ceil_log10_ceiling] below relates it to the real
    logarithm.  (The source computes the logarithm in binary floating
    point; the embedding takes the real-number value.  The two have the
    same ceiling for every length up to [10 ^ 15]; from [10 ^ 15 + 1] on
    the floating-point value can fall short, the source giving 15 there
    where the exact ceiling is 16.) *)
Fixpoint ceil_log10_from (fuel k p n : nat) : nat :=
  match fuel with
  | O => k
  | S fuel' => if decide (n ≤ p) then k else ceil_log10_from fuel' (S k) (10 * p) n
  end.

Definition ceil_log10 (n : nat) : nat := ceil_log10_from n 0 1 n.

(** [os.path.join(a, b)] on POSIX paths: an absolute [b] wins, an empty [a]
    or one that ends in a slash takes no separator. *)
Definition ends_with_slash (a : string) : bool :=
  match String.rev a with
  | String c _ => bool_decide (c = "/"%char)
  | EmptyString => false
  end.

Definition starts_with_slash (b : string) : bool :=
  match b with
  | String c _ => bool_decide (c = "/"%char)
  | EmptyString => false
  end.

Definition path_join (a b : string) : string :=
  if starts_with_slash b then b
  else if bool_decide (a = "") || ends_with_slash a then a +:+ b
  else a +:+ "/" +:+ b.

End Py.

(** ** [_determine_text_chars] *)

Definition _determine_text_chars (length : nat) : nat :=
  if decide (length = 0) then 0 else Py.ceil_log10 length.

(** ** Data model *)

Inductive ResourceType := TASK | WORKFLOW | LAUNCH_PLAN.

Global Instance ResourceType_eq_dec : EqDecision ResourceType.
Proof. solve_decision. Defined.

(** [flytekit.common.core.identifier.Identifier] *)
Module Identifier.
Record t := Build {
  resource_type : ResourceType;
  project : string;
  domain : string;
  name : string;
  version : string;
}.
End Identifier.

Global Instance Identifier_eq_dec : EqDecision Identifier.t.
Proof. solve_decision. Defined.

Definition _PROJECT_PLACEHOLDER : string := "{{ registration.project }}".
Definition _DOMAIN_PLACEHOLDER : string := "{{ registration.domain }}".
Definition _VERSION_PLACEHOLDER : string := "{{ registration.version }}".

Inductive SerializationMode := DEFAULT | FAST.

(** What a caller can pass for [mode: SerializationMode = None]: nothing
    ([None]), a member of the enumeration (always truthy, [Enum] members
    are), or any other Python value, of which only the truthiness matters
    to the code. *)
Inductive ModeArg :=
  | ModeNone
  | Mode (m : SerializationMode)
  | ModeOther (truthy : bool).

Definition mode_truthy (mode : ModeArg) : bool :=
  match mode with
  | ModeNone => false
  | Mode _ => true
  | ModeOther truthy => truthy
  end.

(** A registerable entity (an [SdkTask], [SdkWorkflow] or [SdkLaunchPlan]):
    what the loops read from it.  [serialize] stands for the bytes
    [entity.serialize()] returns when the write loop calls it, and
    [has_registered] for the flag as the write loop finds it: nothing in
    [serialize.py] changes either.  The one attribute the code assigns is
    [_id], on the objects the scanner yields, each of which it yields
    once. *)
Record Registerable := {
  resource_type : ResourceType;
  _instantiated_in : string;
  _id : Identifier.t;
  has_registered : bool;
  serialize : string;
}.

Global Instance Registerable_eq_dec : EqDecision Registerable.
Proof. solve_decision. Defined.

(** [o._id = ...] *)
Definition set_id (o : Registerable) (i : Identifier.t) : Registerable :=
  {| resource_type := resource_type o;
     _instantiated_in := _instantiated_in o;
     _id := i;
     has_registered := has_registered o;
     serialize := serialize o |}.

(** The classes of [flytekit.annotated] whose instances add themselves to
    [FlyteEntities.entities] when constructed.  A task has two registerable
    forms, a workflow and a launch plan one each. *)
Record PythonTaskT := {
  task_registerable : Registerable;
  task_fast_registerable : Registerable;
}.

Record WorkflowT := {
  workflow_name : string;
  workflow_registerable : Registerable;
}.

Record LaunchPlanT := {
  lp_workflow : string;
  lp_registerable : Registerable;
}.

Global Instance PythonTaskT_eq_dec : EqDecision PythonTaskT.
Proof. solve_decision. Defined.
Global Instance WorkflowT_eq_dec : EqDecision WorkflowT.
Proof. solve_decision. Defined.
Global Instance LaunchPlanT_eq_dec : EqDecision LaunchPlanT.
Proof. solve_decision. Defined.

Inductive FlyteEntity :=
  | PythonTask (t : PythonTaskT)
  | Workflow (wf : WorkflowT)
  | LaunchPlan (lp : LaunchPlanT)
  | Unrelated.

Global Instance FlyteEntity_eq_dec : EqDecision FlyteEntity.
Proof. solve_decision. Defined.

(** A Python module as the scanner sees it: its name and its bindings
    ([dir(m)] with the objects bound), and the packages that can be
    imported. *)
Record PyModule := {
  __name__ : string;
  bindings : list (string * Registerable);
}.

(** [InstanceVar(module=m, name=k, o=o)] *)
Record InstanceVar := {
  iv_module : string;
  iv_name : string;
  iv_o : Registerable;
}.

(** [flyte_context.RegistrationSettings] (image configuration and
    environment are not read by the code embedded here). *)
Record RegistrationSettings := {
  rs_project : string;
  rs_domain : string;
  rs_version : string;
  rs_instance_vars : list InstanceVar;
}.

Definition add_instance_var (rs : RegistrationSettings) (v : InstanceVar)
  : RegistrationSettings :=
  {| rs_project := rs_project rs;
     rs_domain := rs_domain rs;
     rs_version := rs_version rs;
     rs_instance_vars := rs_instance_vars rs ++ [v] |}.

(** A directory tree on disk.  The entries of a directory are listed in the
    order [tarfile] walks them. *)
Inductive FsNode :=
  | File (data : string)
  | Dir (entries : FsEntries)
with FsEntries :=
  | NoEntry
  | Entry (f : string) (node : FsNode) (rest : FsEntries).

Scheme FsNode_ind2 := Induction for FsNode Sort Prop
  with FsEntries_ind2 := Induction for FsEntries Sort Prop.
Combined Scheme FsNode_FsEntries_ind from FsNode_ind2, FsEntries_ind2.

Inductive TarType := REGTYPE | DIRTYPE.

Global Instance TarType_eq_dec : EqDecision TarType.
Proof. solve_decision. Defined.

Record TarInfo := {
  ti_name : string;
  ti_type : TarType;
  ti_data : string;
}.

(** ** Effects *)

(** What is sent to a file by [_write_proto_to_file]. *)
Inductive Proto :=
  | Serialized (bytes : string)
  | IdentifierIdl (i : Identifier.t).

(** Lines for the console ([click.echo]) and the log, kept as data. *)
Inductive Message :=
  | FoundModule (m k instantiated_in : string)
  | FoundEntities (n : nat)
  | Skipping (i : Identifier.t)
  | Writing (i : Identifier.t) (fname : string)
  | WritingOutputTo (folder : string)
  | WritingArchiveTo (archive_fname : string).

Inductive LogLevel := DEBUG | INFO.

Record Archive := {
  archive_fname : string;
  archive_gzip : bool;
  archive_members : list TarInfo;
}.

Inductive Exception :=
  | AssertionError (msg : string)
  | ModuleNotFoundError (pkg : string)
  | FileNotFoundError (path : string).

(** The state a run works on: the process-wide registry
    [FlyteEntities.entities], the importable packages, the directory trees
    on disk, and what the run has put out so far. *)
Record World := {
  entities : list FlyteEntity;
  packages : list (string * list PyModule);
  disk : list (string * FsNode);
  written : list (string * Proto);
  archives : list Archive;
  stdout : list Message;
  logged : list (LogLevel * Message);
}.

Inductive Outcome (A : Type) :=
  | Return (a : A)
  | Raise (e : Exception).
Arguments Return {A} a.
Arguments Raise {A} e.

Definition M (A : Type) : Type := World → Outcome A * World.

Definition ret {A} (a : A) : M A := λ w, (Return a, w).

Definition bind {A B} (m : M A) (k : A → M B) : M B :=
  λ w, match m w with
       | (Return a, w') => k a w'
       | (Raise e, w') => (Raise e, w')
       end.

Definition raise {A} (e : Exception) : M A := λ w, (Raise e, w).

Declare Scope py_scope.
Delimit Scope py_scope with py.
Notation "x <- m ;; k" := (bind m (λ x, k))
  (at level 100, m at next level, right associativity) : py_scope.
Notation "m ;; k" := (bind m (λ _, k))
  (at level 100, right associativity) : py_scope.
Local Open Scope py_scope.

(** [for x in xs: acc = body(x, acc)] *)
Fixpoint for_each {A S} (xs : list A) (body : A → S → M S) (acc : S) : M S :=
  match xs with
  | [] => ret acc
  | x :: xs' => acc' <- body x acc ;; for_each xs' body acc'
  end.

(** [enumerate(xs)] *)
Fixpoint enumerate_from {A} (i : nat) (xs : list A) : list (nat * A) :=
  match xs with
  | [] => []
  | x :: xs' => (i, x) :: enumerate_from (S i) xs'
  end.

Definition enumerate {A} (xs : list A) : list (nat * A) := enumerate_from 0 xs.

(** State accessors. *)
Definition get_entities : M (list FlyteEntity) := λ w, (Return (entities w), w).

Definition append_entity (e : FlyteEntity) : M unit := λ w,
  (Return tt,
   {| entities := entities w ++ [e]; packages := packages w; disk := disk w;
      written := written w; archives := archives w; stdout := stdout w;
      logged := logged w |}).

Definition write_archive (a : Archive) : M unit := λ w,
  (Return tt,
   {| entities := entities w; packages := packages w; disk := disk w;
      written := written w; archives := archives w ++ [a];
      stdout := stdout w; logged := logged w |}).

Definition echo (msg : Message) : M unit := λ w,
  (Return tt,
   {| entities := entities w; packages := packages w; disk := disk w;
      written := written w; archives := archives w;
      stdout := stdout w ++ [msg]; logged := logged w |}).

Definition log (level : LogLevel) (msg : Message) : M unit := λ w,
  (Return tt,
   {| entities := entities w; packages := packages w; disk := disk w;
      written := written w; archives := archives w;
      stdout := stdout w; logged := logged w ++ [(level, msg)] |}).

(** ** Collaborators outside [serialize.py] *)

(** Modelled from the spec: [iterate_registerable_entities_in_order]
    ([flytekit.tools.module_loader]) is not among the sources.  The spec has
    the scanner yield [(module, binding name, object)] triples lazily,
    "packages in listed order, then module order within a package, then
    binding-declaration order within a module", a package that cannot be
    scanned being fatal; with [include_entities] only the objects of the
    listed kinds are yielded.  A lazy sequence that may fail is the triples
    it yields followed by the exception that ends it, if any. *)
Definition included (include_entities : option (list ResourceType))
    (o : Registerable) : bool :=
  match include_entities with
  | None => true
  | Some kinds => bool_decide (resource_type o ∈ kinds)
  end.

Definition module_triples (include_entities : option (list ResourceType))
    (m : PyModule) : list (string * string * Registerable) :=
  (λ ko, (__name__ m, ko.1, ko.2)) <$>
    filter (λ ko, included include_entities ko.2 = true) (bindings m).

Fixpoint lookup_assoc {A} (k : string) (l : list (string * A)) : option A :=
  match l with
  | [] => None
  | (k', a) :: l' => if decide (k = k') then Some a else lookup_assoc k l'
  end.

Fixpoint iterate_registerable_entities_in_order
    (importable : list (string * list PyModule)) (pkgs : list string)
    (include_entities : option (list ResourceType))
  : list (string * string * Registerable) * option Exception :=
  match pkgs with
  | [] => ([], None)
  | pkg :: pkgs' =>
      match lookup_assoc pkg importable with
      | None => ([], Some (ModuleNotFoundError pkg))
      | Some modules =>
          let '(rest, exc) :=
            iterate_registerable_entities_in_order importable pkgs' include_entities in
          (concat (module_triples include_entities <$> modules) ++ rest, exc)
      end
  end.

(** [for m, k, o in iterate_registerable_entities_in_order(...)]: the body
    runs on every triple the scanner yields; the scanner's exception, if
    any, surfaces after the last of them. *)
Definition for_each_scanned {S} (pkgs : list string)
    (include_entities : option (list ResourceType))
    (body : string * string * Registerable → S → M S) (acc : S) : M S :=
  λ w,
    let '(triples, exc) :=
      iterate_registerable_entities_in_order (packages w) pkgs include_entities in
    (acc' <- for_each triples body acc ;;
     match exc with
     | None => ret acc'
     | Some e => raise e
     end) w.

(** [tarfile.TarFile.gettarinfo(name, arcname)]: the member is named by
    [arcname], not by the path it is read from. *)
Definition gettarinfo (arcname : string) (node : FsNode) : TarInfo :=
  match node with
  | File data => {| ti_name := arcname; ti_type := REGTYPE; ti_data := data |}
  | Dir _ => {| ti_name := arcname; ti_type := DIRTYPE; ti_data := "" |}
  end.

(** ** A small project, for the examples *)

Module Sample.

Definition placeholder_id (kind : ResourceType) (name : string) : Identifier.t :=
  Identifier.Build kind _PROJECT_PLACEHOLDER _DOMAIN_PLACEHOLDER name
    _VERSION_PLACEHOLDER.

Definition fqdn (m k : string) (entity_type : ResourceType) : string :=
  m +:+ "." +:+ k.

Definition default_launch_plan_registerable (ctx : RegistrationSettings)
    (wf : WorkflowT) : Registerable :=
  {| resource_type := LAUNCH_PLAN;
     _instantiated_in := "";
     _id := Identifier.Build LAUNCH_PLAN (rs_project ctx) (rs_domain ctx)
              (workflow_name wf) (rs_version ctx);
     has_registered := false;
     serialize := "default launch plan of " +:+ workflow_name wf |}.

(** A toy hash: the number of bytes of the paths and contents it is fed. *)
Definition hexdigest (files : list (string * string)) : string :=
  pretty (sum_list ((λ file, String.length file.1 + String.length file.2) <$> files)).

(** No byte-compiled cache, and nothing below one. *)
Definition filter_tar_file_fn (tarinfo : TarInfo) : bool :=
  negb (String.prefix "__pycache__" (ti_name tarinfo)).

(** A toy file system: a file written straight under one of the
    directories of the disk becomes its last entry; a file written
    elsewhere leaves the trees alone. *)
Definition render (proto : Proto) : string :=
  match proto with
  | Serialized bytes => bytes
  | IdentifierIdl i => "identifier of " +:+ Identifier.name i
  end.

Fixpoint strip_prefix (prefix s : string) : option string :=
  match prefix, s with
  | EmptyString, _ => Some s
  | String c prefix', String d s' =>
      if decide (c = d) then strip_prefix prefix' s' else None
  | String _ _, EmptyString => None
  end.

Fixpoint add_entry (f : string) (node : FsNode) (entries : FsEntries) : FsEntries :=
  match entries with
  | NoEntry => Entry f node NoEntry
  | Entry f' node' rest => Entry f' node' (add_entry f node rest)
  end.

Definition fs_write (trees : list (string * FsNode)) (fname : string) (proto : Proto)
  : list (string * FsNode) :=
  (λ '(dir, tree),
     match strip_prefix (dir +:+ "/") fname, tree with
     | Some f, Dir entries => (dir, Dir (add_entry f (File (render proto)) entries))
     | _, _ => (dir, tree)
     end) <$> trees.

(** A task [T], a workflow [W] that uses it, a launch plan of [W]. *)
Definition T : PythonTaskT :=
  {| task_registerable :=
       {| resource_type := TASK; _instantiated_in := "pkg.tasks";
          _id := placeholder_id TASK "pkg.tasks.t";
          has_registered := false; serialize := "task t" |};
     task_fast_registerable :=
       {| resource_type := TASK; _instantiated_in := "pkg.tasks";
          _id := placeholder_id TASK "pkg.tasks.t";
          has_registered := false; serialize := "task t, fast" |} |}.

Definition W : WorkflowT :=
  {| workflow_name := "pkg.workflows.w";
     workflow_registerable :=
       {| resource_type := WORKFLOW; _instantiated_in := "pkg.workflows";
          _id := placeholder_id WORKFLOW "pkg.workflows.w";
          has_registered := false; serialize := "workflow w" |} |}.

Definition LP_W : LaunchPlanT :=
  {| lp_workflow := "pkg.workflows.w";
     lp_registerable :=
       {| resource_type := LAUNCH_PLAN; _instantiated_in := "pkg.workflows";
          _id := placeholder_id LAUNCH_PLAN "pkg.workflows.w";
          has_registered := false; serialize := "launch plan of w" |} |}.

(** A task that the platform client has marked as registered. *)
Definition T_registered : PythonTaskT :=
  {| task_registerable :=
       {| resource_type := TASK; _instantiated_in := "pkg.tasks";
          _id := placeholder_id TASK "pkg.tasks.old";
          has_registered := true; serialize := "task old" |};
     task_fast_registerable :=
       {| resource_type := TASK; _instantiated_in := "pkg.tasks";
          _id := placeholder_id TASK "pkg.tasks.old";
          has_registered := true; serialize := "task old, fast" |} |}.

(** The package [pkg]: one module that binds a task and a workflow. *)
Definition sdk_t : Registerable :=
  {| resource_type := TASK; _instantiated_in := "pkg.legacy";
     _id := placeholder_id TASK "";
     has_registered := false; serialize := "sdk task t" |}.

Definition sdk_w : Registerable :=
  {| resource_type := WORKFLOW; _instantiated_in := "pkg.legacy";
     _id := placeholder_id WORKFLOW "";
     has_registered := false; serialize := "sdk workflow w" |}.

Definition pkg : list PyModule :=
  [ {| __name__ := "pkg.legacy"; bindings := [("t", sdk_t); ("w", sdk_w)] |} ].

Definition source_tree : FsNode :=
  Dir (Entry "tasks.py" (File "def t(): ...")
      (Entry "__pycache__" (Dir (Entry "tasks.pyc" (File "bytecode") NoEntry))
      NoEntry)).

Definition world_with (registry : list FlyteEntity) : World :=
  {| entities := registry;
     packages := [("pkg", pkg)];
     disk := [("/src", source_tree)];
     written := []; archives := []; stdout := []; logged := [] |}.

(** The registry of the scenarios: [T] and [W], no launch plan yet. *)
Definition world : World := world_with [PythonTask T; Workflow W].

(** A registry in which [W] already has a launch plan. *)
Definition world_with_launch_plan : World :=
  world_with [Workflow W; LaunchPlan LP_W].

(** A registry whose first entity is already registered. *)
Definition world_with_registered : World :=
  world_with [PythonTask T_registered; PythonTask T].

(** The same registry and packages, after an earlier run left a file. *)
Definition world_later : World :=
  {| entities := [PythonTask T; Workflow W];
     packages := [("pkg", pkg)];
     disk := [];
     written := [("stale.pb", Serialized "stale")];
     archives := []; stdout := [FoundEntities 0]; logged := [] |}.

End Sample.

(** ** More worlds, for the examples of the file names *)

Module Scenario.

(** A registry of eleven tasks: the index takes two digits. *)
Definition world_eleven : World :=
  Sample.world_with (replicate 11 (PythonTask Sample.T)).

(** A task whose name reads like an absolute path. *)
Definition T_absolute : PythonTaskT :=
  {| task_registerable :=
       {| resource_type := TASK; _instantiated_in := "pkg.tasks";
          _id := Sample.placeholder_id TASK "/etc/passwd";
          has_registered := false; serialize := "task" |};
     task_fast_registerable :=
       {| resource_type := TASK; _instantiated_in := "pkg.tasks";
          _id := Sample.placeholder_id TASK "/etc/passwd";
          has_registered := false; serialize := "task, fast" |} |}.

Definition world_absolute : World := Sample.world_with [PythonTask T_absolute].

End Scenario.

(** * The sidecar task plugin

    A shallow embedding of [flytekit/taskplugins/sidecar/task.py]: the
    configuration [Sidecar] and [SidecarFunctionTask.get_custom], which
    fits the pod specification of a task with the primary container that
    the SDK would run. *)

(** [str.lower()], on ASCII text. *)
Definition lower_char (c : ascii) : ascii :=
  let n := N_of_ascii c in
  if decide (65 ≤ n ≤ 90)%N then ascii_of_N (n + 32) else c.

Fixpoint lower (s : string) : string :=
  match s with
  | EmptyString => EmptyString
  | String c rest => String (lower_char c) (lower rest)
  end.

(** ** The Kubernetes messages

    The messages of [k8s.io.api.core.v1.generated_pb2] that [get_custom]
    works on, with the fields it reads or writes.  [unread_fields] stands
    for all the other fields of a message, those that are set, by name:
    the code leaves them alone. *)

Module Quantity.
Record t := Build {
  string_ : string;
}.
End Quantity.

Module ResourceRequirements.
Record t := Build {
  limits : gmap string Quantity.t;
  requests : gmap string Quantity.t;
}.
End ResourceRequirements.

Module EnvVar.
Record t := Build {
  name : string;
  value : string;
}.
End EnvVar.

Module Container.
Record t := Build {
  name : string;
  image : string;
  command : list string;
  args : list string;
  resources : ResourceRequirements.t;
  env : list EnvVar.t;
  unread_fields : list (string * string);
}.
End Container.

Module PodSpec.
Record t := Build {
  containers : list Container.t;
  unread_fields : list (string * string);
}.
End PodSpec.

(** [flytekit.models.task.SidecarJob], the message whose rendering as a
    dictionary ([MessageToDict]) [get_custom] returns. *)
Module SidecarJob.
Record t := Build {
  pod_spec : PodSpec.t;
  primary_container_name : string;
}.
End SidecarJob.

Global Instance Quantity_eq_dec : EqDecision Quantity.t.
Proof. solve_decision. Defined.
Global Instance ResourceRequirements_eq_dec : EqDecision ResourceRequirements.t.
Proof. solve_decision. Defined.

(** [ResourceRequirements()]: no field set. *)
Definition empty_resource_requirements : ResourceRequirements.t :=
  {| ResourceRequirements.limits := ∅; ResourceRequirements.requests := ∅ |}.

(** [Container(name=primary_container_name)]: every other field is left
    unset. *)
Definition placeholder_container (primary_container_name : string) : Container.t :=
  {| Container.name := primary_container_name;
     Container.image := "";
     Container.command := [];
     Container.args := [];
     Container.resources := empty_resource_requirements;
     Container.env := [];
     Container.unread_fields := [] |}.

(** [if resource_requirements.ByteSize():] the serialized size of a message
    is zero exactly when none of its fields is set; for
    [ResourceRequirements] as built here, when both maps are empty (an
    entry of a map takes two bytes at least). *)
Definition ByteSize_nonzero (resource_requirements : ResourceRequirements.t) : bool :=
  negb (bool_decide (resource_requirements = empty_resource_requirements)).

(** The exceptions of [flytekit.common.exceptions.user] that the module
    raises. *)
Inductive UserException :=
  | FlyteValidationException (msg : string)
  | FlyteUserException (msg : string).

(** [class Sidecar] *)
Record Sidecar := {
  _pod_spec : PodSpec.t;
  _primary_container_name : string;
}.

(** [Sidecar.__init__]: a pod spec that is [None] and a name that is
    [None] or empty are refused. *)
Definition Sidecar__init__ (pod_spec : option PodSpec.t)
    (primary_container_name : option string) : UserException + Sidecar :=
  match pod_spec with
  | None => inl (FlyteValidationException "A pod spec cannot be undefined")
  | Some pod_spec =>
      match primary_container_name with
      | None | Some EmptyString =>
          inl (FlyteValidationException "A primary container name cannot be undefined")
      | Some primary_container_name =>
          inr {| _pod_spec := pod_spec;
                 _primary_container_name := primary_container_name |}
      end
  end.

(** Lines 62-66: [for container in containers: if container.name == ...:
    primary_exists = True; break]. *)
Fixpoint primary_exists (containers : list Container.t)
    (primary_container_name : string) : bool :=
  match containers with
  | [] => false
  | container :: rest =>
      if decide (Container.name container = primary_container_name) then true
      else primary_exists rest primary_container_name
  end.

Section SidecarTask.

(** [flyteidl.core.tasks_pb2.Resources.ResourceName], the enumeration of
    resource names, and [ResourceName.Name], the name of a member as
    text: neither is among the sources. *)
Context {ResourceName : Type}.
Variable Name : ResourceName → string.

(** [flytekit.models.task]: [Resources.ResourceEntry], [Resources], and
    [Container], the container description of an SDK task ([env] is a
    dictionary, here its items in the order [items()] gives them). *)
Record ResourceEntry := {
  re_name : ResourceName;
  re_value : string;
}.

Record Resources := {
  res_requests : list ResourceEntry;
  res_limits : list ResourceEntry;
}.

Record SdkContainer := {
  sdk_image : string;
  sdk_command : list string;
  sdk_args : list string;
  sdk_resources : Resources;
  sdk_env : list (string * string);
}.

(** [class SidecarFunctionTask]: the configuration, and [get_container],
    the method inherited from [PythonFunctionTask]. *)
Record SidecarFunctionTask := {
  task_config : Sidecar;
  get_container : RegistrationSettings → SdkContainer;
}.

(** Lines 89-92 and 93-96: [for resource in ...:
    target[ResourceName.Name(resource.name).lower()].CopyFrom(Quantity(string=resource.value))]. *)
Definition copy_resources (entries : list ResourceEntry)
    (target : gmap string Quantity.t) : gmap string Quantity.t :=
  foldl (λ target resource,
           <[lower (Name (re_name resource)) := Quantity.Build (re_value resource)]>
             target)
    target entries.

(** Lines 78-107: the primary container takes image, command, arguments
    and environment of the SDK container, and its resources when there are
    any. *)
Definition overwrite_primary (sdk_default_container : SdkContainer)
    (container : Container.t) : Container.t :=
  let resource_requirements :=
    {| ResourceRequirements.limits :=
         copy_resources (res_limits (sdk_resources sdk_default_container)) ∅;
       ResourceRequirements.requests :=
         copy_resources (res_requests (sdk_resources sdk_default_container)) ∅ |} in
  {| Container.name := Container.name container;
     Container.image := sdk_image sdk_default_container;
     Container.command := sdk_command sdk_default_container;
     Container.args := sdk_args sdk_default_container;
     Container.resources :=
       if ByteSize_nonzero resource_requirements then resource_requirements
       else Container.resources container;
     Container.env :=
       (λ '(key, val), EnvVar.Build key val) <$> sdk_env sdk_default_container;
     Container.unread_fields := Container.unread_fields container |}.

(** [get_custom]: the result, and the task with the pod specification as
    the call leaves it (the containers are changed in place). *)
Definition get_custom (self : SidecarFunctionTask) (settings : RegistrationSettings)
  : SidecarJob.t * SidecarFunctionTask :=
  let primary_container_name := _primary_container_name (task_config self) in
  let containers := PodSpec.containers (_pod_spec (task_config self)) in
  let containers :=
    if primary_exists containers primary_container_name then containers
    else containers ++ [placeholder_container primary_container_name] in
  let final_containers :=
    foldl (λ final_containers container,
             let container :=
               if decide (Container.name container = primary_container_name)
               then overwrite_primary (get_container self settings) container
               else container in
             final_containers ++ [container])
      [] containers in
  let pod_spec :=
    {| PodSpec.containers := final_containers;
       PodSpec.unread_fields := PodSpec.unread_fields (_pod_spec (task_config self)) |} in
  ({| SidecarJob.pod_spec := pod_spec;
      SidecarJob.primary_container_name := primary_container_name |},
   {| task_config := {| _pod_spec := pod_spec;
                        _primary_container_name := primary_container_name |};
      get_container := get_container self |}).

(** The containers of the pod specification of a task. *)
Definition pod_containers (self : SidecarFunctionTask) : list Container.t :=
  PodSpec.containers (_pod_spec (task_config self)).

(** The containers the second loop of [get_custom] runs over: those of the
    pod specification, and the placeholder when none bears the primary
    container name. *)
Definition with_primary (self : SidecarFunctionTask) : list Container.t :=
  if primary_exists (pod_containers self) (_primary_container_name (task_config self))
  then pod_containers self
  else pod_containers self
       ++ [placeholder_container (_primary_container_name (task_config self))].

(** What [get_custom] does to one container. *)
Definition fitted (self : SidecarFunctionTask) (settings : RegistrationSettings)
    (container : Container.t) : Container.t :=
  if decide (Container.name container = _primary_container_name (task_config self))
  then overwrite_primary (get_container self settings) container
  else container.

(** The key under which a resource entry is filed. *)
Definition resource_key (resource : ResourceEntry) : string :=
  lower (Name (re_name resource)).

End SidecarTask.

Arguments ResourceEntry : clear implicits.
Arguments Resources : clear implicits.
Arguments SdkContainer : clear implicits.
Arguments SidecarFunctionTask : clear implicits.

(** ** A sidecar task, for the examples *)

Module SidecarSample.

Inductive ResourceName := UNKNOWN | CPU | GPU | MEMORY | STORAGE.

Definition Name (r : ResourceName) : string :=
  match r with
  | UNKNOWN => "UNKNOWN"
  | CPU => "CPU"
  | GPU => "GPU"
  | MEMORY => "MEMORY"
  | STORAGE => "STORAGE"
  end.

Definition sdk_container (settings : RegistrationSettings)
  : SdkContainer ResourceName :=
  {| sdk_image := "registry/flyte:" +:+ rs_version settings;
     sdk_command := ["pyflyte-execute"];
     sdk_args := ["--task-module"; "pkg.tasks"];
     sdk_resources :=
       {| res_requests := [ {| re_name := CPU; re_value := "1" |} ];
          res_limits := [ {| re_name := CPU; re_value := "2" |};
                          {| re_name := MEMORY; re_value := "1Gi" |};
                          {| re_name := CPU; re_value := "4" |} ] |};
     sdk_env := [("FLYTE_INTERNAL_IMAGE", "registry/flyte")] |}.

(** An SDK container that asks for no resources. *)
Definition sdk_container_plain (settings : RegistrationSettings)
  : SdkContainer ResourceName :=
  {| sdk_image := "registry/flyte:" +:+ rs_version settings;
     sdk_command := ["pyflyte-execute"];
     sdk_args := [];
     sdk_resources := {| res_requests := []; res_limits := [] |};
     sdk_env := [] |}.

Definition logger : Container.t :=
  {| Container.name := "logger";
     Container.image := "fluentd:1.11";
     Container.command := ["fluentd"];
     Container.args := ["-c"; "/etc/fluent.conf"];
     Container.resources :=
       {| ResourceRequirements.limits := {["memory" := Quantity.Build "200Mi"]};
          ResourceRequirements.requests := ∅ |};
     Container.env := [EnvVar.Build "LOG_LEVEL" "info"];
     Container.unread_fields := [("volumeMounts", "logs:/var/log")] |}.

(** A primary container the user has written by hand. *)
Definition primary : Container.t :=
  {| Container.name := "primary";
     Container.image := "placeholder";
     Container.command := ["echo"];
     Container.args := ["hello"];
     Container.resources :=
       {| ResourceRequirements.limits := {["cpu" := Quantity.Build "500m"]};
          ResourceRequirements.requests := ∅ |};
     Container.env := [];
     Container.unread_fields := [("volumeMounts", "logs:/var/log")] |}.

Definition settings : RegistrationSettings :=
  {| rs_project := "project"; rs_domain := "development"; rs_version := "v1";
     rs_instance_vars := [] |}.

Definition task_with (containers : list Container.t)
    (get_container : RegistrationSettings → SdkContainer ResourceName)
  : SidecarFunctionTask ResourceName :=
  {| task_config :=
       {| _pod_spec := {| PodSpec.containers := containers;
                          PodSpec.unread_fields := [("restartPolicy", "Never")] |};
          _primary_container_name := "primary" |};
     get_container := get_container |}.

(** The pod specification names no primary container. *)
Definition task : SidecarFunctionTask ResourceName := task_with [logger] sdk_container.

(** The pod specification has a primary container, the SDK container asks
    for no resources. *)
Definition task_plain : SidecarFunctionTask ResourceName :=
  task_with [logger; primary] sdk_container_plain.

End SidecarSample.

Section Pipeline.

(** [_utils.fqdn(module, key, entity_type=...)] *)
Variable fqdn : string → string → ResourceType → string.

(** The registerable form of the launch plan that
    [LaunchPlan.get_default_launch_plan] builds for a workflow under the
    given registration settings. *)
Variable default_launch_plan_registerable :
  RegistrationSettings → WorkflowT → Registerable.

(** The file system below [flytekit.common.utils.write_proto_to_file],
    neither of which is among the sources: the directory trees as they are
    once [proto] has been written to the file [fname]. *)
Variable fs_write : list (string * FsNode) → string → Proto → list (string * FsNode).

(** [_write_proto_to_file(proto, fname)]: the file is on record as written
    and the directory trees have it.  Writing is taken to succeed, as
    [entity.serialize()] is: an error of either (spec 7(c) and 7(d)) would
    end the run in the round it occurs in, with the files of the earlier
    rounds written. *)
Definition _write_proto_to_file (proto : Proto) (fname : string) : M unit := λ w,
  (Return tt,
   {| entities := entities w; packages := packages w;
      disk := fs_write (disk w) fname proto;
      written := written w ++ [(fname, proto)]; archives := archives w;
      stdout := stdout w; logged := logged w |}).

(** [flytekit.tools.fast_registration.filter_tar_file_fn]: a predicate on
    archive members, as the spec has it ("a filter predicate"); a member it
    rejects is left out of the archive. *)
Variable _filter_tar_file_fn : TarInfo → bool.

(** The hash function of the digest: from the relative paths and the
    contents it is fed, in order, to the text of the digest. *)
Variable hexdigest : list (string * string) → string.

(** [tar.add(name, arcname, filter=...)]: a member the filter rejects is
    left out together with everything below it; the entries of a
    directory are added under [os.path.join(arcname, f)]. *)
Fixpoint tar_add (arcname : string) (node : FsNode) : list TarInfo :=
  let tarinfo := gettarinfo arcname node in
  if _filter_tar_file_fn tarinfo then
    match node with
    | File _ => [tarinfo]
    | Dir entries => tarinfo :: tar_add_entries arcname entries
    end
  else []
with tar_add_entries (arcname : string) (entries : FsEntries) : list TarInfo :=
  match entries with
  | NoEntry => []
  | Entry f node rest =>
      tar_add (Py.path_join arcname f) node ++ tar_add_entries arcname rest
  end.

(** The regular files below a node, each as the archive member it would
    be: named by its path relative to the root. *)
Fixpoint files_under (arcname : string) (node : FsNode) : list TarInfo :=
  match node with
  | File _ => [gettarinfo arcname node]
  | Dir entries => files_under_entries arcname entries
  end
with files_under_entries (arcname : string) (entries : FsEntries) : list TarInfo :=
  match entries with
  | NoEntry => []
  | Entry f node rest =>
      files_under (Py.path_join arcname f) node ++ files_under_entries arcname rest
  end.

(** Modelled from the spec: [compute_digest]
    ([flytekit.tools.fast_registration]) is not among the sources.  The
    spec has it compute "a content digest over sourceDir by hashing file
    contents and relative paths in a canonical (sorted) traversal order,
    excluding a fixed set of filtered paths [...] enumerated by a filter
    predicate", the predicate the archive is filtered with ("applying the
    same filter predicate").  So: the hash of the files of the tree that
    pass [_filter_tar_file_fn], by relative path and content, the
    canonical order being the order in which the tree lists its entries;
    a directory that is not there has no file. *)
Definition digest_entries (tree : FsNode) : list TarInfo :=
  filter (λ tarinfo, _filter_tar_file_fn tarinfo = true) (files_under "" tree).

Definition _compute_digest (source_dir : string) (tree : option FsNode) : string :=
  hexdigest
    ((λ tarinfo, (ti_name tarinfo, ti_data tarinfo))
       <$> match tree with
           | Some node => digest_entries node
           | None => []
           end).

(** Modelled from the spec: [LaunchPlan.get_default_launch_plan] is not
    among the sources.  The spec has it "synthesize its default launch
    plan [...] if one is not already registered for it"; the comment in
    [serialize_all] adds that a launch plan it creates "gets added to the
    FlyteEntities.entities list".  So: the launch plan of this workflow
    found in the live registry, or else a new one, appended to it. *)
Definition is_launch_plan_of (wf : WorkflowT) (e : FlyteEntity) : option LaunchPlanT :=
  match e with
  | LaunchPlan lp =>
      if decide (lp_workflow lp = workflow_name wf) then Some lp else None
  | _ => None
  end.

Fixpoint find_launch_plan (wf : WorkflowT) (es : list FlyteEntity) : option LaunchPlanT :=
  match es with
  | [] => None
  | e :: es' =>
      match is_launch_plan_of wf e with
      | Some lp => Some lp
      | None => find_launch_plan wf es'
      end
  end.

Definition get_default_launch_plan (ctx : RegistrationSettings) (wf : WorkflowT)
  : M LaunchPlanT :=
  registry <- get_entities ;;
  match find_launch_plan wf registry with
  | Some lp => ret lp
  | None =>
      let lp := {| lp_workflow := workflow_name wf;
                   lp_registerable := default_launch_plan_registerable ctx wf |} in
      append_entity (LaunchPlan lp) ;;
      ret lp
  end.

(** ** [serialize_tasks_only] *)

Definition truthy (folder : option string) : bool :=
  match folder with
  | Some s => negb (bool_decide (s = ""))
  | None => false
  end.

(** [if folder: fname = _os.path.join(folder, fname)] *)
Definition in_folder (folder : option string) (fname : string) : string :=
  if truthy folder then Py.path_join (default "" folder) fname else fname.

(** Lines 52-57 and 116-121: name the object, give it its identifier. *)
Definition with_identifier (m k : string) (o : Registerable) : Registerable :=
  let name := fqdn m k (resource_type o) in
  set_id o (Identifier.Build (resource_type o) _PROJECT_PLACEHOLDER
              _DOMAIN_PLACEHOLDER name _VERSION_PLACEHOLDER).

Definition assign_identifier (m k : string) (o : Registerable) : M Registerable :=
  log DEBUG (FoundModule m k (_instantiated_in o)) ;;
  ret (with_identifier m k o).

(** ["{}_{}.pb".format(fname_index, entity.id.name)] and
    ["{}_{}.identifier.pb".format(fname_index, entity._id.name)] *)
Definition record_fname (fname_index : string) (entity : Registerable) : string :=
  fname_index +:+ "_" +:+ Identifier.name (_id entity) +:+ ".pb".

Definition record_identifier_fname (fname_index : string) (entity : Registerable)
  : string :=
  fname_index +:+ "_" +:+ Identifier.name (_id entity) +:+ ".identifier.pb".

(** Lines 61-72, and 159-175 of [serialize_all]. *)
Definition write_record_pair (folder : option string) (zero_padded_length : nat)
    (i : nat) (entity : Registerable) : M unit :=
  let serialized := serialize entity in
  let fname_index := Py.zfill (Py.str i) zero_padded_length in
  let fname := record_fname fname_index entity in
  echo (Writing (_id entity) fname) ;;
  let fname := in_folder folder fname in
  _write_proto_to_file (Serialized serialized) fname ;;
  let identifier_fname := record_identifier_fname fname_index entity in
  let identifier_fname := in_folder folder identifier_fname in
  _write_proto_to_file (IdentifierIdl (_id entity)) identifier_fname.

Definition serialize_tasks_only (pkgs : list string) (folder : option string) : M unit :=
  loaded_entities <-
    for_each_scanned pkgs (Some [TASK])
      (λ '(m, k, o) loaded_entities,
         o <- assign_identifier m k o ;;
         ret (loaded_entities ++ [o]))
      [] ;;
  let zero_padded_length := _determine_text_chars (length loaded_entities) in
  for_each (enumerate loaded_entities)
    (λ '(i, entity) _, write_record_pair folder zero_padded_length i entity) tt.

(** ** [serialize_all] *)

(** Lines 114-122. *)
Definition scan_all (pkgs : list string) (ctx : RegistrationSettings)
  : M (list Registerable * RegistrationSettings) :=
  for_each_scanned pkgs None
    (λ '(m, k, o) '(loaded_entities, ctx),
       o <- assign_identifier m k o ;;
       ret (loaded_entities ++ [o],
            add_instance_var ctx {| iv_module := m; iv_name := k; iv_o := o |}))
    ([], ctx).

(** Line 126: [mode = mode if mode else SerializationMode.DEFAULT] *)
Definition effective_mode (mode : ModeArg) : ModeArg :=
  if mode_truthy mode then mode else Mode DEFAULT.

(** Lines 137-152: the body of the loop over the registry copy.  The
    [isinstance] tests of the source are the cases of the match: a task
    takes the form its mode selects, a workflow its registerable form and
    then that of its default launch plan, a launch plan its registerable
    form, anything else nothing. *)
Definition expand_entity (ctx : RegistrationSettings) (mode : ModeArg)
    (entity : FlyteEntity) (loaded_entities : list Registerable)
  : M (list Registerable) :=
  match entity with
  | PythonTask t =>
      serializable <-
        match mode with
        | Mode DEFAULT => ret (task_registerable t)
        | Mode FAST => ret (task_fast_registerable t)
        | _ => raise (AssertionError "Unrecognized serialization mode")
        end ;;
      ret (loaded_entities ++ [serializable])
  | Workflow wf =>
      let serializable := workflow_registerable wf in
      let loaded_entities := loaded_entities ++ [serializable] in
      lp <- get_default_launch_plan ctx wf ;;
      let launch_plan := lp_registerable lp in
      ret (loaded_entities ++ [launch_plan])
  | LaunchPlan lp =>
      let serializable := lp_registerable lp in
      ret (loaded_entities ++ [serializable])
  | Unrelated => ret loaded_entities
  end.

(** Lines 114-152, the first half of [serialize_all]: the batch
    [loaded_entities] the write loop runs over.  [snapshot] is
    [FlyteEntities.entities.copy()]: the list as it is when the loop
    starts. *)
Definition load_entities (pkgs : list string) (mode : ModeArg) : M (list Registerable) :=
  let registration_settings :=
    {| rs_project := _PROJECT_PLACEHOLDER; rs_domain := _DOMAIN_PLACEHOLDER;
       rs_version := _VERSION_PLACEHOLDER; rs_instance_vars := [] |} in
  scanned <- scan_all pkgs registration_settings ;;
  let '(loaded_entities, ctx) := scanned in
  registry <- get_entities ;;
  echo (FoundEntities (length registry)) ;;
  let mode := effective_mode mode in
  snapshot <- get_entities ;;
  for_each snapshot (expand_entity ctx mode) loaded_entities.

(** Lines 155-175, the second half: one round of the write loop. *)
Definition write_entity (folder : option string) (zero_padded_length : nat)
    (i : nat) (entity : Registerable) : M unit :=
  if has_registered entity then log INFO (Skipping (_id entity))
  else write_record_pair folder zero_padded_length i entity.

Definition serialize_all (pkgs : list string) (folder : option string)
    (mode : ModeArg) : M unit :=
  loaded_entities <- load_entities pkgs mode ;;
  let zero_padded_length := _determine_text_chars (length loaded_entities) in
  for_each (enumerate loaded_entities)
    (λ '(i, entity) _, write_entity folder zero_padded_length i entity) tt.

(** ** The [serialize] commands *)

Definition tasks (pkgs : list string) (folder : option string) : M unit :=
  (if truthy folder then echo (WritingOutputTo (default "" folder)) else ret tt) ;;
  serialize_tasks_only pkgs folder.


(** Lines 245-260.  The digest and the archive are made from the tree
    found under [source_dir] once [serialize_all] has returned, the files
    it wrote there included; [tarfile.open(archive_fname, "w:gz")]
    creates the archive before [tar.add] looks for the directory
    ([tar.add] leaves the archive itself out). *)
Definition fast_workflows (pkgs : list string) (source_dir : string)
    (folder : option string) : M unit :=
  (if truthy folder then echo (WritingOutputTo (default "" folder)) else ret tt) ;;
  serialize_all pkgs folder (Mode FAST) ;;
  (λ w,
    let tree := lookup_assoc source_dir (disk w) in
    let digest := _compute_digest source_dir tree in
    let folder := if truthy folder then default "" folder else "" in
    let archive_fname := Py.path_join folder (digest +:+ ".tar.gz") in
    (echo (WritingArchiveTo archive_fname) ;;
     match tree with
     | Some node =>
         write_archive {| archive_fname := archive_fname; archive_gzip := true;
                          archive_members := tar_add "" node |}
     | None =>
         write_archive {| archive_fname := archive_fname; archive_gzip := true;
                          archive_members := [] |} ;;
         raise (FileNotFoundError source_dir)
     end) w).

(** ** Vocabulary of the statements *)

(** The two files of a record pair, as the write loops name and fill them. *)
Definition record_pair (folder : option string) (zero_padded_length : nat)
    (ie : nat * Registerable) : list (string * Proto) :=
  let fname_index := Py.zfill (Py.str ie.1) zero_padded_length in
  [ (in_folder folder (record_fname fname_index ie.2), Serialized (serialize ie.2));
    (in_folder folder (record_identifier_fname fname_index ie.2),
     IdentifierIdl (_id ie.2)) ].

(** What one round of the write loop of [serialize_all] sends to disk and to
    the log. *)
Definition written_for (folder : option string) (zero_padded_length : nat)
    (ie : nat * Registerable) : list (string * Proto) :=
  if has_registered ie.2 then [] else record_pair folder zero_padded_length ie.

(** The two names of [written_for], before the folder is put in front. *)
Definition fnames_for (zero_padded_length : nat) (ie : nat * Registerable)
  : list string :=
  let fname_index := Py.zfill (Py.str ie.1) zero_padded_length in
  if has_registered ie.2 then []
  else [record_fname fname_index ie.2; record_identifier_fname fname_index ie.2].

Definition logged_for (ie : nat * Registerable) : list (LogLevel * Message) :=
  if has_registered ie.2 then [(INFO, Skipping (_id ie.2))] else [].

(** The objects a scan yields, with the identifiers the scan loop gives them. *)
Definition identified (triples : list (string * string * Registerable))
  : list Registerable :=
  (λ mko, with_identifier mko.1.1 mko.1.2 mko.2) <$> triples.

(** What one round of the expansion loop adds to the batch, given the
    registry as the run leaves it. *)
Inductive visited (mode : ModeArg) (registry : list FlyteEntity)
  : FlyteEntity → list Registerable → Prop :=
  | visited_task_default t :
      mode = Mode DEFAULT → visited mode registry (PythonTask t) [task_registerable t]
  | visited_task_fast t :
      mode = Mode FAST → visited mode registry (PythonTask t) [task_fast_registerable t]
  | visited_workflow wf lp :
      find_launch_plan wf registry = Some lp →
      visited mode registry (Workflow wf)
        [workflow_registerable wf; lp_registerable lp]
  | visited_launch_plan lp :
      visited mode registry (LaunchPlan lp) [lp_registerable lp]
  | visited_unrelated :
      visited mode registry Unrelated [].

(** The launch plan [get_default_launch_plan] creates for a workflow. *)
Definition synthesized (ctx : RegistrationSettings) (wf : WorkflowT) : FlyteEntity :=
  LaunchPlan {| lp_workflow := workflow_name wf;
                lp_registerable := default_launch_plan_registerable ctx wf |}.

(** The registration settings the expansion runs under: the placeholders and
    the instance variables of the scanned objects. *)
Definition settings_after (triples : list (string * string * Registerable))
  : RegistrationSettings :=
  {| rs_project := _PROJECT_PLACEHOLDER; rs_domain := _DOMAIN_PLACEHOLDER;
     rs_version := _VERSION_PLACEHOLDER;
     rs_instance_vars :=
       (λ mko, {| iv_module := mko.1.1; iv_name := mko.1.2;
                  iv_o := with_identifier mko.1.1 mko.1.2 mko.2 |}) <$> triples |}.

(** The files a computation adds to those already written. *)
Definition written_by {A} (c : M A) (w : World) : list (string * Proto) :=
  drop (length (written w)) (written (c w).2).

(** Two worlds that hold the same registry and the same importable
    packages. *)
Definition same_inputs (w1 w2 : World) : Prop :=
  entities w1 = entities w2 ∧ packages w1 = packages w2.

(** A computation whose result and whose effect on registry and packages
    depend on nothing else in the world. *)
Definition respects {A} (c : M A) : Prop :=
  ∀ w1 w2, same_inputs w1 w2 →
    (c w1).1 = (c w2).1 ∧ same_inputs (c w1).2 (c w2).2.

(** From [w] to [w'] nothing was sent to disk, and packages and directory
    trees are as they were. *)
Definition no_output (w w' : World) : Prop :=
  packages w' = packages w ∧ disk w' = disk w ∧ archives w' = archives w
  ∧ written w' = written w.

(** The directory trees once the given files have been written, one after
    the other. *)
Definition disk_after (files : list (string * Proto))
    (trees : list (string * FsNode)) : list (string * FsNode) :=
  foldl (λ trees file, fs_write trees file.1 file.2) trees files.

(** The regular files among archive members. *)
Definition regular (members : list TarInfo) : list TarInfo :=
  filter (λ tarinfo, ti_type tarinfo = REGTYPE) members.

(** A filter that rejects a directory of the tree rejects every file below
    it. *)
Fixpoint hereditary (arcname : string) (node : FsNode) : Prop :=
  match node with
  | File _ => True
  | Dir entries =>
      (_filter_tar_file_fn (gettarinfo arcname node) = false →
       Forall (λ tarinfo, _filter_tar_file_fn tarinfo = false)
         (files_under_entries arcname entries))
      ∧ hereditary_entries arcname entries
  end
with hereditary_entries (arcname : string) (entries : FsEntries) : Prop :=
  match entries with
  | NoEntry => True
  | Entry f node rest =>
      hereditary (Py.path_join arcname f) node ∧ hereditary_entries arcname rest
  end.

(** An entry of a directory. *)
Fixpoint entry_of (f : string) (node : FsNode) (entries : FsEntries) : Prop :=
  match entries with
  | NoEntry => False
  | Entry f' node' rest => (f = f' ∧ node = node') ∨ entry_of f node rest
  end.

(** A decimal digit, and a string of decimal digits. *)
Definition is_digit (c : ascii) : Prop := ∃ x : N, (x < 10)%N ∧ c = pretty_N_char x.

Fixpoint digits (s : string) : Prop :=
  match s with
  | EmptyString => True
  | String c rest => is_digit c ∧ digits rest
  end.

(** What [os.path.join(folder, fname)] puts in front of a relative
    [fname]: nothing when no folder is given, else the folder and a
    separator, unless the folder brings one. *)
Definition folder_prefix (folder : option string) : string :=
  match folder with
  | Some d =>
      if bool_decide (d = "") then ""
      else if Py.ends_with_slash d then d
      else d +:+ "/"
  | None => ""
  end.


(** The two names of a record pair, before the folder is put in front. *)
Definition pair_fnames (zero_padded_length : nat) (ie : nat * Registerable)
  : list string :=
  let fname_index := Py.zfill (Py.str ie.1) zero_padded_length in
  [record_fname fname_index ie.2; record_identifier_fname fname_index ie.2].

(** * Properties *)

(** ** Decimal rendering and zero padding *)

Section Rendering.

Lemma pretty_N_go_length_ge (x : N) (s : string) :
  String.length s ≤ String.length (pretty_N_go x s).
Proof.
  revert s. induction (N.lt_wf_0 x) as [x _ IH]; intros s.
  destruct (decide (x = 0%N)) as [->|Hx]; [by rewrite pretty_N_go_0|].
  rewrite pretty_N_go_step by lia.
  etrans; [|apply IH; apply N.div_lt; lia]. simpl. lia.
Qed.

Lemma pretty_N_go_length_le (k : nat) : ∀ (x : N) (s : string),
  (x < 10 ^ N.of_nat k)%N →
  String.length (pretty_N_go x s) ≤ k + String.length s.
Proof.
  induction k as [|k IH]; intros x s Hx.
  - assert (x = 0%N) as -> by (simpl in Hx; lia). rewrite pretty_N_go_0. lia.
  - destruct (decide (x = 0%N)) as [->|Hx0]; [rewrite pretty_N_go_0; lia|].
    rewrite pretty_N_go_step by lia.
    etrans; [apply IH|simpl; lia].
    rewrite Nat2N.inj_succ, N.pow_succ_r' in Hx.
    apply N.Div0.div_lt_upper_bound; lia.
Qed.

Lemma pretty_N_go_length_gt (k : nat) : ∀ (x : N) (s : string),
  (10 ^ N.of_nat k ≤ x)%N →
  S k + String.length s ≤ String.length (pretty_N_go x s).
Proof.
  induction k as [|k IH]; intros x s Hx.
  - rewrite pretty_N_go_step by (simpl in Hx; lia).
    etrans; [|apply pretty_N_go_length_ge]. simpl. lia.
  - rewrite Nat2N.inj_succ, N.pow_succ_r' in Hx.
    assert (0 < 10 ^ N.of_nat k)%N by (apply N.neq_0_lt_0, N.pow_nonzero; lia).
    rewrite pretty_N_go_step by lia.
    etrans; [|apply IH]; [simpl; lia|].
    apply N.div_le_lower_bound; lia.
Qed.

Lemma str_unfold (i : nat) :
  Py.str i = if decide (i = 0) then "0" else pretty_N_go (N.of_nat i) "".
Proof.
  unfold Py.str, pretty, pretty_nat, pretty, pretty_N.
  repeat case_decide; try done; lia.
Qed.

Lemma str_length_pos (i : nat) : 1 ≤ String.length (Py.str i).
Proof.
  rewrite str_unfold. case_decide; [done|].
  pose proof (pretty_N_go_length_gt 0 (N.of_nat i) "") as Hlen.
  simpl in Hlen. apply Hlen. lia.
Qed.

Lemma pow10_N (k : nat) : N.of_nat (10 ^ k) = (10 ^ N.of_nat k)%N.
Proof. by rewrite Nat2N.inj_pow. Qed.

Lemma str_length_le (k i : nat) :
  1 ≤ k → i < 10 ^ k → String.length (Py.str i) ≤ k.
Proof.
  intros Hk Hi. rewrite str_unfold. case_decide; [done|].
  pose proof (pretty_N_go_length_le k (N.of_nat i) "") as Hlen.
  simpl in Hlen. rewrite Nat.add_0_r in Hlen. apply Hlen.
  rewrite <-pow10_N. lia.
Qed.

Lemma str_length_gt (k i : nat) :
  10 ^ k ≤ i → S k ≤ String.length (Py.str i).
Proof.
  intros Hi. assert (0 < 10 ^ k) by (apply Nat.neq_0_lt_0, Nat.pow_nonzero; lia).
  rewrite str_unfold. case_decide; [lia|].
  pose proof (pretty_N_go_length_gt k (N.of_nat i) "") as Hlen.
  simpl in Hlen. rewrite Nat.add_0_r in Hlen. apply Hlen.
  rewrite <-pow10_N. lia.
Qed.

(** No rendering of a natural number starts with a sign. *)
Lemma pretty_N_char_unsigned (x : N) : Py.is_sign (pretty_N_char x) = false.
Proof. unfold pretty_N_char. by repeat case_match. Qed.

Lemma pretty_N_go_unsigned (x : N) (s : string) :
  Py.unsigned s → Py.unsigned (pretty_N_go x s).
Proof.
  revert s. induction (N.lt_wf_0 x) as [x _ IH]; intros s Hs.
  destruct (decide (x = 0%N)) as [->|Hx]; [by rewrite pretty_N_go_0|].
  rewrite pretty_N_go_step by lia.
  apply IH; [apply N.div_lt; lia|]. apply pretty_N_char_unsigned.
Qed.

Lemma str_unsigned (i : nat) : Py.unsigned (Py.str i).
Proof.
  rewrite str_unfold. case_decide; [done|]. by apply pretty_N_go_unsigned.
Qed.

Lemma string_app_cons (c : ascii) (s t : string) :
  String c s +:+ t = String c (s +:+ t).
Proof. done. Qed.

Lemma string_app_empty_r (s : string) : s +:+ "" = s.
Proof.
  induction s as [|c s IH]; [done|]. by rewrite string_app_cons, IH.
Qed.

Lemma zfill_unsigned (s : string) (width : nat) :
  Py.unsigned s → Py.zfill s width = Py.zeros (width - String.length s) +:+ s.
Proof.
  unfold Py.zfill. destruct s as [|c rest].
  - intros _. by rewrite string_app_empty_r.
  - simpl. by intros ->.
Qed.

Lemma zfill_str (i width : nat) :
  Py.zfill (Py.str i) width
  = Py.zeros (width - String.length (Py.str i)) +:+ Py.str i.
Proof. apply zfill_unsigned, str_unsigned. Qed.

Lemma length_app_string (s1 s2 : string) :
  String.length (s1 +:+ s2) = String.length s1 + String.length s2.
Proof.
  induction s1 as [|c s1 IH]; [done|].
  rewrite string_app_cons. simpl. by rewrite IH.
Qed.

Lemma length_zeros (k : nat) : String.length (Py.zeros k) = k.
Proof. induction k as [|k IH]; simpl; [done|]. by rewrite IH. Qed.

Lemma zfill_str_length (i width : nat) :
  String.length (Py.zfill (Py.str i) width)
  = Nat.max width (String.length (Py.str i)).
Proof. rewrite zfill_str, length_app_string, length_zeros. lia. Qed.

(** Reading the digits back gives the number: nothing is lost in rendering
    or in padding. *)
Lemma digit_value_pretty_N_char (x : N) :
  (x < 10)%N → Py.digit_value (pretty_N_char x) = N.to_nat x.
Proof.
  intros Hx.
  assert (x = 0 ∨ x = 1 ∨ x = 2 ∨ x = 3 ∨ x = 4 ∨ x = 5 ∨ x = 6 ∨ x = 7
          ∨ x = 8 ∨ x = 9)%N as Hcases by lia.
  repeat (destruct Hcases as [->|Hcases]; [done|]). by subst.
Qed.

Lemma int_pretty_N_go (x : N) (s : string) :
  Py.int (pretty_N_go x s) = N.to_nat x * 10 ^ String.length s + Py.int s.
Proof.
  revert s. induction (N.lt_wf_0 x) as [x _ IH]; intros s.
  destruct (decide (x = 0%N)) as [->|Hx]; [by rewrite pretty_N_go_0|].
  rewrite pretty_N_go_step by lia.
  rewrite IH by (apply N.div_lt; lia). simpl.
  rewrite digit_value_pretty_N_char by (apply N.mod_lt; lia).
  rewrite (N.div_mod x 10) at 3 by lia.
  rewrite N2Nat.inj_add, N2Nat.inj_mul.
  change (N.to_nat 10) with 10. lia.
Qed.

Lemma int_str (i : nat) : Py.int (Py.str i) = i.
Proof.
  rewrite str_unfold. case_decide; [by subst|].
  rewrite int_pretty_N_go. simpl. lia.
Qed.

Lemma int_zeros_app (k : nat) (s : string) : Py.int (Py.zeros k +:+ s) = Py.int s.
Proof.
  induction k as [|k IH]; [done|].
  simpl Py.zeros. rewrite string_app_cons. simpl. by rewrite IH.
Qed.

Lemma int_zfill_str (i width : nat) : Py.int (Py.zfill (Py.str i) width) = i.
Proof. by rewrite zfill_str, int_zeros_app, int_str. Qed.

Lemma zfill_str_inj (width i j : nat) :
  Py.zfill (Py.str i) width = Py.zfill (Py.str j) width → i = j.
Proof.
  intros H. apply (f_equal Py.int) in H. by rewrite !int_zfill_str in H.
Qed.

(** [ceil_log10]: the least exponent whose power of ten reaches [n]. *)
Lemma ceil_log10_from_spec (fuel : nat) : ∀ k n,
  n ≤ 10 ^ (k + fuel) →
  (∀ j, j < k → 10 ^ j < n) →
  let r := Py.ceil_log10_from fuel k (10 ^ k) n in
  n ≤ 10 ^ r ∧ ∀ j, j < r → 10 ^ j < n.
Proof.
  induction fuel as [|fuel IH]; intros k n Hfuel Hk; simpl.
  - rewrite Nat.add_0_r in Hfuel. done.
  - case_decide as Hle; [done|].
    replace (10 * 10 ^ k) with (10 ^ S k) by (simpl; lia).
    apply IH.
    + by replace (S k + fuel) with (k + S fuel) by lia.
    + intros j Hj. destruct (decide (j = k)) as [->|]; [lia|]. apply Hk. lia.
Qed.

Lemma ceil_log10_spec (n : nat) :
  n ≤ 10 ^ Py.ceil_log10 n ∧ ∀ j, j < Py.ceil_log10 n → 10 ^ j < n.
Proof.
  apply (ceil_log10_from_spec n 0 n).
  - simpl. pose proof (Nat.pow_gt_lin_r 10 n). lia.
  - intros j Hj. lia.
Qed.

Lemma ceil_log10_least (n k : nat) : n ≤ 10 ^ k → Py.ceil_log10 n ≤ k.
Proof.
  intros Hk. destruct (ceil_log10_spec n) as [_ Hlt].
  destruct (decide (Py.ceil_log10 n ≤ k)) as [|Hgt]; [done|].
  specialize (Hlt k). lia.
Qed.

(** [ceil_log10 n] is the ceiling of the real number [ln n / ln 10]. *)
Lemma ln_10_pos : (0 < ln 10)%R.
Proof. rewrite <-ln_1. apply ln_increasing; lra. Qed.

Lemma ln_pow10 (k : nat) : ln (INR (10 ^ k)) = (INR k * ln 10)%R.
Proof.
  rewrite pow_INR. replace (INR 10) with 10%R by (simpl; lra).
  apply ln_pow. lra.
Qed.

Lemma Rlt_quotient (a x d : R) : (0 < d)%R → (a * d < x)%R → (a < x / d)%R.
Proof.
  intros Hd H. apply (Rmult_lt_reg_r d); [done|].
  unfold Rdiv. rewrite Rmult_assoc, Rinv_l by lra. lra.
Qed.

Lemma Rle_quotient (a x d : R) : (0 < d)%R → (x <= a * d)%R → (x / d <= a)%R.
Proof.
  intros Hd H. apply (Rmult_le_reg_r d); [done|].
  unfold Rdiv. rewrite Rmult_assoc, Rinv_l by lra. lra.
Qed.

Lemma ceil_log10_ceiling (n : nat) :
  1 ≤ n →
  (INR (Py.ceil_log10 n) - 1 < ln (INR n) / ln 10 <= INR (Py.ceil_log10 n))%R.
Proof.
  intros Hn. destruct (ceil_log10_spec n) as [Hle Hlt].
  pose proof ln_10_pos as H10.
  assert (0 < INR n)%R as Hpos by (apply lt_0_INR; lia).
  split.
  - apply Rlt_quotient; [done|].
    destruct (Py.ceil_log10 n) as [|j].
    + simpl. assert (0 <= ln (INR n))%R; [|lra].
      rewrite <-ln_1. destruct (decide (n = 1)) as [->|]; [simpl; lra|].
      left. apply ln_increasing; [lra|]. change 1%R with (INR 1). apply lt_INR. lia.
    + rewrite S_INR. replace (INR j + 1 - 1)%R with (INR j) by lra.
      rewrite <-ln_pow10. apply ln_increasing.
      * apply lt_0_INR. assert (10 ^ j ≠ 0) by (apply Nat.pow_nonzero; lia). lia.
      * apply lt_INR, Hlt. lia.
  - apply Rle_quotient; [done|]. rewrite <-ln_pow10.
    apply le_INR in Hle. destruct Hle as [Hlt'|Heq].
    + left. by apply ln_increasing.
    + rewrite Heq. lra.
Qed.

End Rendering.

(** ** The width of the index in file names *)

Example determine_text_chars_values :
  _determine_text_chars 0 = 0 ∧ _determine_text_chars 1 = 0
  ∧ _determine_text_chars 2 = 1 ∧ _determine_text_chars 10 = 1
  ∧ _determine_text_chars 11 = 2 ∧ _determine_text_chars 100 = 2
  ∧ _determine_text_chars 101 = 3 ∧ _determine_text_chars 1000 = 3.
Proof. by vm_compute. Qed.

Example zfill_values :
  Py.zfill (Py.str 7) 3 = "007" ∧ Py.zfill (Py.str 1234) 3 = "1234"
  ∧ Py.zfill (Py.str 0) 0 = "0" ∧ Py.zfill "-5" 4 = "-005".
Proof. by vm_compute. Qed.

Lemma determine_text_chars_pos (n : nat) :
  2 ≤ n →
  1 ≤ _determine_text_chars n ∧ 10 ^ (_determine_text_chars n - 1) < n
  ∧ n ≤ 10 ^ _determine_text_chars n.
Proof.
  intros Hn. unfold _determine_text_chars. case_decide; [lia|].
  destruct (ceil_log10_spec n) as [Hle Hlt].
  assert (1 ≤ Py.ceil_log10 n) as Hpos.
  { destruct (Py.ceil_log10 n); [simpl in Hle; lia|lia]. }
  split_and!; [done| |done]. apply Hlt. lia.
Qed.

(** With two entries or more every index takes exactly the computed
    number of characters. *)
Lemma index_length (n i : nat) :
  2 ≤ n → i < n →
  String.length (Py.zfill (Py.str i) (_determine_text_chars n))
  = _determine_text_chars n.
Proof.
  intros Hn Hi. destruct (determine_text_chars_pos n Hn) as (Hw & _ & Hle).
  rewrite zfill_str_length.
  pose proof (str_length_le (_determine_text_chars n) i Hw). lia.
Qed.

(** C2, as stated, fails for a batch of one entry: the width is [0], and the
    only index, [0], is rendered as the one character ["0"]. *)
Lemma determine_text_chars_single_entry :
  _determine_text_chars 1 = 0
  ∧ Py.zfill (Py.str 0) (_determine_text_chars 1) = "0"
  ∧ ¬ (∀ n i, i < n →
         String.length (Py.zfill (Py.str i) (_determine_text_chars n))
         = _determine_text_chars n).
Proof.
  split_and!; [done|done|]. intros H. specialize (H 1 0). vm_compute in H. lia.
Qed.

(** C2 (amended): for a length [n] up to [10 ^ 15], the lengths for which
    the floating-point logarithm of the source has the ceiling of the
    exact one, [_determine_text_chars n] is [0] for [n = 0] and otherwise
    [ceil(log10 n)], the integer [w] with [w - 1 < ln n / ln 10 <= w],
    which is the least [k] with [n <= 10^k].  For every such [n] other
    than [1] each index [i < n] is rendered by [str(i).zfill(w)] in
    exactly [w] characters from which [i] is read back, and no smaller
    width does that for all of them; the widths for [10], [11], [100] and
    [101] are [1], [2], [2] and [3].  For [n = 1] the width is [0] and the
    index [0] is rendered as ["0"]. *)
Theorem determine_text_chars_correct (n : nat) :
  (N.of_nat n ≤ 10 ^ 15)%N →
  (n = 0 → _determine_text_chars n = 0)
  ∧ (n ≠ 0 →
       (INR (_determine_text_chars n) - 1 < ln (INR n) / ln 10
        <= INR (_determine_text_chars n))%R
       ∧ n ≤ 10 ^ _determine_text_chars n
       ∧ ∀ k, n ≤ 10 ^ k → _determine_text_chars n ≤ k)
  ∧ (n ≠ 1 → ∀ i, i < n →
       String.length (Py.zfill (Py.str i) (_determine_text_chars n))
       = _determine_text_chars n
       ∧ Py.int (Py.zfill (Py.str i) (_determine_text_chars n)) = i)
  ∧ (n ≠ 1 → ∀ w, w < _determine_text_chars n →
       ∃ i, i < n ∧ String.length (Py.zfill (Py.str i) w) ≠ w)
  ∧ (n = 1 →
       _determine_text_chars n = 0
       ∧ Py.zfill (Py.str 0) (_determine_text_chars n) = "0")
  ∧ _determine_text_chars 10 = 1 ∧ _determine_text_chars 11 = 2
  ∧ _determine_text_chars 100 = 2 ∧ _determine_text_chars 101 = 3.
Proof.
  intros _. split_and!; try by vm_compute.
  - by intros ->.
  - intros Hn. unfold _determine_text_chars. case_decide; [done|].
    destruct (ceil_log10_spec n) as [Hle _].
    split; [apply ceil_log10_ceiling; lia|]. split; [done|]. apply ceil_log10_least.
  - intros Hn i Hi. split; [apply index_length; lia|apply int_zfill_str].
  - intros Hn w Hw. destruct (decide (n = 0)) as [->|Hn0]; [vm_compute in Hw; lia|].
    destruct (determine_text_chars_pos n) as (Hpos & Hlt & _); [lia|].
    exists (n - 1). split; [lia|]. rewrite zfill_str_length.
    pose proof (str_length_gt (_determine_text_chars n - 1) (n - 1)). lia.
  - by intros ->.
Qed.

Lemma determine_text_chars_correct_witness :
  (N.of_nat 11 ≤ 10 ^ 15)%N
  ∧ String.length (Py.zfill (Py.str 10) (_determine_text_chars 11)) = 2
  ∧ Py.int (Py.zfill (Py.str 10) (_determine_text_chars 11)) = 10.
Proof.
  assert (N.of_nat 11 ≤ 10 ^ 15)%N as Hbound by lia.
  split; [exact Hbound|].
  destruct (determine_text_chars_correct 11 Hbound) as (_ & _ & H & _).
  apply (H ltac:(lia) 10). lia.
Defined.

(** ** The monad *)

Ltac run_monad :=
  cbv [bind ret raise echo log _write_proto_to_file write_archive get_entities
       append_entity write_record_pair write_entity assign_identifier]; simpl.

Lemma bind_return {A B} (m : M A) (k : A → M B) (w w' : World) (a : A) :
  m w = (Return a, w') → bind m k w = k a w'.
Proof. unfold bind. by intros ->. Qed.

Lemma bind_raise {A B} (m : M A) (k : A → M B) (w w' : World) (e : Exception) :
  m w = (Raise e, w') → bind m k w = (Raise e, w').
Proof. unfold bind. by intros ->. Qed.

Lemma enumerate_from_lookup {A} (xs : list A) (i0 k : nat) (x : A) :
  xs !! k = Some x → (i0 + k, x) ∈ enumerate_from i0 xs.
Proof.
  revert i0 k. induction xs as [|y xs IH]; intros i0 k Hk; [done|].
  destruct k as [|k]; simpl in *.
  - injection Hk as ->. rewrite Nat.add_0_r. apply list_elem_of_here.
  - apply list_elem_of_further. replace (i0 + S k) with (S i0 + k) by lia. by apply IH.
Qed.

Lemma enumerate_from_elem {A} (xs : list A) (i0 i : nat) (x : A) :
  (i, x) ∈ enumerate_from i0 xs → ∃ k, i = i0 + k ∧ xs !! k = Some x.
Proof.
  revert i0. induction xs as [|y xs IH]; intros i0 Hin; simpl in *.
  - by apply elem_of_nil in Hin.
  - apply elem_of_cons in Hin as [[= -> ->]|Hin].
    + exists 0. split; [lia|done].
    + apply IH in Hin as (k & -> & Hk). exists (S k). split; [lia|done].
Qed.

(** ** The write loops *)

Lemma disk_after_app files1 files2 trees :
  disk_after (files1 ++ files2) trees = disk_after files2 (disk_after files1 trees).
Proof. apply foldl_app. Qed.

Lemma write_record_pair_spec folder zero_padded_length i entity w :
  ∃ w', write_record_pair folder zero_padded_length i entity w = (Return tt, w')
    ∧ entities w' = entities w ∧ packages w' = packages w
    ∧ disk w' = disk_after (record_pair folder zero_padded_length (i, entity)) (disk w)
    ∧ archives w' = archives w ∧ logged w' = logged w
    ∧ written w' = written w ++ record_pair folder zero_padded_length (i, entity).
Proof.
  eexists. split; [by run_monad|]. simpl. split_and!; try done.
  by rewrite <-app_assoc.
Qed.

Lemma write_entity_spec folder zero_padded_length i entity w :
  ∃ w', write_entity folder zero_padded_length i entity w = (Return tt, w')
    ∧ entities w' = entities w ∧ packages w' = packages w
    ∧ disk w' = disk_after (written_for folder zero_padded_length (i, entity)) (disk w)
    ∧ archives w' = archives w
    ∧ logged w' = logged w ++ logged_for (i, entity)
    ∧ written w' = written w ++ written_for folder zero_padded_length (i, entity).
Proof.
  unfold write_entity, written_for, logged_for. simpl.
  destruct (has_registered entity).
  - eexists. split; [by run_monad|]. simpl. by rewrite !app_nil_r.
  - destruct (write_record_pair_spec folder zero_padded_length i entity w)
      as (w' & -> & ? & ? & ? & ? & ? & ?).
    exists w'. rewrite app_nil_r. done.
Qed.

Lemma write_loop_spec folder zero_padded_length items w :
  ∃ w', for_each items
          (λ '(i, entity) _, write_entity folder zero_padded_length i entity) tt w
        = (Return tt, w')
    ∧ entities w' = entities w ∧ packages w' = packages w
    ∧ disk w'
      = disk_after (flat_map (written_for folder zero_padded_length) items) (disk w)
    ∧ archives w' = archives w
    ∧ logged w' = logged w ++ flat_map logged_for items
    ∧ written w' = written w ++ flat_map (written_for folder zero_padded_length) items.
Proof.
  revert w. induction items as [|[i entity] items IH]; intros w; simpl.
  - exists w. by rewrite !app_nil_r.
  - destruct (write_entity_spec folder zero_padded_length i entity w)
      as (w1 & Hrun & He & Hp & Hd & Ha & Hl & Hw).
    destruct (IH w1) as (w' & Hrun' & He' & Hp' & Hd' & Ha' & Hl' & Hw').
    exists w'. rewrite (bind_return _ _ _ _ _ Hrun).
    split; [destruct Hrun'; done|].
    rewrite He', Hp', Hd', Ha', Hl', Hw', He, Hp, Hd, Ha, Hl, Hw.
    by rewrite disk_after_app, <-!app_assoc.
Qed.

Lemma tasks_write_loop_spec folder zero_padded_length items w :
  ∃ w', for_each items
          (λ '(i, entity) _, write_record_pair folder zero_padded_length i entity) tt w
        = (Return tt, w')
    ∧ entities w' = entities w ∧ packages w' = packages w
    ∧ disk w'
      = disk_after (flat_map (record_pair folder zero_padded_length) items) (disk w)
    ∧ archives w' = archives w ∧ logged w' = logged w
    ∧ written w' = written w ++ flat_map (record_pair folder zero_padded_length) items.
Proof.
  revert w. induction items as [|[i entity] items IH]; intros w; simpl.
  - exists w. by rewrite !app_nil_r.
  - destruct (write_record_pair_spec folder zero_padded_length i entity w)
      as (w1 & Hrun & He & Hp & Hd & Ha & Hl & Hw).
    destruct (IH w1) as (w' & Hrun' & He' & Hp' & Hd' & Ha' & Hl' & Hw').
    exists w'. rewrite (bind_return _ _ _ _ _ Hrun).
    split; [destruct Hrun'; done|].
    rewrite He', Hp', Hd', Ha', Hl', Hw', He, Hp, Hd, Ha, Hl, Hw.
    split_and!; try done. by rewrite <-app_assoc.
Qed.

(** ** The scan loops *)

Lemma assign_identifier_spec m k o w :
  ∃ w', assign_identifier m k o w = (Return (with_identifier m k o), w')
    ∧ entities w' = entities w ∧ packages w' = packages w ∧ disk w' = disk w
    ∧ archives w' = archives w ∧ written w' = written w ∧ stdout w' = stdout w.
Proof. eexists. split; [by run_monad|]. done. Qed.

Lemma scan_all_loop_spec triples loaded ctx w :
  ∃ w', for_each triples
          (λ '(m, k, o) '(loaded_entities, ctx),
             o <- assign_identifier m k o ;;
             ret (loaded_entities ++ [o],
                  add_instance_var ctx {| iv_module := m; iv_name := k; iv_o := o |})
          )%py
          (loaded, ctx) w
        = (Return (loaded ++ identified triples,
                   {| rs_project := rs_project ctx; rs_domain := rs_domain ctx;
                      rs_version := rs_version ctx;
                      rs_instance_vars :=
                        rs_instance_vars ctx
                        ++ rs_instance_vars (settings_after triples) |}), w')
    ∧ entities w' = entities w ∧ packages w' = packages w ∧ disk w' = disk w
    ∧ archives w' = archives w ∧ written w' = written w ∧ stdout w' = stdout w.
Proof.
  revert loaded ctx w.
  induction triples as [|[[m k] o] triples IH]; intros loaded ctx w; simpl.
  - exists w. rewrite !app_nil_r. by destruct ctx.
  - destruct (assign_identifier_spec m k o w) as (w1 & Hrun & He & Hp & Hd & Ha & Hw & Hs).
    destruct (IH (loaded ++ [with_identifier m k o])
                (add_instance_var ctx
                   {| iv_module := m; iv_name := k; iv_o := with_identifier m k o |}) w1)
      as (w' & Hrun' & He' & Hp' & Hd' & Ha' & Hw' & Hs').
    exists w'. split.
    + unfold bind at 1. unfold bind at 1. rewrite Hrun. unfold ret at 1.
      rewrite Hrun'. simpl. by rewrite <-!app_assoc.
    + by rewrite He', Hp', Hd', Ha', Hw', Hs'.
Qed.

Lemma tasks_scan_loop_spec triples loaded w :
  ∃ w', for_each triples
          (λ '(m, k, o) loaded_entities,
             o <- assign_identifier m k o ;;
             ret (loaded_entities ++ [o]))%py
          loaded w
        = (Return (loaded ++ identified triples), w')
    ∧ entities w' = entities w ∧ packages w' = packages w ∧ disk w' = disk w
    ∧ archives w' = archives w ∧ written w' = written w ∧ stdout w' = stdout w.
Proof.
  revert loaded w.
  induction triples as [|[[m k] o] triples IH]; intros loaded w; simpl.
  - exists w. by rewrite !app_nil_r.
  - destruct (assign_identifier_spec m k o w) as (w1 & Hrun & He & Hp & Hd & Ha & Hw & Hs).
    destruct (IH (loaded ++ [with_identifier m k o]) w1)
      as (w' & Hrun' & He' & Hp' & Hd' & Ha' & Hw' & Hs').
    exists w'. split.
    + unfold bind at 1. unfold bind at 1. rewrite Hrun. unfold ret at 1.
      rewrite Hrun'. simpl. by rewrite <-!app_assoc.
    + by rewrite He', Hp', Hd', Ha', Hw', Hs'.
Qed.

(** The scan of [serialize_all]: the objects found, identified, and the
    registration settings that know them; or the scanner's exception. *)
Lemma scan_all_spec pkgs w triples exc :
  iterate_registerable_entities_in_order (packages w) pkgs None = (triples, exc) →
  ∃ w', scan_all pkgs
          {| rs_project := _PROJECT_PLACEHOLDER; rs_domain := _DOMAIN_PLACEHOLDER;
             rs_version := _VERSION_PLACEHOLDER; rs_instance_vars := [] |} w
        = (match exc with
           | None => Return (identified triples, settings_after triples)
           | Some e => Raise e
           end, w')
    ∧ entities w' = entities w ∧ packages w' = packages w ∧ disk w' = disk w
    ∧ archives w' = archives w ∧ written w' = written w ∧ stdout w' = stdout w.
Proof.
  intros Hscan. unfold scan_all, for_each_scanned. rewrite Hscan.
  destruct (scan_all_loop_spec triples []
              {| rs_project := _PROJECT_PLACEHOLDER; rs_domain := _DOMAIN_PLACEHOLDER;
                 rs_version := _VERSION_PLACEHOLDER; rs_instance_vars := [] |} w)
    as (w' & Hrun & Hframe).
  exists w'. split; [|done].
  cbv beta iota. rewrite (bind_return _ _ _ _ _ Hrun). by destruct exc.
Qed.

Lemma tasks_scan_spec pkgs w triples exc :
  iterate_registerable_entities_in_order (packages w) pkgs (Some [TASK])
  = (triples, exc) →
  ∃ w', for_each_scanned pkgs (Some [TASK])
          (λ '(m, k, o) loaded_entities,
             o <- assign_identifier m k o ;;
             ret (loaded_entities ++ [o]))%py
          [] w
        = (match exc with
           | None => Return (identified triples)
           | Some e => Raise e
           end, w')
    ∧ entities w' = entities w ∧ packages w' = packages w ∧ disk w' = disk w
    ∧ archives w' = archives w ∧ written w' = written w ∧ stdout w' = stdout w.
Proof.
  intros Hscan. unfold for_each_scanned. rewrite Hscan.
  destruct (tasks_scan_loop_spec triples [] w) as (w' & Hrun & Hframe).
  exists w'. split; [|done].
  cbv beta iota. rewrite (bind_return _ _ _ _ _ Hrun). by destruct exc.
Qed.

(** ** The default launch plan *)

Lemma find_launch_plan_app wf es1 es2 :
  find_launch_plan wf (es1 ++ es2)
  = match find_launch_plan wf es1 with
    | Some lp => Some lp
    | None => find_launch_plan wf es2
    end.
Proof.
  induction es1 as [|e es1 IH]; simpl; [done|].
  by destruct (is_launch_plan_of wf e).
Qed.

Lemma find_launch_plan_grows wf es1 es2 lp :
  find_launch_plan wf es1 = Some lp → find_launch_plan wf (es1 ++ es2) = Some lp.
Proof. intros H. by rewrite find_launch_plan_app, H. Qed.

Lemma find_launch_plan_none_prefix wf es1 es2 :
  find_launch_plan wf (es1 ++ es2) = None → find_launch_plan wf es1 = None.
Proof. rewrite find_launch_plan_app. by destruct (find_launch_plan wf es1). Qed.

Lemma find_launch_plan_workflow wf es lp :
  find_launch_plan wf es = Some lp →
  LaunchPlan lp ∈ es ∧ lp_workflow lp = workflow_name wf.
Proof.
  induction es as [|e es IH]; simpl; [done|].
  destruct (is_launch_plan_of wf e) as [lp'|] eqn:He.
  - intros [= ->]. destruct e as [| |lp'|]; simpl in He; try done.
    case_decide; [|done]. injection He as ->. split; [apply list_elem_of_here|done].
  - intros H. destruct (IH H). split; [by apply list_elem_of_further|done].
Qed.

Lemma find_launch_plan_synthesized ctx wf :
  find_launch_plan wf [synthesized ctx wf]
  = Some {| lp_workflow := workflow_name wf;
            lp_registerable := default_launch_plan_registerable ctx wf |}.
Proof. simpl. by case_decide. Qed.

Lemma get_default_launch_plan_spec ctx wf w :
  ∃ lp w', get_default_launch_plan ctx wf w = (Return lp, w')
    ∧ packages w' = packages w ∧ disk w' = disk w ∧ archives w' = archives w
    ∧ written w' = written w ∧ stdout w' = stdout w ∧ logged w' = logged w
    ∧ find_launch_plan wf (entities w') = Some lp
    ∧ ((find_launch_plan wf (entities w) = Some lp ∧ entities w' = entities w)
       ∨ (find_launch_plan wf (entities w) = None
          ∧ entities w' = entities w ++ [synthesized ctx wf])).
Proof.
  unfold get_default_launch_plan. run_monad.
  destruct (find_launch_plan wf (entities w)) as [lp|] eqn:Hfind.
  - exists lp, w. split_and!; try done. by left.
  - eexists _, _. split; [reflexivity|]. simpl.
    fold (synthesized ctx wf). split_and!; try done.
    + by rewrite find_launch_plan_app, Hfind, find_launch_plan_synthesized.
    + by right.
Qed.

(** ** The expansion loop *)

Lemma visited_grows mode registry registry' entity chunk :
  visited mode registry entity chunk →
  visited mode (registry ++ registry') entity chunk.
Proof.
  destruct 1; try by constructor.
  apply visited_workflow. by apply find_launch_plan_grows.
Qed.

Lemma no_output_trans w1 w2 w3 : no_output w1 w2 → no_output w2 w3 → no_output w1 w3.
Proof.
  intros (Hp & Hd & Ha & Hw) (Hp' & Hd' & Ha' & Hw').
  unfold no_output. by rewrite Hp', Hd', Ha', Hw'.
Qed.

Lemma expand_entity_spec ctx mode entity loaded w :
  ∃ r w' added,
    expand_entity ctx mode entity loaded w = (r, w')
    ∧ no_output w w'
    ∧ entities w' = entities w ++ added
    ∧ Forall (λ e, ∃ wf, entity = Workflow wf ∧ e = synthesized ctx wf
                         ∧ find_launch_plan wf (entities w) = None) added
    ∧ match r with
      | Return batch =>
          ∃ chunk, batch = loaded ++ chunk ∧ visited mode (entities w') entity chunk
      | Raise e =>
          e = AssertionError "Unrecognized serialization mode"
          ∧ (∃ t, entity = PythonTask t) ∧ (∀ m, mode ≠ Mode m)
      end.
Proof.
  destruct entity as [t|wf|lp|].
  - destruct mode as [|[|]|truthy];
      eexists _, w, []; (split; [by run_monad|]);
      rewrite app_nil_r; split_and!; try done; eauto using visited.
  - destruct (get_default_launch_plan_spec ctx wf w)
      as (lp & w' & Hrun & Hp & Hd & Ha & Hw & _ & _ & Hfind & Hcases).
    exists (Return ((loaded ++ [workflow_registerable wf]) ++ [lp_registerable lp])), w'.
    exists (match find_launch_plan wf (entities w) with
            | Some _ => []
            | None => [synthesized ctx wf]
            end).
    split; [|split_and!].
    + simpl. by rewrite (bind_return _ _ _ _ _ Hrun).
    + done.
    + destruct Hcases as [[-> ->]|[-> ->]]; by rewrite ?app_nil_r.
    + destruct Hcases as [[-> _]|[Hnone _]]; [done|]. rewrite Hnone.
      apply Forall_singleton. by exists wf.
    + exists [workflow_registerable wf; lp_registerable lp].
      split; [by rewrite <-app_assoc|]. by apply visited_workflow.
  - exists (Return (loaded ++ [lp_registerable lp])), w, [].
    split; [by run_monad|]. rewrite app_nil_r. split_and!; try done.
    eauto using visited.
  - exists (Return loaded), w, [].
    split; [by run_monad|]. rewrite app_nil_r. split_and!; try done.
    exists []. rewrite app_nil_r. eauto using visited.
Qed.

Lemma expand_loop_spec ctx mode snapshot : ∀ loaded w,
  ∃ r w' added,
    for_each snapshot (expand_entity ctx mode) loaded w = (r, w')
    ∧ no_output w w'
    ∧ entities w' = entities w ++ added
    ∧ Forall (λ e, ∃ wf, Workflow wf ∈ snapshot ∧ e = synthesized ctx wf
                         ∧ find_launch_plan wf (entities w) = None) added
    ∧ match r with
      | Return batch =>
          ∃ chunks, batch = loaded ++ concat chunks
                    ∧ Forall2 (visited mode (entities w')) snapshot chunks
      | Raise e =>
          e = AssertionError "Unrecognized serialization mode"
          ∧ (∃ t, PythonTask t ∈ snapshot) ∧ (∀ m, mode ≠ Mode m)
      end.
Proof.
  induction snapshot as [|entity snapshot IH]; intros loaded w.
  - exists (Return loaded), w, []. rewrite !app_nil_r. split_and!; try done.
    exists []. by rewrite app_nil_r.
  - destruct (expand_entity_spec ctx mode entity loaded w)
      as (r1 & w1 & added1 & Hrun1 & Hout1 & Hent1 & Hadded1 & Hres1).
    destruct r1 as [batch1|e].
    + destruct Hres1 as (chunk & -> & Hvisited).
      destruct (IH (loaded ++ chunk) w1)
        as (r & w' & added & Hrun & Hout & Hent & Hadded & Hres).
      exists r, w', (added1 ++ added). split_and!.
      * simpl. by rewrite (bind_return _ _ _ _ _ Hrun1).
      * by eapply no_output_trans.
      * by rewrite Hent, Hent1, <-app_assoc.
      * apply Forall_app. split.
        -- eapply Forall_impl; [exact Hadded1|].
           intros e (wf & -> & -> & Hnone). exists wf.
           split_and!; [apply list_elem_of_here|done|done].
        -- eapply Forall_impl; [exact Hadded|].
           intros e (wf & Hin & -> & Hnone). exists wf.
           split_and!; [by apply list_elem_of_further|done|].
           rewrite Hent1 in Hnone. by eapply find_launch_plan_none_prefix.
      * destruct r as [batch|e].
        -- destruct Hres as (chunks & -> & Hall). exists (chunk :: chunks).
           split; [simpl; by rewrite <-app_assoc|].
           constructor; [|done]. rewrite Hent. by apply visited_grows.
        -- destruct Hres as (-> & [t Hin] & Hmode).
           split_and!; [done| |done]. exists t. by apply list_elem_of_further.
    + destruct Hres1 as (-> & [t ->] & Hmode).
      exists (Raise (AssertionError "Unrecognized serialization mode")), w1, added1.
      split_and!; try done.
      * simpl. by rewrite (bind_raise _ _ _ _ _ Hrun1).
      * eapply Forall_impl; [exact Hadded1|].
        intros e (wf & Habs & _). done.
      * exists t. apply list_elem_of_here.
Qed.

(** ** [serialize_all], in two steps *)

Lemma load_entities_spec pkgs mode w triples exc :
  iterate_registerable_entities_in_order (packages w) pkgs None = (triples, exc) →
  ∃ r w' added,
    load_entities pkgs mode w = (r, w')
    ∧ no_output w w'
    ∧ entities w' = entities w ++ added
    ∧ Forall (λ e, ∃ wf, Workflow wf ∈ entities w
                         ∧ e = synthesized (settings_after triples) wf
                         ∧ find_launch_plan wf (entities w) = None) added
    ∧ match exc with
      | Some e => r = Raise e ∧ added = []
      | None =>
          match r with
          | Return batch =>
              ∃ chunks,
                batch = identified triples ++ concat chunks
                ∧ Forall2 (visited (effective_mode mode) (entities w'))
                    (entities w) chunks
          | Raise e =>
              e = AssertionError "Unrecognized serialization mode"
              ∧ (∃ t, PythonTask t ∈ entities w)
              ∧ (∀ m, effective_mode mode ≠ Mode m)
          end
      end.
Proof.
  intros Hscan. unfold load_entities.
  destruct (scan_all_spec pkgs w triples exc Hscan)
    as (w1 & Hrun1 & He1 & Hp1 & Hd1 & Ha1 & Hw1 & Hs1).
  destruct exc as [e|].
  - exists (Raise e), w1, []. rewrite app_nil_r. split_and!; try done.
    by rewrite (bind_raise _ _ _ _ _ Hrun1).
  - rewrite (bind_return _ _ _ _ _ Hrun1). cbv beta iota.
    set (w2 := (echo (FoundEntities (length (entities w1))) w1).2).
    destruct (expand_loop_spec (settings_after triples) (effective_mode mode)
                (entities w1) (identified triples) w2)
      as (r & w' & added & Hrun & (Hp & Hd & Ha & Hw) & Hent & Hadded & Hres).
    exists r, w', added. split_and!.
    + run_monad. exact Hrun.
    + unfold no_output. by rewrite Hp, Hd, Ha, Hw.
    + rewrite Hent. simpl. by rewrite He1.
    + simpl in Hadded. by rewrite He1 in Hadded.
    + by rewrite <-He1.
Qed.

Lemma serialize_all_spec pkgs folder mode w r w1 :
  load_entities pkgs mode w = (r, w1) →
  match r with
  | Return batch =>
      ∃ w', serialize_all pkgs folder mode w = (Return tt, w')
        ∧ entities w' = entities w1 ∧ packages w' = packages w1
        ∧ disk w'
          = disk_after
              (flat_map (written_for folder (_determine_text_chars (length batch)))
                 (enumerate batch))
              (disk w1)
        ∧ archives w' = archives w1
        ∧ logged w' = logged w1 ++ flat_map logged_for (enumerate batch)
        ∧ written w'
          = written w1
            ++ flat_map (written_for folder (_determine_text_chars (length batch)))
                 (enumerate batch)
  | Raise e => serialize_all pkgs folder mode w = (Raise e, w1)
  end.
Proof.
  intros Hload. unfold serialize_all. destruct r as [batch|e].
  - rewrite (bind_return _ _ _ _ _ Hload).
    apply write_loop_spec.
  - by rewrite (bind_raise _ _ _ _ _ Hload).
Qed.

(** What [serialize_all] adds to the files on disk. *)
Lemma written_by_serialize_all pkgs folder mode w r w1 :
  load_entities pkgs mode w = (r, w1) →
  no_output w w1 →
  written_by (serialize_all pkgs folder mode) w
  = match r with
    | Return batch =>
        flat_map (written_for folder (_determine_text_chars (length batch)))
          (enumerate batch)
    | Raise _ => []
    end.
Proof.
  intros Hload (_ & _ & _ & Hw1). unfold written_by.
  pose proof (serialize_all_spec pkgs folder mode w r w1 Hload) as Hrun.
  destruct r as [batch|e].
  - destruct Hrun as (w' & -> & _ & _ & _ & _ & _ & Hw'). simpl.
    by rewrite Hw', Hw1, drop_app_length.
  - rewrite Hrun. simpl. by rewrite Hw1, drop_all.
Qed.

Lemma load_entities_no_output pkgs mode w :
  no_output w (load_entities pkgs mode w).2.
Proof.
  destruct (iterate_registerable_entities_in_order (packages w) pkgs None)
    as [triples exc] eqn:Hscan.
  destruct (load_entities_spec pkgs mode w triples exc Hscan)
    as (r & w' & added & -> & Hout & _). done.
Qed.

(** A run of the first half that returns a batch: what the batch is made
    of, and what happened to the registry. *)
Lemma load_entities_return pkgs mode w batch w' :
  load_entities pkgs mode w = (Return batch, w') →
  ∃ triples chunks added,
    iterate_registerable_entities_in_order (packages w) pkgs None = (triples, None)
    ∧ batch = identified triples ++ concat chunks
    ∧ Forall2 (visited (effective_mode mode) (entities w')) (entities w) chunks
    ∧ entities w' = entities w ++ added
    ∧ Forall (λ e, ∃ wf, Workflow wf ∈ entities w
                         ∧ e = synthesized (settings_after triples) wf
                         ∧ find_launch_plan wf (entities w) = None) added
    ∧ no_output w w'.
Proof.
  intros Hload.
  destruct (iterate_registerable_entities_in_order (packages w) pkgs None)
    as [triples exc] eqn:Hscan.
  destruct (load_entities_spec pkgs mode w triples exc Hscan)
    as (r & w'' & added & Hrun & Hout & Hent & Hadded & Hres).
  rewrite Hload in Hrun. injection Hrun as <- <-.
  destruct exc as [e|]; [by destruct Hres|].
  destruct Hres as (chunks & -> & Hall). by exists triples, chunks, added.
Qed.

Lemma elem_of_concat {A} (x : A) (chunks : list (list A)) :
  x ∈ concat chunks ↔ ∃ chunk, x ∈ chunk ∧ chunk ∈ chunks.
Proof.
  induction chunks as [|c chunks IH]; simpl.
  - split; [by intros ?%elem_of_nil|]. by intros (? & _ & ?%elem_of_nil).
  - rewrite elem_of_app, IH. split.
    + intros [Hx|(chunk & Hx & Hin)].
      * exists c. split; [done|apply list_elem_of_here].
      * exists chunk. split; [done|by apply list_elem_of_further].
    + intros (chunk & Hx & [->|Hin]%elem_of_cons); [by left|].
      right. by exists chunk.
Qed.

Lemma elem_of_flat_map {A B} (f : A → list B) (xs : list A) (y : B) :
  y ∈ flat_map f xs ↔ ∃ x, x ∈ xs ∧ y ∈ f x.
Proof.
  induction xs as [|x xs IH]; simpl.
  - split; [by intros ?%elem_of_nil|]. by intros (? & ?%elem_of_nil & _).
  - rewrite elem_of_app, IH. split.
    + intros [Hy|(x' & Hin & Hy)].
      * exists x. split; [apply list_elem_of_here|done].
      * exists x'. split; [by apply list_elem_of_further|done].
    + intros (x' & [->|Hin]%elem_of_cons & Hy); [by left|].
      right. by exists x'.
Qed.

(** The place of a chunk in the batch. *)
Lemma concat_lookup_chunk {A} (chunks : list (list A)) (i : nat) (chunk : list A) :
  chunks !! i = Some chunk →
  concat chunks = concat (take i chunks) ++ chunk ++ concat (drop (S i) chunks).
Proof.
  intros Hi. rewrite <-(take_drop_middle chunks i chunk Hi) at 1.
  by rewrite concat_app.
Qed.

Lemma lookup_middle_pair {A} (before after : list A) (a b : A) :
  (before ++ [a; b] ++ after) !! length before = Some a
  ∧ (before ++ [a; b] ++ after) !! S (length before) = Some b.
Proof.
  split.
  - rewrite lookup_app_r by lia. by rewrite Nat.sub_diag.
  - rewrite lookup_app_r by lia.
    by replace (S (length before) - length before) with 1 by lia.
Qed.

(** ** The claims on [serialize_all] *)

(** C1 (amended): for every workflow in the registry copy the launch plan
    returned by [get_default_launch_plan] is the one registered for the
    workflow when there is one and is synthesized (and added to the live
    registry) only when there is none; in both cases its registerable form
    is appended to the batch immediately after the workflow's, also when a
    launch plan of the workflow was in the registry before the expansion. *)
Theorem default_launch_plan_follows_workflow pkgs mode w batch w' i wf :
  load_entities pkgs mode w = (Return batch, w') →
  entities w !! i = Some (Workflow wf) →
  ∃ j lp added,
    batch !! j = Some (workflow_registerable wf)
    ∧ batch !! S j = Some (lp_registerable lp)
    ∧ find_launch_plan wf (entities w') = Some lp
    ∧ entities w' = entities w ++ added
    ∧ (∀ lp0, find_launch_plan wf (entities w) = Some lp0 →
         lp = lp0 ∧ ∀ lp', LaunchPlan lp' ∈ added → lp_workflow lp' ≠ workflow_name wf)
    ∧ (find_launch_plan wf (entities w) = None → LaunchPlan lp ∈ added).
Proof.
  intros Hload Hi.
  destruct (load_entities_return pkgs mode w batch w' Hload)
    as (triples & chunks & added & _ & -> & Hall & Hent & Hadded & _).
  destruct (Forall2_lookup_l _ _ _ _ _ Hall Hi) as (chunk & Hchunk & Hvisited).
  inversion Hvisited as [| |wf' lp Hfind| |]; subst.
  rewrite (concat_lookup_chunk chunks i _ Hchunk), app_assoc.
  destruct (lookup_middle_pair (identified triples ++ concat (take i chunks))
              (concat (drop (S i) chunks))
              (workflow_registerable wf) (lp_registerable lp)) as [Hj HSj].
  eexists _, lp, added. split_and!; [exact Hj|exact HSj|done|done| |].
  - intros lp0 Hfind0. split.
    + rewrite Hent, (find_launch_plan_grows _ _ _ _ Hfind0) in Hfind. congruence.
    + intros lp' Hin Hname.
      rewrite Forall_forall in Hadded.
      destruct (Hadded _ Hin) as (wf' & _ & Heq & Hnone).
      injection Heq as ->. simpl in Hname.
      assert (find_launch_plan wf (entities w) = find_launch_plan wf' (entities w)) as Hsame.
      { clear -Hname. induction (entities w) as [|e es IH]; simpl; [done|].
        rewrite IH. destruct e as [| |lp1|]; simpl; try done.
        rewrite Hname. done. }
      congruence.
  - intros Hnone. rewrite Hent, find_launch_plan_app, Hnone in Hfind.
    by apply find_launch_plan_workflow in Hfind as [? _].
Qed.

Lemma identified_lookup triples i m k o :
  triples !! i = Some (m, k, o) →
  identified triples !! i = Some (with_identifier m k o).
Proof. intros Hi. unfold identified. by rewrite list_lookup_fmap, Hi. Qed.

Lemma enumerate_lookup {A} (xs : list A) (i : nat) (x : A) :
  xs !! i = Some x ↔ (i, x) ∈ enumerate xs.
Proof.
  unfold enumerate. split.
  - intros Hi. by apply (enumerate_from_lookup xs 0 i x).
  - intros (k & -> & Hk)%enumerate_from_elem. done.
Qed.

(** The form of a task that a mode of the enumeration selects. *)
Lemma task_form_written pkgs folder mode m w t triples :
  PythonTask t ∈ entities w →
  effective_mode mode = Mode m →
  iterate_registerable_entities_in_order (packages w) pkgs None = (triples, None) →
  let form := match m with
              | DEFAULT => task_registerable t
              | FAST => task_fast_registerable t
              end in
  ∃ batch w1 w',
    load_entities pkgs mode w = (Return batch, w1)
    ∧ form ∈ batch
    ∧ serialize_all pkgs folder mode w = (Return tt, w')
    ∧ (has_registered form = false →
       ∃ i, batch !! i = Some form
            ∧ (in_folder folder
                 (record_fname
                    (Py.zfill (Py.str i) (_determine_text_chars (length batch))) form),
               Serialized (serialize form)) ∈ written w').
Proof.
  intros Hin Hmode Hscan form.
  destruct (load_entities_spec pkgs mode w triples None Hscan)
    as (r & w1 & added & Hload & _ & _ & _ & Hres).
  pose proof (serialize_all_spec pkgs folder mode w r w1 Hload) as Hrun.
  destruct r as [batch|e]; [|destruct Hres as (_ & _ & Hnone); by destruct (Hnone m)].
  destruct Hres as (chunks & Hbatch & Hall).
  destruct Hrun as (w' & Hrun & _ & _ & _ & _ & _ & Hwritten).
  assert (form ∈ batch) as Hform.
  { apply list_elem_of_lookup in Hin as [i Hi].
    destruct (Forall2_lookup_l _ _ _ _ _ Hall Hi) as (chunk & Hchunk & Hvisited).
    rewrite Hbatch. apply elem_of_app. right.
    apply elem_of_concat. exists chunk.
    split; [|by eapply list_elem_of_lookup_2].
    rewrite Hmode in Hvisited. unfold form.
    destruct m; inversion Hvisited as [? Hm|? Hm| | |]; subst;
      first [discriminate Hm|apply list_elem_of_here]. }
  exists batch, w1, w'. split_and!; [done..|].
  intros Hunregistered.
  apply list_elem_of_lookup in Hform as [i Hi]. exists i. split; [done|].
  rewrite Hwritten. apply elem_of_app. right.
  apply elem_of_flat_map. exists (i, form). split; [by apply enumerate_lookup|].
  unfold written_for. simpl. rewrite Hunregistered. apply list_elem_of_here.
Qed.

(** C3 (amended): for a task of the registry copy, with mode [DEFAULT],
    and with no mode or any falsy one, which line 126 replaces by
    [DEFAULT], the loop body takes the task's
    [get_registerable_entity()]; with mode [FAST] its
    [get_fast_registerable_entity()].  In both cases, when the packages
    can be scanned, the batch is loaded with the form taken in it, and
    ([serialize()] and the file write being taken not to fail) the run
    returns and, unless the form is marked as registered, its record file
    is written.  With a truthy mode that is no member of
    [SerializationMode], [serialize_all] raises before a single file is
    written: the [AssertionError] of line 144 whenever the package scan
    itself went through. *)
Theorem task_form_follows_mode pkgs folder mode w t :
  PythonTask t ∈ entities w →
  (mode = Mode DEFAULT ∨ mode_truthy mode = false →
     (∀ ctx loaded w0,
        expand_entity ctx (effective_mode mode) (PythonTask t) loaded w0
        = (Return (loaded ++ [task_registerable t]), w0))
     ∧ ((iterate_registerable_entities_in_order (packages w) pkgs None).2 = None →
        ∃ batch w1 w',
          load_entities pkgs mode w = (Return batch, w1)
          ∧ task_registerable t ∈ batch
          ∧ serialize_all pkgs folder mode w = (Return tt, w')
          ∧ (has_registered (task_registerable t) = false →
             ∃ i, batch !! i = Some (task_registerable t)
                  ∧ (in_folder folder
                       (record_fname
                          (Py.zfill (Py.str i) (_determine_text_chars (length batch)))
                          (task_registerable t)),
                     Serialized (serialize (task_registerable t))) ∈ written w')))
  ∧ (mode = Mode FAST →
     (∀ ctx loaded w0,
        expand_entity ctx (effective_mode mode) (PythonTask t) loaded w0
        = (Return (loaded ++ [task_fast_registerable t]), w0))
     ∧ ((iterate_registerable_entities_in_order (packages w) pkgs None).2 = None →
        ∃ batch w1 w',
          load_entities pkgs mode w = (Return batch, w1)
          ∧ task_fast_registerable t ∈ batch
          ∧ serialize_all pkgs folder mode w = (Return tt, w')
          ∧ (has_registered (task_fast_registerable t) = false →
             ∃ i, batch !! i = Some (task_fast_registerable t)
                  ∧ (in_folder folder
                       (record_fname
                          (Py.zfill (Py.str i) (_determine_text_chars (length batch)))
                          (task_fast_registerable t)),
                     Serialized (serialize (task_fast_registerable t))) ∈ written w')))
  ∧ (mode_truthy mode = true → mode ≠ Mode DEFAULT → mode ≠ Mode FAST →
     ∃ e w',
       serialize_all pkgs folder mode w = (Raise e, w')
       ∧ written w' = written w ∧ archives w' = archives w ∧ disk w' = disk w
       ∧ ((iterate_registerable_entities_in_order (packages w) pkgs None).2 = None →
          e = AssertionError "Unrecognized serialization mode")).
Proof.
  intros Hin.
  destruct (iterate_registerable_entities_in_order (packages w) pkgs None)
    as [triples exc] eqn:Hscan.
  split_and!.
  - intros Hmode.
    assert (effective_mode mode = Mode DEFAULT) as Heff.
    { unfold effective_mode. destruct Hmode as [->|Hfalsy]; [done|by rewrite Hfalsy]. }
    split; [by rewrite Heff|]. simpl. intros ->.
    apply (task_form_written pkgs folder mode DEFAULT w t triples Hin Heff Hscan).
  - intros ->. split; [done|]. simpl. intros ->.
    apply (task_form_written pkgs folder (Mode FAST) FAST w t triples Hin eq_refl Hscan).
  - intros Htruthy Hdefault Hfast.
    assert (∀ m, effective_mode mode ≠ Mode m) as Hnone.
    { unfold effective_mode. rewrite Htruthy. by intros [|]. }
    destruct (load_entities_spec pkgs mode w triples exc Hscan)
      as (r & w' & added & Hload & (_ & Hd & Ha & Hw) & _ & _ & Hres).
    pose proof (serialize_all_spec pkgs folder mode w r w' Hload) as Hrun.
    destruct exc as [e|].
    + destruct Hres as [-> _]. exists e, w'. by split_and!.
    + destruct r as [batch|e].
      * destruct Hres as (chunks & _ & Hall).
        apply list_elem_of_lookup in Hin as [i Hi].
        destruct (Forall2_lookup_l _ _ _ _ _ Hall Hi) as (chunk & _ & Hvisited).
        inversion Hvisited as [? Hm|? Hm| | |]; by destruct (Hnone _ Hm).
      * destruct Hres as (-> & _ & _). eexists _, w'. by split_and!.
Qed.

(** C4: the batch the write loop runs over is the objects found by the
    package scan, each with the placeholder identifier just assigned to it,
    followed by what the expansion of the registry adds; and the scanned
    objects are written like the rest: each one that is not marked as
    registered gets its record pair, under its position in the batch. *)
Theorem scanned_objects_are_written pkgs folder mode w batch w1 :
  load_entities pkgs mode w = (Return batch, w1) →
  ∃ triples chunks,
    iterate_registerable_entities_in_order (packages w) pkgs None = (triples, None)
    ∧ batch = identified triples ++ concat chunks
    ∧ Forall2 (visited (effective_mode mode) (entities w1)) (entities w) chunks
    ∧ written_by (serialize_all pkgs folder mode) w
      = flat_map (written_for folder (_determine_text_chars (length batch)))
          (enumerate batch)
    ∧ ∀ i m k o file,
        triples !! i = Some (m, k, o) →
        has_registered o = false →
        file ∈ record_pair folder (_determine_text_chars (length batch))
                 (i, with_identifier m k o) →
        file ∈ written_by (serialize_all pkgs folder mode) w.
Proof.
  intros Hload.
  destruct (load_entities_return pkgs mode w batch w1 Hload)
    as (triples & chunks & added & Hscan & Hbatch & Hall & _ & _ & Hout).
  pose proof (written_by_serialize_all pkgs folder mode w _ w1 Hload Hout) as Hwritten.
  exists triples, chunks. split_and!; try done.
  intros i m k o file Hi Hreg Hfile. rewrite Hwritten.
  apply elem_of_flat_map. exists (i, with_identifier m k o). split.
  - apply enumerate_lookup. rewrite Hbatch.
    apply lookup_app_l_Some. by apply identified_lookup.
  - unfold written_for. simpl. by rewrite Hreg.
Qed.

(** C5: an entity whose [has_registered] is true when the write loop
    reaches it gets neither of the two files, only the line in the log at
    level [INFO]; the run goes on and returns without an exception, and
    every file it has written belongs to an entity of the batch that is not
    marked as registered. *)
Theorem registered_entities_are_skipped pkgs folder mode w batch w1 :
  load_entities pkgs mode w = (Return batch, w1) →
  ∃ w',
    serialize_all pkgs folder mode w = (Return tt, w')
    ∧ written w'
      = written w
        ++ flat_map (written_for folder (_determine_text_chars (length batch)))
             (enumerate batch)
    ∧ (∀ i entity,
         batch !! i = Some entity → has_registered entity = true →
         written_for folder (_determine_text_chars (length batch)) (i, entity) = []
         ∧ (INFO, Skipping (_id entity)) ∈ logged w')
    ∧ (∀ file,
         file ∈ written_by (serialize_all pkgs folder mode) w →
         ∃ i entity,
           batch !! i = Some entity ∧ has_registered entity = false
           ∧ file ∈ record_pair folder (_determine_text_chars (length batch))
                      (i, entity)).
Proof.
  intros Hload.
  pose proof (load_entities_no_output pkgs mode w) as Hout.
  rewrite Hload in Hout. simpl in Hout.
  pose proof (written_by_serialize_all pkgs folder mode w _ w1 Hload Hout) as Hwritten.
  destruct (serialize_all_spec pkgs folder mode w _ w1 Hload)
    as (w' & Hrun & _ & _ & _ & _ & Hlog & Hw).
  destruct Hout as (_ & _ & _ & Hw1).
  exists w'. split_and!.
  - done.
  - by rewrite Hw, Hw1.
  - intros i entity Hi Hreg. split.
    + unfold written_for. simpl. by rewrite Hreg.
    + rewrite Hlog. apply elem_of_app. right.
      apply elem_of_flat_map. exists (i, entity).
      split; [by apply enumerate_lookup|].
      unfold logged_for. simpl. rewrite Hreg. apply list_elem_of_here.
  - intros file. rewrite Hwritten.
    intros ([i entity] & Hin & Hfile)%elem_of_flat_map.
    exists i, entity. apply enumerate_lookup in Hin.
    unfold written_for in Hfile. simpl in Hfile.
    destruct (has_registered entity); [by apply elem_of_nil in Hfile|done].
Qed.

(** C6: the expansion loop runs over the registry as it was when the loop
    started: the batch has one chunk for each entity of that copy, in
    order, and nothing else; the launch plans that the loop adds to the
    live registry on the way come after the copy and get no round of their
    own. *)
Theorem expansion_iterates_snapshot pkgs mode w batch w' :
  load_entities pkgs mode w = (Return batch, w') →
  ∃ triples chunks added,
    iterate_registerable_entities_in_order (packages w) pkgs None = (triples, None)
    ∧ batch = identified triples ++ concat chunks
    ∧ length chunks = length (entities w)
    ∧ Forall2 (visited (effective_mode mode) (entities w')) (entities w) chunks
    ∧ entities w' = entities w ++ added
    ∧ Forall (λ e, ∃ wf, Workflow wf ∈ entities w
                         ∧ e = synthesized (settings_after triples) wf
                         ∧ find_launch_plan wf (entities w) = None) added
    ∧ length batch ≤ length triples + 2 * length (entities w).
Proof.
  intros Hload.
  destruct (load_entities_return pkgs mode w batch w' Hload)
    as (triples & chunks & added & Hscan & -> & Hall & Hent & Hadded & _).
  exists triples, chunks, added. split_and!; try done.
  - symmetry. by eapply Forall2_length.
  - rewrite length_app. unfold identified. rewrite length_fmap.
    apply Nat.add_le_mono_l.
    clear -Hall. induction Hall as [|entity chunk snapshot chunks Hvisited _ IH]; simpl.
    + lia.
    + rewrite length_app. destruct Hvisited; simpl; lia.
Qed.

(** C10: the width of the index comes from the length of the whole batch,
    skipped entities included, and a written entity carries its position in
    the whole batch: the index of a skipped entity is used by no file of
    the run, so the indices of the files written after it leave a gap
    there. *)
Theorem skipped_entities_keep_their_index pkgs folder mode w batch w1 :
  load_entities pkgs mode w = (Return batch, w1) →
  written_by (serialize_all pkgs folder mode) w
  = flat_map (written_for folder (_determine_text_chars (length batch)))
      (enumerate batch)
  ∧ ∀ i j skipped entity,
      batch !! i = Some skipped → has_registered skipped = true →
      batch !! j = Some entity → has_registered entity = false →
      let fname_index k := Py.zfill (Py.str k) (_determine_text_chars (length batch)) in
      (in_folder folder (record_fname (fname_index j) entity),
       Serialized (serialize entity))
        ∈ written_by (serialize_all pkgs folder mode) w
      ∧ (∀ file, file ∈ written_by (serialize_all pkgs folder mode) w →
           ∃ k entity',
             batch !! k = Some entity' ∧ k ≠ i ∧ fname_index k ≠ fname_index i
             ∧ (file.1 = in_folder folder (record_fname (fname_index k) entity')
                ∨ file.1 = in_folder folder
                             (record_identifier_fname (fname_index k) entity'))).
Proof.
  intros Hload.
  pose proof (load_entities_no_output pkgs mode w) as Hout.
  rewrite Hload in Hout. simpl in Hout.
  pose proof (written_by_serialize_all pkgs folder mode w _ w1 Hload Hout) as Hwritten.
  split; [done|].
  intros i j skipped entity Hi Hskipped Hj Hentity fname_index. split.
  - rewrite Hwritten. apply elem_of_flat_map. exists (j, entity).
    split; [by apply enumerate_lookup|].
    unfold written_for. simpl. rewrite Hentity. apply list_elem_of_here.
  - intros file. rewrite Hwritten.
    intros ([k entity'] & Hk%enumerate_lookup & Hfile)%elem_of_flat_map.
    unfold written_for in Hfile. simpl in Hfile.
    destruct (has_registered entity') eqn:Hreg; [by apply elem_of_nil in Hfile|].
    assert (k ≠ i) as Hne by (intros ->; congruence).
    exists k, entity'. split_and!; [done|done| |].
    + intros Heq. by apply zfill_str_inj in Heq.
    + unfold record_pair in Hfile. simpl in Hfile.
      apply elem_of_cons in Hfile as [->|Hfile]; [by left|].
      apply list_elem_of_singleton in Hfile as ->. by right.
Qed.

(** ** Two runs on the same inputs *)

Lemma respects_ret {A} (a : A) : respects (ret a).
Proof. by intros w1 w2 H. Qed.

Lemma respects_raise {A} (e : Exception) : respects (raise (A:=A) e).
Proof. by intros w1 w2 H. Qed.

Lemma respects_bind {A B} (m : M A) (k : A → M B) :
  respects m → (∀ a, respects (k a)) → respects (bind m k).
Proof.
  intros Hm Hk w1 w2 Hsame. unfold bind.
  destruct (Hm w1 w2 Hsame) as [Hres Hsame'].
  destruct (m w1) as [r1 w1'], (m w2) as [r2 w2']. simpl in *. subst r2.
  destruct r1 as [a|e]; [by apply Hk|done].
Qed.

Lemma respects_get_entities : respects get_entities.
Proof. intros w1 w2 [He Hp]. unfold get_entities. simpl. by rewrite He. Qed.

Lemma respects_append_entity e : respects (append_entity e).
Proof. intros w1 w2 [He Hp]. unfold same_inputs. simpl. by rewrite He. Qed.

Lemma respects_write proto fname : respects (_write_proto_to_file proto fname).
Proof. by intros w1 w2 [He Hp]. Qed.

Lemma respects_echo msg : respects (echo msg).
Proof. by intros w1 w2 [He Hp]. Qed.

Lemma respects_log level msg : respects (log level msg).
Proof. by intros w1 w2 [He Hp]. Qed.

Lemma respects_for_each {A S} (xs : list A) (body : A → S → M S) :
  (∀ x acc, respects (body x acc)) → ∀ acc, respects (for_each xs body acc).
Proof.
  intros Hbody. induction xs as [|x xs IH]; intros acc; simpl.
  - apply respects_ret.
  - by apply respects_bind.
Qed.

Lemma respects_for_each_scanned {S} pkgs include_entities
    (body : string * string * Registerable → S → M S) (acc : S) :
  (∀ x acc, respects (body x acc)) →
  respects (for_each_scanned pkgs include_entities body acc).
Proof.
  intros Hbody w1 w2 Hsame. unfold for_each_scanned.
  destruct Hsame as [He Hp]. rewrite Hp.
  destruct (iterate_registerable_entities_in_order (packages w2) pkgs include_entities)
    as [triples exc].
  apply respects_bind; [by apply respects_for_each| |done].
  intros acc'. destruct exc; [apply respects_raise|apply respects_ret].
Qed.

Create HintDb respects.
#[local] Hint Resolve respects_ret respects_raise respects_bind respects_get_entities
  respects_append_entity respects_write respects_echo respects_log
  respects_for_each respects_for_each_scanned : respects.

Lemma respects_assign_identifier m k o : respects (assign_identifier m k o).
Proof. unfold assign_identifier. auto with respects. Qed.

Lemma respects_get_default_launch_plan ctx wf :
  respects (get_default_launch_plan ctx wf).
Proof.
  unfold get_default_launch_plan. apply respects_bind; [auto with respects|].
  intros registry. destruct (find_launch_plan wf registry); auto with respects.
Qed.

Lemma respects_expand_entity ctx mode entity loaded :
  respects (expand_entity ctx mode entity loaded).
Proof.
  destruct entity as [t|wf|lp|]; simpl; auto with respects.
  - destruct mode as [|[|]|]; auto with respects.
  - apply respects_bind; [apply respects_get_default_launch_plan|].
    auto with respects.
Qed.

Lemma respects_load_entities pkgs mode : respects (load_entities pkgs mode).
Proof.
  unfold load_entities, scan_all. apply respects_bind.
  - apply respects_for_each_scanned. intros [[m k] o] [loaded ctx].
    apply respects_bind; [apply respects_assign_identifier|auto with respects].
  - intros [loaded ctx]. repeat (apply respects_bind; [auto with respects|intros ?]).
    apply respects_for_each. intros. apply respects_expand_entity.
Qed.

Lemma written_for_names folder zero_padded_length items :
  (flat_map (written_for folder zero_padded_length) items).*1
  = in_folder folder <$> flat_map (fnames_for zero_padded_length) items.
Proof.
  induction items as [|[i entity] items IH]; simpl; [done|].
  rewrite !fmap_app, IH. f_equal.
  unfold written_for, fnames_for. simpl. by destruct (has_registered entity).
Qed.

(** C7: two runs of [serialize_all] on the same package list, from worlds
    with the same registry and the same importable packages, end the same
    way and write files of the same names and contents; with different
    output folders the names still agree up to the folder: the same
    indices with the same entity names. *)
Theorem output_filenames_deterministic pkgs mode folder folder' w1 w2 :
  entities w1 = entities w2 →
  packages w1 = packages w2 →
  (serialize_all pkgs folder mode w1).1 = (serialize_all pkgs folder mode w2).1
  ∧ written_by (serialize_all pkgs folder mode) w1
    = written_by (serialize_all pkgs folder mode) w2
  ∧ ∃ fnames,
      (written_by (serialize_all pkgs folder mode) w1).*1 = in_folder folder <$> fnames
      ∧ (written_by (serialize_all pkgs folder' mode) w2).*1
        = in_folder folder' <$> fnames.
Proof.
  intros He Hp.
  destruct (respects_load_entities pkgs mode w1 w2 (conj He Hp)) as [Hres _].
  destruct (load_entities pkgs mode w1) as [r1 w1'] eqn:Hload1.
  destruct (load_entities pkgs mode w2) as [r2 w2'] eqn:Hload2.
  simpl in Hres. subst r2.
  pose proof (load_entities_no_output pkgs mode w1) as Hout1.
  pose proof (load_entities_no_output pkgs mode w2) as Hout2.
  rewrite Hload1 in Hout1. rewrite Hload2 in Hout2. simpl in Hout1, Hout2.
  rewrite !(written_by_serialize_all pkgs _ mode w1 r1 w1' Hload1 Hout1).
  rewrite !(written_by_serialize_all pkgs _ mode w2 r1 w2' Hload2 Hout2).
  pose proof (serialize_all_spec pkgs folder mode w1 r1 w1' Hload1) as Hrun1.
  pose proof (serialize_all_spec pkgs folder mode w2 r1 w2' Hload2) as Hrun2.
  destruct r1 as [batch|e].
  - destruct Hrun1 as (? & -> & _), Hrun2 as (? & -> & _).
    split_and!; [done|done|].
    exists (flat_map (fnames_for (_determine_text_chars (length batch)))
              (enumerate batch)).
    by rewrite !written_for_names.
  - rewrite Hrun1, Hrun2. split_and!; [done|done|]. by exists [].
Qed.

(** ** [serialize_tasks_only] *)

Lemma included_task o : included (Some [TASK]) o = true ↔ resource_type o = TASK.
Proof.
  unfold included. rewrite bool_decide_eq_true. apply list_elem_of_singleton.
Qed.

Lemma module_triples_tasks m :
  module_triples (Some [TASK]) m
  = filter (λ mko, resource_type mko.2 = TASK) (module_triples None m).
Proof.
  unfold module_triples. induction (bindings m) as [|[k o] bs IH]; [done|].
  rewrite (filter_cons (λ ko, included None ko.2 = true)).
  rewrite decide_True by done.
  rewrite fmap_cons, filter_cons, filter_cons. simpl.
  destruct (decide (resource_type o = TASK)) as [Ho|Ho].
  - rewrite decide_True by by apply included_task.
    rewrite fmap_cons. f_equal. exact IH.
  - rewrite decide_False by by intros ?%included_task.
    exact IH.
Qed.

Lemma modules_triples_tasks modules :
  concat (module_triples (Some [TASK]) <$> modules)
  = filter (λ mko, resource_type mko.2 = TASK)
      (concat (module_triples None <$> modules)).
Proof.
  induction modules as [|m modules IH]; [done|].
  rewrite !fmap_cons. simpl. by rewrite filter_app, IH, module_triples_tasks.
Qed.

(** The scan restricted to tasks yields the tasks of the full scan, in the
    same order, and fails when the full scan does. *)
Lemma scan_tasks importable pkgs :
  iterate_registerable_entities_in_order importable pkgs (Some [TASK])
  = (filter (λ mko, resource_type mko.2 = TASK)
       (iterate_registerable_entities_in_order importable pkgs None).1,
     (iterate_registerable_entities_in_order importable pkgs None).2).
Proof.
  induction pkgs as [|pkg pkgs IH]; simpl; [done|].
  destruct (lookup_assoc pkg importable) as [modules|]; [|done].
  rewrite IH.
  destruct (iterate_registerable_entities_in_order importable pkgs None)
    as [rest exc]. simpl.
  by rewrite filter_app, modules_triples_tasks.
Qed.

Lemma length_flat_map_record_pair folder zero_padded_length items :
  length (flat_map (record_pair folder zero_padded_length) items)
  = 2 * length items.
Proof.
  induction items as [|ie items IH]; simpl; [done|]. rewrite IH. lia.
Qed.

Lemma length_enumerate_from {A} (xs : list A) (i0 : nat) :
  length (enumerate_from i0 xs) = length xs.
Proof. revert i0. induction xs as [|x xs IH]; intros i0; simpl; [done|]. by rewrite IH. Qed.

Lemma serialize_tasks_only_spec pkgs folder w triples :
  iterate_registerable_entities_in_order (packages w) pkgs None = (triples, None) →
  ∃ w', serialize_tasks_only pkgs folder w = (Return tt, w')
    ∧ entities w' = entities w ∧ archives w' = archives w
    ∧ written w'
      = written w
        ++ flat_map
             (record_pair folder
                (_determine_text_chars
                   (length (identified
                              (filter (λ mko, resource_type mko.2 = TASK) triples)))))
             (enumerate
                (identified (filter (λ mko, resource_type mko.2 = TASK) triples))).
Proof.
  intros Hscan. unfold serialize_tasks_only.
  pose proof (scan_tasks (packages w) pkgs) as Htasks.
  rewrite Hscan in Htasks. simpl in Htasks.
  destruct (tasks_scan_spec pkgs w _ _ Htasks)
    as (w1 & Hrun1 & He1 & _ & _ & Ha1 & Hw1 & _).
  rewrite (bind_return _ _ _ _ _ Hrun1).
  destruct (tasks_write_loop_spec folder
              (_determine_text_chars
                 (length (identified
                            (filter (λ mko, resource_type mko.2 = TASK) triples))))
              (enumerate
                 (identified (filter (λ mko, resource_type mko.2 = TASK) triples)))
              w1)
    as (w' & Hrun & He & _ & _ & Ha & _ & Hw).
  exists w'. split_and!; [done| | |].
  - by rewrite He.
  - by rewrite Ha.
  - by rewrite Hw, Hw1.
Qed.

(** C8: [serialize_tasks_only] takes its entities from the package scan
    restricted to tasks and from there alone: the registry is neither read
    nor changed (no launch plan is made), every entity written is a task,
    and each task found gets exactly one record pair, its [.pb] file and
    its [.identifier.pb] file. *)
Theorem serialize_tasks_only_writes_tasks pkgs folder w triples :
  iterate_registerable_entities_in_order (packages w) pkgs None = (triples, None) →
  ∃ w' tasks,
    serialize_tasks_only pkgs folder w = (Return tt, w')
    ∧ tasks = identified (filter (λ mko, resource_type mko.2 = TASK) triples)
    ∧ Forall (λ entity, resource_type entity = TASK) tasks
    ∧ entities w' = entities w
    ∧ written_by (serialize_tasks_only pkgs folder) w
      = flat_map (record_pair folder (_determine_text_chars (length tasks)))
          (enumerate tasks)
    ∧ length (written_by (serialize_tasks_only pkgs folder) w) = 2 * length tasks
    ∧ ∀ w2, packages w2 = packages w →
        written_by (serialize_tasks_only pkgs folder) w2
        = written_by (serialize_tasks_only pkgs folder) w.
Proof.
  intros Hscan.
  assert (∀ w2, packages w2 = packages w →
            written_by (serialize_tasks_only pkgs folder) w2
            = flat_map
                (record_pair folder
                   (_determine_text_chars
                      (length (identified
                                 (filter (λ mko, resource_type mko.2 = TASK) triples)))))
                (enumerate
                   (identified (filter (λ mko, resource_type mko.2 = TASK) triples))))
    as Hwritten.
  { intros w2 Hp. rewrite <-Hp in Hscan.
    destruct (serialize_tasks_only_spec pkgs folder w2 triples Hscan)
      as (w2' & Hrun & _ & _ & Hw).
    unfold written_by. rewrite Hrun. simpl. by rewrite Hw, drop_app_length. }
  destruct (serialize_tasks_only_spec pkgs folder w triples Hscan)
    as (w' & Hrun & He & _ & Hw).
  eexists w', _. split_and!; [done|reflexivity| |done| | |].
  - unfold identified. apply Forall_fmap, Forall_forall.
    intros [[m k] o] Hin%list_elem_of_filter. simpl. by destruct Hin.
  - by apply Hwritten.
  - rewrite Hwritten by done.
    rewrite length_flat_map_record_pair. unfold enumerate.
    by rewrite length_enumerate_from.
  - intros w2 Hp. by rewrite !Hwritten.
Qed.

(** ** The names of the files of a run *)

(** The index of a file name is a string of decimal digits. *)
Lemma pretty_N_char_code (x : N) :
  (x < 10)%N → N_of_ascii (pretty_N_char x) = (48 + x)%N.
Proof.
  intros Hx.
  assert (x = 0 ∨ x = 1 ∨ x = 2 ∨ x = 3 ∨ x = 4 ∨ x = 5 ∨ x = 6 ∨ x = 7
          ∨ x = 8 ∨ x = 9)%N as Hcases by lia.
  repeat (destruct Hcases as [->|Hcases]; [done|]). by subst.
Qed.

Lemma is_digit_code (c : ascii) :
  is_digit c → (48 ≤ N_of_ascii c < 58)%N.
Proof. intros (x & Hx & ->). rewrite pretty_N_char_code by done. lia. Qed.

Lemma is_digit_not_underscore (c : ascii) : is_digit c → c ≠ "_"%char.
Proof. intros Hc%is_digit_code ->. vm_compute in Hc. destruct Hc as [_ Hc]. done. Qed.

Lemma is_digit_not_slash (c : ascii) : is_digit c → c ≠ "/"%char.
Proof. intros Hc%is_digit_code ->. vm_compute in Hc. destruct Hc as [Hc _]. by apply Hc. Qed.

Lemma pretty_N_go_digits (x : N) (s : string) :
  digits s → digits (pretty_N_go x s).
Proof.
  revert s. induction (N.lt_wf_0 x) as [x _ IH]; intros s Hs.
  destruct (decide (x = 0%N)) as [->|Hx]; [by rewrite pretty_N_go_0|].
  rewrite pretty_N_go_step by lia.
  apply IH; [apply N.div_lt; lia|]. split; [|done].
  exists (x `mod` 10)%N. split; [apply N.mod_lt; lia|done].
Qed.

Lemma str_digits (i : nat) : digits (Py.str i).
Proof.
  rewrite str_unfold. case_decide; [|by apply pretty_N_go_digits].
  split; [|done]. by exists 0%N.
Qed.

Lemma digits_app (s t : string) : digits s → digits t → digits (s +:+ t).
Proof.
  intros Hs Ht. induction s as [|c s IH]; [done|].
  rewrite string_app_cons. destruct Hs as [Hc Hs]. split; [done|by apply IH].
Qed.

Lemma zeros_digits (k : nat) : digits (Py.zeros k).
Proof.
  induction k as [|k IH]; [done|]. split; [|done]. by exists 0%N.
Qed.

Lemma index_digits (i width : nat) : digits (Py.zfill (Py.str i) width).
Proof. rewrite zfill_str. apply digits_app; [apply zeros_digits|apply str_digits]. Qed.

Lemma index_head (i width : nat) :
  ∃ c rest, Py.zfill (Py.str i) width = String c rest ∧ is_digit c.
Proof.
  pose proof (index_digits i width) as Hdigits.
  pose proof (zfill_str_length i width) as Hlen.
  pose proof (str_length_pos i) as Hpos.
  destruct (Py.zfill (Py.str i) width) as [|c rest]; [simpl in Hlen; lia|].
  exists c, rest. by destruct Hdigits.
Qed.

Lemma string_app_assoc (s t u : string) : (s +:+ t) +:+ u = s +:+ t +:+ u.
Proof.
  induction s as [|c s IH]; [done|]. by rewrite !string_app_cons, IH.
Qed.

(** A name that starts with its index is relative: [os.path.join] puts the
    folder in front of it. *)
Lemma starts_with_slash_index (i width : nat) (rest : string) :
  Py.starts_with_slash (Py.zfill (Py.str i) width +:+ rest) = false.
Proof.
  destruct (index_head i width) as (c & s & -> & Hc).
  rewrite string_app_cons. simpl.
  apply bool_decide_eq_false. by apply is_digit_not_slash.
Qed.

Lemma in_folder_relative (folder : option string) (fname : string) :
  Py.starts_with_slash fname = false →
  in_folder folder fname = folder_prefix folder +:+ fname.
Proof.
  intros Hrel. unfold in_folder, truthy, folder_prefix, Py.path_join.
  destruct folder as [d|]; [|done]. simpl. rewrite Hrel.
  destruct (bool_decide (d = "")); simpl; [done|].
  destruct (Py.ends_with_slash d); [done|]. by rewrite string_app_assoc.
Qed.

Lemma pair_fnames_relative zero_padded_length ie fname :
  fname ∈ pair_fnames zero_padded_length ie → Py.starts_with_slash fname = false.
Proof.
  unfold pair_fnames, record_fname, record_identifier_fname.
  intros [->|[->|[]%elem_of_nil]%elem_of_cons]%elem_of_cons;
    apply starts_with_slash_index.
Qed.

Lemma fnames_for_pair zero_padded_length ie fname :
  fname ∈ fnames_for zero_padded_length ie →
  has_registered ie.2 = false ∧ fname ∈ pair_fnames zero_padded_length ie.
Proof.
  unfold fnames_for, pair_fnames. destruct (has_registered ie.2); [|done].
  by intros ?%elem_of_nil.
Qed.

Lemma map_in_folder folder fnames :
  Forall (λ fname, Py.starts_with_slash fname = false) fnames →
  in_folder folder <$> fnames = (λ fname, folder_prefix folder +:+ fname) <$> fnames.
Proof.
  induction 1 as [|fname fnames Hrel _ IH]; [done|].
  by rewrite !fmap_cons, IH, in_folder_relative.
Qed.

(** Index and rest of a name are read off it without ambiguity: the index
    ends at the first underscore. *)
Lemma digits_underscore_inj (s1 s2 r1 r2 : string) :
  digits s1 → digits s2 →
  s1 +:+ String "_" r1 = s2 +:+ String "_" r2 → s1 = s2 ∧ r1 = r2.
Proof.
  revert s2. induction s1 as [|c s1 IH]; intros [|d s2] Hs1 Hs2 Heq.
  - by injection Heq.
  - rewrite string_app_cons in Heq. injection Heq as Hd _.
    destruct Hs2 as [Hs2 _]. by destruct (is_digit_not_underscore d).
  - rewrite string_app_cons in Heq. injection Heq as Hc _.
    destruct Hs1 as [Hs1 _]. by destruct (is_digit_not_underscore c).
  - rewrite !string_app_cons in Heq. injection Heq as -> Heq.
    destruct Hs1 as [_ Hs1], Hs2 as [_ Hs2].
    destruct (IH s2 Hs1 Hs2 Heq) as [-> ->]. done.
Qed.

Lemma pair_fnames_index zero_padded_length ie fname :
  fname ∈ pair_fnames zero_padded_length ie →
  ∃ rest, fname = Py.zfill (Py.str ie.1) zero_padded_length +:+ String "_" rest.
Proof.
  unfold pair_fnames, record_fname, record_identifier_fname.
  intros [->|[->|[]%elem_of_nil]%elem_of_cons]%elem_of_cons; by eexists.
Qed.

Lemma pair_fnames_round zero_padded_length ie1 ie2 fname :
  fname ∈ pair_fnames zero_padded_length ie1 →
  fname ∈ pair_fnames zero_padded_length ie2 →
  ie1.1 = ie2.1.
Proof.
  intros (r1 & ->)%pair_fnames_index (r2 & Heq)%pair_fnames_index.
  apply digits_underscore_inj in Heq as [Heq _]; [|apply index_digits..].
  by apply zfill_str_inj in Heq.
Qed.

Lemma pair_fnames_NoDup zero_padded_length ie :
  NoDup (pair_fnames zero_padded_length ie).
Proof.
  unfold pair_fnames, record_fname, record_identifier_fname.
  apply NoDup_cons. split; [|apply NoDup_singleton].
  intros Heq%list_elem_of_singleton.
  do 3 apply String.app_inj in Heq. done.
Qed.

Lemma fnames_for_NoDup zero_padded_length ie :
  NoDup (fnames_for zero_padded_length ie).
Proof.
  pose proof (pair_fnames_NoDup zero_padded_length ie) as Hpair.
  unfold fnames_for, pair_fnames in *.
  destruct (has_registered ie.2); [apply NoDup_nil_2|done].
Qed.

(** Rounds of a loop over [enumerate(xs)] that cannot produce the same
    thing at different positions produce no thing twice. *)
Lemma NoDup_flat_map_enumerate_from {A B} (f : nat * A → list B) (xs : list A) :
  (∀ ie, NoDup (f ie)) →
  (∀ ie1 ie2 b, b ∈ f ie1 → b ∈ f ie2 → ie1.1 = ie2.1) →
  ∀ i0, NoDup (flat_map f (enumerate_from i0 xs)).
Proof.
  intros Hround Hcross. induction xs as [|x xs IH]; intros i0; simpl.
  - apply NoDup_nil_2.
  - apply NoDup_app. split_and!; [apply Hround| |apply IH].
    intros b Hb ([j y] & Hjy & Hb')%elem_of_flat_map.
    apply enumerate_from_elem in Hjy as (k & -> & _).
    specialize (Hcross _ _ _ Hb Hb'). simpl in Hcross. lia.
Qed.

Lemma fnames_NoDup zero_padded_length (batch : list Registerable) :
  NoDup (flat_map (fnames_for zero_padded_length) (enumerate batch)).
Proof.
  apply NoDup_flat_map_enumerate_from; [apply fnames_for_NoDup|].
  intros ie1 ie2 fname [_ H1]%fnames_for_pair [_ H2]%fnames_for_pair.
  by eapply pair_fnames_round.
Qed.

Lemma fnames_relative zero_padded_length (items : list (nat * Registerable)) :
  Forall (λ fname, Py.starts_with_slash fname = false)
    (flat_map (fnames_for zero_padded_length) items).
Proof.
  apply Forall_forall. intros fname (ie & _ & Hin)%elem_of_flat_map.
  apply fnames_for_pair in Hin as [_ Hin]. by eapply pair_fnames_relative.
Qed.

(** X1: no run of [serialize_all] writes two files under the same path:
    no file of a run overwrites another one of the same run, whatever the
    names of the entities and whatever the folder. *)
Theorem written_paths_distinct pkgs folder mode w :
  NoDup (written_by (serialize_all pkgs folder mode) w).*1.
Proof.
  destruct (load_entities pkgs mode w) as [r w1] eqn:Hload.
  pose proof (load_entities_no_output pkgs mode w) as Hout.
  rewrite Hload in Hout. simpl in Hout.
  rewrite (written_by_serialize_all pkgs folder mode w r w1 Hload Hout).
  destruct r as [batch|e]; [|apply NoDup_nil_2].
  rewrite written_for_names, map_in_folder by apply fnames_relative.
  apply NoDup_fmap_2; [apply _|apply fnames_NoDup].
Qed.

(** What [serialize_tasks_only] adds to the files on disk, and how it ends. *)
Lemma record_pair_names folder zero_padded_length items :
  (flat_map (record_pair folder zero_padded_length) items).*1
  = in_folder folder <$> flat_map (pair_fnames zero_padded_length) items.
Proof.
  induction items as [|ie items IH]; [done|].
  cbn [flat_map]. by rewrite !fmap_app, IH.
Qed.

Lemma serialize_tasks_only_outcome pkgs folder w triples exc :
  iterate_registerable_entities_in_order (packages w) pkgs None = (triples, exc) →
  let tasks := identified (filter (λ mko, resource_type mko.2 = TASK) triples) in
  (serialize_tasks_only pkgs folder w).1
  = match exc with
    | None => Return tt
    | Some e => Raise e
    end
  ∧ entities (serialize_tasks_only pkgs folder w).2 = entities w
  ∧ archives (serialize_tasks_only pkgs folder w).2 = archives w
  ∧ written_by (serialize_tasks_only pkgs folder) w
    = match exc with
      | None =>
          flat_map (record_pair folder (_determine_text_chars (length tasks)))
            (enumerate tasks)
      | Some _ => []
      end.
Proof.
  intros Hscan tasks. destruct exc as [e|].
  - pose proof (scan_tasks (packages w) pkgs) as Htasks.
    rewrite Hscan in Htasks. simpl in Htasks.
    destruct (tasks_scan_spec pkgs w _ _ Htasks)
      as (w1 & Hrun1 & He1 & _ & _ & Ha1 & Hw1 & _).
    unfold written_by, serialize_tasks_only.
    rewrite (bind_raise _ _ _ _ _ Hrun1). simpl.
    by rewrite Hw1, drop_all.
  - destruct (serialize_tasks_only_spec pkgs folder w triples Hscan)
      as (w' & Hrun & He & Ha & Hw).
    unfold written_by. rewrite Hrun. simpl.
    by rewrite Hw, drop_app_length.
Qed.

Lemma pair_fnames_all_relative zero_padded_length (items : list (nat * Registerable)) :
  Forall (λ fname, Py.starts_with_slash fname = false)
    (flat_map (pair_fnames zero_padded_length) items).
Proof.
  apply Forall_forall. intros fname (ie & _ & Hin)%elem_of_flat_map.
  by eapply pair_fnames_relative.
Qed.

(** X2: no run of [serialize_tasks_only] writes two files under the same
    path. *)
Theorem tasks_written_paths_distinct pkgs folder w :
  NoDup (written_by (serialize_tasks_only pkgs folder) w).*1.
Proof.
  destruct (iterate_registerable_entities_in_order (packages w) pkgs None)
    as [triples exc] eqn:Hscan.
  destruct (serialize_tasks_only_outcome pkgs folder w triples exc Hscan)
    as (_ & _ & _ & ->).
  destruct exc as [e|]; [apply NoDup_nil_2|].
  rewrite record_pair_names, map_in_folder by apply pair_fnames_all_relative.
  apply NoDup_fmap_2; [apply _|].
  apply NoDup_flat_map_enumerate_from; [apply pair_fnames_NoDup|].
  intros ie1 ie2 fname H1 H2. by eapply pair_fnames_round.
Qed.

Lemma prefix_app (d s : string) : String.prefix d (d +:+ s) = true.
Proof.
  induction d as [|c d IH]; [by destruct s|].
  rewrite string_app_cons. simpl. by destruct (ascii_dec c c).
Qed.

Lemma prefix_folder_prefix (d s : string) :
  d ≠ "" → String.prefix d (folder_prefix (Some d) +:+ s) = true.
Proof.
  intros Hd. unfold folder_prefix.
  rewrite bool_decide_eq_false_2 by done.
  destruct (Py.ends_with_slash d); [apply prefix_app|].
  rewrite string_app_assoc. apply prefix_app.
Qed.

(** X3: every file of a run of [serialize_all] is written inside the
    output folder: its path is the folder, a separator unless the folder
    brings one, and the bare name.  A bare name starts with the digits of
    its index, so that [os.path.join] never takes it for an absolute path
    and drops the folder, whatever the name of the entity. *)
Theorem written_paths_in_folder pkgs folder mode w batch w1 :
  load_entities pkgs mode w = (Return batch, w1) →
  (written_by (serialize_all pkgs folder mode) w).*1
  = (λ fname, folder_prefix folder +:+ fname)
      <$> flat_map (fnames_for (_determine_text_chars (length batch)))
            (enumerate batch)
  ∧ ∀ d file,
      folder = Some d → d ≠ "" →
      file ∈ written_by (serialize_all pkgs folder mode) w →
      String.prefix d file.1 = true.
Proof.
  intros Hload.
  pose proof (load_entities_no_output pkgs mode w) as Hout.
  rewrite Hload in Hout. simpl in Hout.
  rewrite (written_by_serialize_all pkgs folder mode w _ w1 Hload Hout).
  assert ((flat_map (written_for folder (_determine_text_chars (length batch)))
             (enumerate batch)).*1
          = (λ fname, folder_prefix folder +:+ fname)
              <$> flat_map (fnames_for (_determine_text_chars (length batch)))
                    (enumerate batch)) as Hnames.
  { by rewrite written_for_names, map_in_folder by apply fnames_relative. }
  split; [done|].
  intros d file -> Hd Hfile.
  assert (file.1 ∈ (flat_map
                      (written_for (Some d) (_determine_text_chars (length batch)))
                      (enumerate batch)).*1) as Hpath
    by (by apply list_elem_of_fmap_2).
  rewrite Hnames in Hpath.
  apply list_elem_of_fmap in Hpath as (fname & -> & _).
  by apply prefix_folder_prefix.
Qed.

(** Digit strings of the same length compare as the numbers they denote. *)
Lemma ascii_compare_refl (c : ascii) : Ascii.compare c c = Eq.
Proof. unfold Ascii.compare. apply N.compare_refl. Qed.

Lemma compare_app_l (p x y : string) :
  String.compare (p +:+ x) (p +:+ y) = String.compare x y.
Proof.
  induction p as [|c p IH]; [done|].
  rewrite !string_app_cons. simpl. by rewrite ascii_compare_refl.
Qed.

Lemma compare_app_lt (s t x y : string) :
  String.length s = String.length t →
  String.compare s t = Lt →
  String.compare (s +:+ x) (t +:+ y) = Lt.
Proof.
  revert t. induction s as [|c s IH]; intros [|d t] Hlen Hlt; try done.
  rewrite !string_app_cons. simpl in *.
  destruct (Ascii.compare c d); [|done..].
  apply IH; [lia|done].
Qed.

Lemma digit_compare (c d : ascii) :
  is_digit c → is_digit d →
  Ascii.compare c d = Nat.compare (Py.digit_value c) (Py.digit_value d).
Proof.
  intros (x & Hx & ->) (y & Hy & ->).
  rewrite !digit_value_pretty_N_char by done.
  unfold Ascii.compare. rewrite !pretty_N_char_code by done.
  destruct (Nat.compare_spec (N.to_nat x) (N.to_nat y)).
  - apply N.compare_eq_iff. lia.
  - apply N.compare_lt_iff. lia.
  - apply N.compare_gt_iff. lia.
Qed.

Lemma int_digits_bound (s : string) :
  digits s → Py.int s < 10 ^ String.length s.
Proof.
  induction s as [|c s IH]; simpl; [lia|].
  intros [(x & Hx & ->) Hs]. specialize (IH Hs).
  rewrite digit_value_pretty_N_char by done.
  assert (N.to_nat x ≤ 9) by lia. nia.
Qed.

Lemma digits_compare (s : string) : ∀ t,
  digits s → digits t → String.length s = String.length t →
  Py.int s < Py.int t → String.compare s t = Lt.
Proof.
  induction s as [|c s IH]; intros [|d t] Hs Ht Hlen Hlt; simpl in *; try lia.
  destruct Hs as [Hc Hs], Ht as [Hd Ht].
  assert (String.length s = String.length t) as Hlen' by lia.
  pose proof (int_digits_bound s Hs) as Hbs.
  pose proof (int_digits_bound t Ht) as Hbt.
  rewrite Hlen' in *. rewrite digit_compare by done.
  destruct (Nat.compare_spec (Py.digit_value c) (Py.digit_value d)) as [Heq|?|?].
  - apply IH; [done..|]. rewrite Heq in Hlt. lia.
  - done.
  - nia.
Qed.

Lemma index_compare (n i j : nat) :
  i < j → j < n →
  String.compare (Py.zfill (Py.str i) (_determine_text_chars n))
    (Py.zfill (Py.str j) (_determine_text_chars n)) = Lt.
Proof.
  intros Hij Hjn. apply digits_compare; [apply index_digits..| |].
  - by rewrite !index_length by lia.
  - by rewrite !int_zfill_str.
Qed.

Lemma pair_fnames_compare n i j ei ej fi fj :
  i < j → j < n →
  fi ∈ pair_fnames (_determine_text_chars n) (i, ei) →
  fj ∈ pair_fnames (_determine_text_chars n) (j, ej) →
  String.compare fi fj = Lt.
Proof.
  intros Hij Hjn (ri & ->)%pair_fnames_index (rj & ->)%pair_fnames_index.
  simpl. apply compare_app_lt; [|by apply index_compare].
  by rewrite !index_length by lia.
Qed.

(** X4: the files of a run sort, by name, in the order of the batch: a
    file of an earlier entity of the batch comes before every file of a
    later one in the lexicographic order of the paths, which is what the
    zero-padded index is there for. *)
Theorem file_names_sort_in_batch_order pkgs folder mode w batch w1 :
  load_entities pkgs mode w = (Return batch, w1) →
  ∀ i j ei ej fi fj,
    i < j →
    batch !! i = Some ei → batch !! j = Some ej →
    fi ∈ written_for folder (_determine_text_chars (length batch)) (i, ei) →
    fj ∈ written_for folder (_determine_text_chars (length batch)) (j, ej) →
    fi ∈ written_by (serialize_all pkgs folder mode) w
    ∧ fj ∈ written_by (serialize_all pkgs folder mode) w
    ∧ String.compare fi.1 fj.1 = Lt.
Proof.
  intros Hload i j ei ej fi fj Hij Hi Hj Hfi Hfj.
  pose proof (load_entities_no_output pkgs mode w) as Hout.
  rewrite Hload in Hout. simpl in Hout.
  rewrite (written_by_serialize_all pkgs folder mode w _ w1 Hload Hout).
  split_and!.
  - apply elem_of_flat_map. exists (i, ei). split; [by apply enumerate_lookup|done].
  - apply elem_of_flat_map. exists (j, ej). split; [by apply enumerate_lookup|done].
  - assert (j < length batch) as Hjn by (by eapply lookup_lt_Some).
    assert (∀ k ek f,
              f ∈ written_for folder (_determine_text_chars (length batch)) (k, ek) →
              ∃ fname,
                f.1 = folder_prefix folder +:+ fname
                ∧ fname ∈ pair_fnames (_determine_text_chars (length batch)) (k, ek))
      as Hname.
    { intros k ek f Hf.
      assert (f.1 ∈ (written_for folder (_determine_text_chars (length batch))
                       (k, ek)).*1) as Hpath by (by apply list_elem_of_fmap_2).
      pose proof (written_for_names folder (_determine_text_chars (length batch))
                    [(k, ek)]) as Hnames.
      simpl in Hnames. rewrite !app_nil_r in Hnames. rewrite Hnames in Hpath.
      apply list_elem_of_fmap in Hpath as (fname & -> & Hin).
      apply fnames_for_pair in Hin as [_ Hin].
      exists fname. split; [|done].
      apply in_folder_relative. by eapply pair_fnames_relative. }
    destruct (Hname i ei fi Hfi) as (ni & Hpi & Hni).
    destruct (Hname j ej fj Hfj) as (nj & Hpj & Hnj).
    rewrite Hpi, Hpj, compare_app_l.
    by apply (pair_fnames_compare (length batch) i j ei ej).
Qed.

(** ** How a run ends *)

Lemma visited_task_mode mode registry t chunk :
  visited mode registry (PythonTask t) chunk → ∃ m, mode = Mode m.
Proof. inversion 1; by eexists. Qed.

Lemma visited_elem mode registry snapshot chunks entity :
  Forall2 (visited mode registry) snapshot chunks →
  entity ∈ snapshot →
  ∃ chunk, chunk ∈ chunks ∧ visited mode registry entity chunk.
Proof.
  intros Hall (i & Hi)%list_elem_of_lookup.
  destruct (Forall2_lookup_l _ _ _ _ _ Hall Hi) as (chunk & Hchunk & Hvisited).
  exists chunk. split; [by eapply list_elem_of_lookup_2|done].
Qed.

(** X5: [serialize_all] returns normally exactly when the packages can be
    scanned and the mode, as line 126 leaves it, is a member of
    [SerializationMode] or the registry holds no task: the mode is looked
    at only when a task is expanded, so that an unknown mode goes through
    unnoticed when there is no task. *)
Theorem serialize_all_returns_iff pkgs folder mode w :
  (serialize_all pkgs folder mode w).1 = Return tt
  ↔ (iterate_registerable_entities_in_order (packages w) pkgs None).2 = None
    ∧ ((∃ m, effective_mode mode = Mode m) ∨ ∀ t, PythonTask t ∉ entities w).
Proof.
  destruct (iterate_registerable_entities_in_order (packages w) pkgs None)
    as [triples exc] eqn:Hscan.
  destruct (load_entities_spec pkgs mode w triples exc Hscan)
    as (r & w1 & added & Hload & _ & _ & _ & Hres).
  pose proof (serialize_all_spec pkgs folder mode w r w1 Hload) as Hrun.
  simpl. split.
  - intros Hreturn. destruct exc as [e|].
    { destruct Hres as [-> _]. by rewrite Hrun in Hreturn. }
    split; [done|]. destruct r as [batch|e]; [|by rewrite Hrun in Hreturn].
    destruct Hres as (chunks & _ & Hvisited).
    destruct (effective_mode mode) as [|m|other] eqn:Hmode; [|by eauto|];
      right; intros t Ht;
      destruct (visited_elem _ _ _ _ _ Hvisited Ht) as (chunk & _ & Hchunk);
      by apply visited_task_mode in Hchunk as [m ?].
  - intros [-> Hmode]. destruct r as [batch|e].
    + by destruct Hrun as (w' & -> & _).
    + destruct Hres as (_ & [t Ht] & Hnone).
      destruct Hmode as [[m Hm]|Hno]; [by destruct (Hnone m)|by destruct (Hno t)].
Qed.

(** X6: when the scan of the packages ends with an exception,
    [serialize_all] raises that exception, whatever the mode, and has
    written nothing by then: no file is written, no archive made, and the
    directory trees are untouched (the scan comes before the expansion
    loop and the write loop). *)
Theorem scan_failure_ends_serialize_all pkgs folder mode w e :
  (iterate_registerable_entities_in_order (packages w) pkgs None).2 = Some e →
  ∃ w',
    serialize_all pkgs folder mode w = (Raise e, w')
    ∧ written w' = written w ∧ archives w' = archives w ∧ disk w' = disk w.
Proof.
  destruct (iterate_registerable_entities_in_order (packages w) pkgs None)
    as [triples exc] eqn:Hscan.
  simpl. intros ->.
  destruct (load_entities_spec pkgs mode w triples (Some e) Hscan)
    as (r & w' & added & Hload & (_ & Hd & Ha & Hw) & _ & _ & -> & ->).
  exists w'.
  by rewrite (serialize_all_spec pkgs folder mode w _ w' Hload).
Qed.

(** X7: when the scan of the packages ends with an exception,
    [serialize_tasks_only] raises that exception and has written no file
    by then; archives and directory trees are as they were (the write
    loop starts only once the scan has come to its end). *)
Theorem scan_failure_ends_serialize_tasks_only pkgs folder w e :
  (iterate_registerable_entities_in_order (packages w) pkgs None).2 = Some e →
  ∃ w',
    serialize_tasks_only pkgs folder w = (Raise e, w')
    ∧ written w' = written w ∧ archives w' = archives w ∧ disk w' = disk w.
Proof.
  destruct (iterate_registerable_entities_in_order (packages w) pkgs None)
    as [triples exc] eqn:Hscan.
  simpl. intros ->.
  pose proof (scan_tasks (packages w) pkgs) as Htasks.
  rewrite Hscan in Htasks. simpl in Htasks.
  destruct (tasks_scan_spec pkgs w _ _ Htasks)
    as (w' & Hrun & He & _ & Hd & Ha & Hw & _).
  exists w'. unfold serialize_tasks_only.
  by rewrite (bind_raise _ _ _ _ _ Hrun).
Qed.

(** ** [fast_workflows] *)

Lemma tar_add_filtered :
  (∀ node arcname, Forall (λ ti, _filter_tar_file_fn ti = true) (tar_add arcname node))
  ∧ (∀ entries arcname,
       Forall (λ ti, _filter_tar_file_fn ti = true) (tar_add_entries arcname entries)).
Proof.
  apply FsNode_FsEntries_ind.
  - intros data arcname. simpl.
    destruct (_filter_tar_file_fn _) eqn:Hf; [|done]. by apply Forall_singleton.
  - intros entries IH arcname. simpl.
    destruct (_filter_tar_file_fn _) eqn:Hf; [|done].
    apply Forall_cons. split; [done|apply IH].
  - intros arcname. simpl. done.
  - intros f node IHnode rest IHrest arcname. simpl.
    apply Forall_app. split; [apply IHnode|apply IHrest].
Qed.

Lemma tar_add_head arcname node :
  _filter_tar_file_fn (gettarinfo arcname node) = true →
  gettarinfo arcname node ∈ tar_add arcname node.
Proof.
  intros Hf. destruct node as [data|entries]; simpl in *; rewrite Hf;
    apply list_elem_of_here.
Qed.

Lemma tar_add_entries_entry arcname entries f node :
  entry_of f node entries →
  _filter_tar_file_fn (gettarinfo (Py.path_join arcname f) node) = true →
  gettarinfo (Py.path_join arcname f) node ∈ tar_add_entries arcname entries.
Proof.
  intros Hentry Hf. induction entries as [|f' node' rest IH]; simpl in *; [done|].
  apply elem_of_app. destruct Hentry as [[-> ->]|Hentry].
  - left. by apply tar_add_head.
  - right. by apply IH.
Qed.

Lemma path_join_empty f :
  Py.starts_with_slash f = false → Py.path_join "" f = f.
Proof. unfold Py.path_join. by intros ->. Qed.

(** With a mode of the enumeration [serialize_all] returns whenever the
    packages can be scanned. *)
Lemma serialize_all_returns pkgs folder m w triples :
  iterate_registerable_entities_in_order (packages w) pkgs None = (triples, None) →
  ∃ w', serialize_all pkgs folder (Mode m) w = (Return tt, w').
Proof.
  intros Hscan.
  destruct (load_entities_spec pkgs (Mode m) w triples None Hscan)
    as (r & w1 & added & Hload & _ & _ & _ & Hres).
  pose proof (serialize_all_spec pkgs folder (Mode m) w r w1 Hload) as Hrun.
  destruct r as [batch|e].
  - destruct Hrun as (w' & Hrun & _). by exists w'.
  - destruct Hres as (_ & _ & Hmode). by destruct (Hmode m).
Qed.

(** What [serialize_all] leaves of archives and directory trees: no
    archive is made, and the trees have the files of the run. *)
Lemma serialize_all_frame pkgs folder mode w :
  archives (serialize_all pkgs folder mode w).2 = archives w
  ∧ disk (serialize_all pkgs folder mode w).2
    = disk_after (written_by (serialize_all pkgs folder mode) w) (disk w).
Proof.
  destruct (load_entities pkgs mode w) as [r w1] eqn:Hload.
  pose proof (load_entities_no_output pkgs mode w) as Hout.
  rewrite Hload in Hout. simpl in Hout.
  rewrite (written_by_serialize_all pkgs folder mode w r w1 Hload Hout).
  destruct Hout as (_ & Hd & Ha & _).
  pose proof (serialize_all_spec pkgs folder mode w r w1 Hload) as Hrun.
  destruct r as [batch|e].
  - destruct Hrun as (w' & -> & _ & _ & Hd' & Ha' & _). simpl.
    by rewrite Ha', Ha, Hd', Hd.
  - rewrite Hrun. simpl. by rewrite Ha, Hd.
Qed.

(** The archive and the digest see the same files. *)
Lemma regular_gettarinfo arcname node :
  regular [gettarinfo arcname node]
  = match node with
    | File _ => [gettarinfo arcname node]
    | Dir _ => []
    end.
Proof. by destruct node. Qed.

Lemma regular_tar_add_hashed :
  (∀ node arcname tarinfo,
     tarinfo ∈ regular (tar_add arcname node) →
     tarinfo ∈ filter (λ tarinfo, _filter_tar_file_fn tarinfo = true)
                 (files_under arcname node))
  ∧ (∀ entries arcname tarinfo,
       tarinfo ∈ regular (tar_add_entries arcname entries) →
       tarinfo ∈ filter (λ tarinfo, _filter_tar_file_fn tarinfo = true)
                   (files_under_entries arcname entries)).
Proof.
  apply FsNode_FsEntries_ind.
  - intros data arcname tarinfo. simpl.
    destruct (_filter_tar_file_fn _) eqn:Hf; [|by intros ?%elem_of_nil].
    intros ->%list_elem_of_singleton.
    apply list_elem_of_filter. split; [done|apply list_elem_of_here].
  - intros entries IH arcname tarinfo. simpl.
    destruct (_filter_tar_file_fn _) eqn:Hf; [|by intros ?%elem_of_nil].
    unfold regular. rewrite filter_cons_False by done. apply IH.
  - intros arcname tarinfo. by intros ?%elem_of_nil.
  - intros f node IHnode rest IHrest arcname tarinfo. simpl.
    unfold regular. rewrite !filter_app, !elem_of_app.
    intros [Hin|Hin]; [left; by apply IHnode|right; by apply IHrest].
Qed.

Lemma regular_tar_add_hereditary :
  (∀ node arcname,
     hereditary arcname node →
     regular (tar_add arcname node)
     = filter (λ tarinfo, _filter_tar_file_fn tarinfo = true)
         (files_under arcname node))
  ∧ (∀ entries arcname,
       hereditary_entries arcname entries →
       regular (tar_add_entries arcname entries)
       = filter (λ tarinfo, _filter_tar_file_fn tarinfo = true)
           (files_under_entries arcname entries)).
Proof.
  apply FsNode_FsEntries_ind.
  - intros data arcname _. simpl.
    destruct (_filter_tar_file_fn _) eqn:Hf.
    + by rewrite filter_cons_True.
    + rewrite filter_cons_False; [done|]. by rewrite Hf.
  - intros entries IH arcname [Hrejected Hentries]. simpl.
    destruct (_filter_tar_file_fn _) eqn:Hf.
    + unfold regular. rewrite filter_cons_False by done. by apply IH.
    + specialize (Hrejected eq_refl). symmetry.
      induction Hrejected as [|tarinfo rest Htarinfo _ IHrest]; [done|].
      rewrite filter_cons_False; [done|]. by rewrite Htarinfo.
  - done.
  - intros f node IHnode rest IHrest arcname [Hnode Hrest]. simpl.
    unfold regular. rewrite !filter_app.
    f_equal; [by apply IHnode|by apply IHrest].
Qed.

Lemma announce_spec (folder : option string) (w : World) :
  ∃ w0,
    (if truthy folder then echo (WritingOutputTo (default "" folder)) else ret ()) w
    = (Return tt, w0)
    ∧ entities w0 = entities w ∧ packages w0 = packages w ∧ disk w0 = disk w
    ∧ archives w0 = archives w ∧ written w0 = written w.
Proof. destruct (truthy folder); eexists; (split; [by run_monad|done]). Qed.

Lemma serialize_all_same_inputs pkgs folder mode w1 w2 :
  entities w1 = entities w2 →
  packages w1 = packages w2 →
  (serialize_all pkgs folder mode w1).1 = (serialize_all pkgs folder mode w2).1
  ∧ written_by (serialize_all pkgs folder mode) w1
    = written_by (serialize_all pkgs folder mode) w2.
Proof.
  intros He Hp.
  destruct (respects_load_entities pkgs mode w1 w2 (conj He Hp)) as [Hres _].
  destruct (load_entities pkgs mode w1) as [r1 w1'] eqn:Hload1.
  destruct (load_entities pkgs mode w2) as [r2 w2'] eqn:Hload2.
  simpl in Hres. subst r2.
  pose proof (load_entities_no_output pkgs mode w1) as Hout1.
  pose proof (load_entities_no_output pkgs mode w2) as Hout2.
  rewrite Hload1 in Hout1. rewrite Hload2 in Hout2. simpl in Hout1, Hout2.
  rewrite (written_by_serialize_all pkgs _ mode w1 r1 w1' Hload1 Hout1).
  rewrite (written_by_serialize_all pkgs _ mode w2 r1 w2' Hload2 Hout2).
  pose proof (serialize_all_spec pkgs folder mode w1 r1 w1' Hload1) as Hrun1.
  pose proof (serialize_all_spec pkgs folder mode w2 r1 w2' Hload2) as Hrun2.
  destruct r1 as [batch|e].
  - by destruct Hrun1 as (? & -> & _), Hrun2 as (? & -> & _).
  - by rewrite Hrun1, Hrun2.
Qed.

(** C9: when [serialize_all] has returned in [FAST] mode and the source
    directory is there, [fast_workflows] (writing the archive being taken
    not to fail) returns and has added exactly one archive: a
    gzip-compressed one named [<digest>.tar.gz] (in the output
    folder when one is given), whose members are the tree of the source
    directory as [serialize_all] left it, added under the empty [arcname],
    so that an entry [f] of the directory is the member [f] and not
    [<source_dir>/f].  The digest in the name is that of the same tree,
    and the one filter predicate decides for both: every member has
    passed it, every regular file in the archive is a file the digest has
    hashed, and the files archived are exactly the files hashed when the
    filter rejects no directory without the files below it. *)
Theorem fast_workflows_archive pkgs source_dir folder w tree :
  (serialize_all pkgs folder (Mode FAST) w).1 = Return tt →
  lookup_assoc source_dir
    (disk_after (written_by (serialize_all pkgs folder (Mode FAST)) w) (disk w))
  = Some tree →
  ∃ w' archive,
    fast_workflows pkgs source_dir folder w = (Return tt, w')
    ∧ archives w' = archives w ++ [archive]
    ∧ archive_gzip archive = true
    ∧ archive_fname archive
      = Py.path_join (if truthy folder then default "" folder else "")
          (_compute_digest source_dir (Some tree) +:+ ".tar.gz")
    ∧ _compute_digest source_dir (Some tree)
      = hexdigest ((λ tarinfo, (ti_name tarinfo, ti_data tarinfo))
                     <$> digest_entries tree)
    ∧ archive_members archive = tar_add "" tree
    ∧ Forall (λ ti, _filter_tar_file_fn ti = true) (archive_members archive)
    ∧ (∀ tarinfo,
         tarinfo ∈ regular (archive_members archive) →
         tarinfo ∈ digest_entries tree)
    ∧ (hereditary "" tree → regular (archive_members archive) = digest_entries tree)
    ∧ ∀ entries f node,
        tree = Dir entries → entry_of f node entries →
        Py.starts_with_slash f = false →
        _filter_tar_file_fn (gettarinfo "" tree) = true →
        _filter_tar_file_fn (gettarinfo f node) = true →
        gettarinfo f node ∈ archive_members archive
        ∧ ti_name (gettarinfo f node) = f.
Proof.
  intros Hreturn Htree. unfold fast_workflows.
  destruct (announce_spec folder w) as (w0 & Hrun0 & He0 & Hp0 & Hd0 & Ha0 & Hw0).
  rewrite (bind_return _ _ _ _ _ Hrun0).
  destruct (serialize_all_same_inputs pkgs folder (Mode FAST) w0 w He0 Hp0)
    as [Hend Hwritten].
  destruct (serialize_all_frame pkgs folder (Mode FAST) w0) as [Ha1 Hd1].
  rewrite Hwritten, Hd0, Ha0 in *. rewrite Hreturn in Hend.
  destruct (serialize_all pkgs folder (Mode FAST) w0) as [r1 w1] eqn:Hrun1.
  simpl in Hend, Ha1, Hd1. subst r1.
  rewrite (bind_return _ _ _ _ _ Hrun1). cbv beta zeta.
  rewrite Hd1, Htree.
  eexists _,
    {| archive_fname :=
         Py.path_join (if truthy folder then default "" folder else "")
           (_compute_digest source_dir (Some tree) +:+ ".tar.gz");
       archive_gzip := true;
       archive_members := tar_add "" tree |}.
  split; [by run_monad|]. simpl.
  split_and!; [by rewrite Ha1|done|done|done|done| | | |].
  - apply tar_add_filtered.
  - apply regular_tar_add_hashed.
  - apply regular_tar_add_hereditary.
  - intros entries f node -> Hentry Hslash Hroot Hf. split.
    + simpl in *. rewrite Hroot. apply list_elem_of_further.
      rewrite <-(path_join_empty f Hslash) at 1.
      apply tar_add_entries_entry; [done|]. by rewrite path_join_empty.
    + by destruct node.
Qed.

(** X8: [fast_workflows] writes the record files that [serialize_all]
    writes in [FAST] mode and no other, and the archive comes last: when
    [serialize_all] raises, [fast_workflows] raises the same exception and
    no archive has been made. *)
Theorem fast_workflows_serializes_first pkgs source_dir folder w :
  written_by (fast_workflows pkgs source_dir folder) w
  = written_by (serialize_all pkgs folder (Mode FAST)) w
  ∧ ∀ e,
      (serialize_all pkgs folder (Mode FAST) w).1 = Raise e →
      (fast_workflows pkgs source_dir folder w).1 = Raise e
      ∧ archives (fast_workflows pkgs source_dir folder w).2 = archives w.
Proof.
  destruct (announce_spec folder w) as (w0 & Hrun0 & He0 & Hp0 & Hd0 & Ha0 & Hw0).
  destruct (serialize_all_same_inputs pkgs folder (Mode FAST) w0 w He0 Hp0)
    as [Hend Hwritten].
  destruct (serialize_all_frame pkgs folder (Mode FAST) w0) as [Ha1 _].
  rewrite <-Hend, <-Hwritten. unfold fast_workflows, written_by.
  rewrite (bind_return _ _ _ _ _ Hrun0), Hw0.
  destruct (serialize_all pkgs folder (Mode FAST) w0) as [[[]|e0] w1] eqn:Hrun1.
  - rewrite (bind_return _ _ _ _ _ Hrun1). split; [|done].
    cbv beta zeta. by destruct (lookup_assoc source_dir (disk w1)).
  - rewrite (bind_raise _ _ _ _ _ Hrun1). split; [done|].
    intros e [= <-]. simpl in *. split; [done|]. by rewrite Ha1, Ha0.
Qed.

(** ** The commands *)


(** X10: every identifier file that [serialize_tasks_only] writes holds
    an identifier of resource type [TASK] with the three registration
    placeholders for project, domain and version, named after a task
    object the scan yielded, by [fqdn] of its module and binding; the same
    name is in the path of the file. *)
Theorem tasks_only_identifiers pkgs folder w path i :
  (path, IdentifierIdl i) ∈ written_by (serialize_tasks_only pkgs folder) w →
  Identifier.resource_type i = TASK
  ∧ Identifier.project i = _PROJECT_PLACEHOLDER
  ∧ Identifier.domain i = _DOMAIN_PLACEHOLDER
  ∧ Identifier.version i = _VERSION_PLACEHOLDER
  ∧ ∃ m k o fname_index,
      (m, k, o) ∈ (iterate_registerable_entities_in_order (packages w) pkgs None).1
      ∧ resource_type o = TASK
      ∧ Identifier.name i = fqdn m k TASK
      ∧ path = in_folder folder
                 (fname_index +:+ "_" +:+ fqdn m k TASK +:+ ".identifier.pb").
Proof.
  destruct (iterate_registerable_entities_in_order (packages w) pkgs None)
    as [triples exc] eqn:Hscan.
  destruct (serialize_tasks_only_outcome pkgs folder w triples exc Hscan)
    as (_ & _ & _ & ->).
  destruct exc as [e|]; [by intros ?%elem_of_nil|].
  intros ([j entity] & Hentity & Hfile)%elem_of_flat_map.
  apply enumerate_lookup, list_elem_of_lookup_2 in Hentity.
  apply list_elem_of_fmap in Hentity as ([[m k] o] & -> & Ho).
  apply list_elem_of_filter in Ho as [Htask Ho]. simpl in Htask.
  unfold record_pair in Hfile. simpl in Hfile.
  apply elem_of_cons in Hfile as [[=]|Hfile].
  apply list_elem_of_singleton in Hfile. injection Hfile as -> ->.
  simpl. rewrite Htask. split_and!; [done..|].
  exists m, k, o, (Py.zfill (Py.str j)
                     (_determine_text_chars
                        (length (identified
                                   (filter (λ mko, resource_type mko.2 = TASK) triples))))).
  split_and!; [done..|].
  unfold record_identifier_fname. simpl. by rewrite Htask.
Qed.

(** ** The files of a run, pair by pair *)





(** ** A second run in the same process *)

Lemma visited_functional mode registry entity chunk1 chunk2 :
  visited mode registry entity chunk1 →
  visited mode registry entity chunk2 →
  chunk1 = chunk2.
Proof.
  destruct 1; inversion 1; subst; try done; congruence.
Qed.

Lemma visited_all_functional mode registry snapshot chunks1 chunks2 :
  Forall2 (visited mode registry) snapshot chunks1 →
  Forall2 (visited mode registry) snapshot chunks2 →
  chunks1 = chunks2.
Proof.
  intros H1. revert chunks2. induction H1 as [|e c1 es cs1 Hc1 _ IH];
    intros chunks2 H2; inversion H2 as [|? c2 ? cs2 Hc2 Hcs2]; subst; [done|].
  f_equal; [by eapply visited_functional|by apply IH].
Qed.

Lemma visited_synthesized mode registry ctx (P : WorkflowT → Prop) added chunks :
  Forall (λ e, ∃ wf, P wf ∧ e = synthesized ctx wf) added →
  Forall2 (visited mode registry) added chunks →
  ∃ lps, added = LaunchPlan <$> lps ∧ concat chunks = lp_registerable <$> lps.
Proof.
  intros Hadded Hvisited.
  induction Hvisited as [|e chunk es cs Hchunk _ IH]; [by exists []|].
  apply Forall_cons in Hadded as [(wf & _ & ->) Hadded].
  destruct (IH Hadded) as (lps & -> & Hcs).
  inversion Hchunk; subst.
  eexists (_ :: lps). split; [done|]. simpl. by rewrite Hcs.
Qed.

(** X12: a second run in the same process, started from the registry
    the first run left, changes the registry no more (every workflow has
    its launch plan by then) and loads the batch of the first run followed
    by the registerable forms of the launch plans the first run
    synthesized, each of which is an entity of the registry now and gets a
    round of its own in the expansion loop. *)
Theorem second_run_repeats_launch_plans pkgs mode w batch1 w1 :
  load_entities pkgs mode w = (Return batch1, w1) →
  ∃ batch2 w2 added,
    load_entities pkgs mode w1 = (Return batch2, w2)
    ∧ entities w1 = entities w ++ (LaunchPlan <$> added)
    ∧ entities w2 = entities w1
    ∧ batch2 = batch1 ++ (lp_registerable <$> added).
Proof.
  intros Hload.
  destruct (load_entities_return pkgs mode w batch1 w1 Hload)
    as (triples & chunks & added & Hscan & -> & Hvisited & Hent & Hadded & Hout).
  destruct Hout as (Hp & _).
  assert (∀ e, e ∈ entities w1 → (∀ lp, e ≠ LaunchPlan lp) → e ∈ entities w)
    as Hold.
  { intros e He Hlp. rewrite Hent in He. apply elem_of_app in He as [He|He]; [done|].
    rewrite Forall_forall in Hadded.
    destruct (Hadded e He) as (wf & _ & -> & _). by destruct (Hlp _ eq_refl). }
  rewrite <-Hp in Hscan.
  destruct (load_entities_spec pkgs mode w1 triples None Hscan)
    as (r2 & w2 & added2 & Hload2 & _ & Hent2 & Hadded2 & Hres2).
  assert (added2 = []) as ->.
  { destruct added2 as [|e rest]; [done|].
    apply Forall_cons in Hadded2 as [(wf & Hwf & _ & Hnone) _].
    apply Hold in Hwf; [|done].
    destruct (visited_elem _ _ _ _ _ Hvisited Hwf) as (chunk & _ & Hchunk).
    inversion Hchunk; congruence. }
  rewrite app_nil_r in Hent2.
  destruct r2 as [batch2|e].
  2:{ destruct Hres2 as (_ & [t Ht] & Hmode).
      apply Hold in Ht; [|done].
      destruct (visited_elem _ _ _ _ _ Hvisited Ht) as (chunk & _ & Hchunk).
      apply visited_task_mode in Hchunk as [m Hm]. by destruct (Hmode m). }
  destruct Hres2 as (chunks2 & -> & Hvisited2).
  rewrite Hent2 in Hvisited2. rewrite Hent in Hvisited2 at 2.
  apply Forall2_app_inv_l in Hvisited2
    as (chunks_old & chunks_new & Hvisited_old & Hvisited_new & ->).
  assert (chunks_old = chunks) as ->
    by (by eapply visited_all_functional).
  destruct (visited_synthesized (effective_mode mode) (entities w1)
              (settings_after triples)
              (λ wf, Workflow wf ∈ entities w) added chunks_new)
    as (lps & -> & Hnew); [|done|].
  { eapply Forall_impl; [exact Hadded|]. intros e (wf & ? & ? & _). by exists wf. }
  exists (identified triples ++ concat (chunks ++ chunks_new)), w2, lps.
  split_and!; [done..|].
  by rewrite concat_app, Hnew, app_assoc.
Qed.

End Pipeline.

(** * The scenarios *)

(** C1, as stated, fails when the registry holds [W] and a launch plan of
    [W]: no launch plan is synthesized, yet the launch plan is appended
    after [W] in the round of [W], and once more in its own round; the
    registry holds it once, the batch twice. *)
Lemma launch_plan_already_registered_appended_again :
  find_launch_plan Sample.W (entities Sample.world_with_launch_plan)
  = Some Sample.LP_W
  ∧ ∃ batch w',
      load_entities Sample.fqdn Sample.default_launch_plan_registerable []
        (Mode DEFAULT) Sample.world_with_launch_plan
      = (Return batch, w')
      ∧ batch = [workflow_registerable Sample.W; lp_registerable Sample.LP_W;
                 lp_registerable Sample.LP_W]
      ∧ entities w' = entities Sample.world_with_launch_plan
      ∧ length (filter (λ e, e = LaunchPlan Sample.LP_W)
                  (entities Sample.world_with_launch_plan)) = 1
      ∧ length (filter (λ r, r = lp_registerable Sample.LP_W) batch) = 2.
Proof.
  split; [done|]. eexists _, _. split; [by vm_compute|].
  split_and!; [done|done|by vm_compute|by vm_compute].
Qed.

Lemma default_launch_plan_follows_workflow_witness :
  ∃ batch w',
    load_entities Sample.fqdn Sample.default_launch_plan_registerable
      ["pkg"] (Mode DEFAULT) Sample.world = (Return batch, w')
    ∧ entities Sample.world !! 1 = Some (Workflow Sample.W)
    ∧ ∃ j lp,
        batch !! j = Some (workflow_registerable Sample.W)
        ∧ batch !! S j = Some (lp_registerable lp)
        ∧ find_launch_plan Sample.W (entities w') = Some lp.
Proof.
  eexists _, _. split; [vm_compute; reflexivity|]. split; [reflexivity|].
  edestruct (default_launch_plan_follows_workflow Sample.fqdn
               Sample.default_launch_plan_registerable ["pkg"] (Mode DEFAULT)
               Sample.world) with (i := 1) (wf := Sample.W)
    as (j & lp & added & Hj & HSj & Hfind & _);
    [vm_compute; reflexivity|reflexivity|].
  exists j, lp. split; [exact Hj|]. split; [exact HSj|exact Hfind].
Defined.

(** C3, as stated, fails for a mode that is no member of
    [SerializationMode] and is falsy, such as [0] or the empty string:
    line 126 replaces it by [DEFAULT], the run returns without an error,
    and the task [T] of the registry is written in its direct form. *)
Lemma falsy_mode_is_serialized_as_default :
  ModeOther false ≠ Mode DEFAULT ∧ ModeOther false ≠ Mode FAST
  ∧ PythonTask Sample.T ∈ entities Sample.world
  ∧ ∃ w',
      serialize_all Sample.fqdn Sample.default_launch_plan_registerable
        Sample.fs_write ["pkg"] (Some "out") (ModeOther false) Sample.world
      = (Return tt, w')
      ∧ ("out/2_pkg.tasks.t.pb", Serialized "task t") ∈ written w'.
Proof.
  split; [done|]. split; [done|]. split; [apply list_elem_of_here|].
  eexists. split; [by vm_compute|].
  do 4 apply list_elem_of_further. apply list_elem_of_here.
Qed.

Lemma task_form_follows_mode_witness :
  PythonTask Sample.T ∈ entities Sample.world
  ∧ (∃ batch w1 w',
       load_entities Sample.fqdn Sample.default_launch_plan_registerable
         ["pkg"] ModeNone Sample.world = (Return batch, w1)
       ∧ task_registerable Sample.T ∈ batch
       ∧ serialize_all Sample.fqdn Sample.default_launch_plan_registerable
           Sample.fs_write ["pkg"] (Some "out") ModeNone Sample.world
         = (Return tt, w')
       ∧ ∃ i, (in_folder (Some "out")
                 (record_fname
                    (Py.zfill (Py.str i) (_determine_text_chars (length batch)))
                    (task_registerable Sample.T)),
               Serialized "task t") ∈ written w')
  ∧ (∃ batch w1 w',
       load_entities Sample.fqdn Sample.default_launch_plan_registerable
         ["pkg"] (Mode FAST) Sample.world = (Return batch, w1)
       ∧ task_fast_registerable Sample.T ∈ batch
       ∧ serialize_all Sample.fqdn Sample.default_launch_plan_registerable
           Sample.fs_write ["pkg"] (Some "out") (Mode FAST) Sample.world
         = (Return tt, w'))
  ∧ ∃ w',
      serialize_all Sample.fqdn Sample.default_launch_plan_registerable
        Sample.fs_write ["pkg"] (Some "out") (ModeOther true) Sample.world
      = (Raise (AssertionError "Unrecognized serialization mode"), w')
      ∧ written w' = written Sample.world.
Proof.
  assert (PythonTask Sample.T ∈ entities Sample.world) as Hin
    by apply list_elem_of_here.
  split; [exact Hin|]. split.
  { destruct (task_form_follows_mode Sample.fqdn
                Sample.default_launch_plan_registerable Sample.fs_write ["pkg"]
                (Some "out") ModeNone Sample.world Sample.T Hin)
      as (Hdefault & _ & _).
    destruct Hdefault as [_ Hrun]; [right; reflexivity|].
    destruct (Hrun eq_refl) as (batch & w1 & w' & Hload & Hbatch & Hreturn & Hfile).
    exists batch, w1, w'. split; [exact Hload|]. split; [exact Hbatch|].
    split; [exact Hreturn|].
    destruct (Hfile eq_refl) as (i & _ & Hwritten). exists i. exact Hwritten. }
  split.
  { destruct (task_form_follows_mode Sample.fqdn
                Sample.default_launch_plan_registerable Sample.fs_write ["pkg"]
                (Some "out") (Mode FAST) Sample.world Sample.T Hin)
      as (_ & Hfast & _).
    destruct (Hfast eq_refl) as [_ Hrun].
    destruct (Hrun eq_refl) as (batch & w1 & w' & Hload & Hbatch & Hreturn & _).
    exists batch, w1, w'. split; [exact Hload|]. split; [exact Hbatch|exact Hreturn]. }
  destruct (task_form_follows_mode Sample.fqdn
              Sample.default_launch_plan_registerable Sample.fs_write ["pkg"]
              (Some "out") (ModeOther true) Sample.world Sample.T Hin)
    as (_ & _ & Hother).
  destruct Hother as (e & w' & Hrun & Hwritten & _ & _ & He);
    [reflexivity|discriminate|discriminate|].
  rewrite (He eq_refl) in Hrun.
  exists w'. split; [exact Hrun|exact Hwritten].
Defined.

Lemma scanned_objects_are_written_witness :
  ∃ batch w1,
    load_entities Sample.fqdn Sample.default_launch_plan_registerable
      ["pkg"] (Mode DEFAULT) Sample.world = (Return batch, w1)
    ∧ ("out/0_pkg.legacy.t.pb", Serialized "sdk task t")
        ∈ written_by
            (serialize_all Sample.fqdn Sample.default_launch_plan_registerable Sample.fs_write
               ["pkg"] (Some "out") (Mode DEFAULT)) Sample.world.
Proof.
  eexists _, _. split; [vm_compute; reflexivity|].
  edestruct (scanned_objects_are_written Sample.fqdn
               Sample.default_launch_plan_registerable Sample.fs_write ["pkg"] (Some "out")
               (Mode DEFAULT) Sample.world)
    as (triples & chunks & Hscan & _ & _ & _ & Hfiles);
    [vm_compute; reflexivity|].
  vm_compute in Hscan. injection Hscan as <-.
  apply (Hfiles 0 "pkg.legacy" "t" Sample.sdk_t); [reflexivity|reflexivity|].
  vm_compute. apply list_elem_of_here.
Defined.

Lemma registered_entities_are_skipped_witness :
  ∃ batch w1,
    load_entities Sample.fqdn Sample.default_launch_plan_registerable
      [] (Mode DEFAULT) Sample.world_with_registered = (Return batch, w1)
    ∧ ∃ w',
        serialize_all Sample.fqdn Sample.default_launch_plan_registerable Sample.fs_write
          [] None (Mode DEFAULT) Sample.world_with_registered = (Return tt, w')
        ∧ written w'
          = [("1_pkg.tasks.t.pb", Serialized "task t");
             ("1_pkg.tasks.t.identifier.pb",
              IdentifierIdl (Sample.placeholder_id TASK "pkg.tasks.t"))]
        ∧ (INFO, Skipping (Sample.placeholder_id TASK "pkg.tasks.old")) ∈ logged w'.
Proof.
  eexists _, _. split; [vm_compute; reflexivity|].
  edestruct (registered_entities_are_skipped Sample.fqdn
               Sample.default_launch_plan_registerable Sample.fs_write [] None (Mode DEFAULT)
               Sample.world_with_registered)
    as (w' & Hrun & Hwritten & Hskipped & _);
    [vm_compute; reflexivity|].
  exists w'. split; [exact Hrun|]. split.
  - rewrite Hwritten. vm_compute. reflexivity.
  - apply (Hskipped 0 (task_registerable Sample.T_registered)); reflexivity.
Defined.

Lemma expansion_iterates_snapshot_witness :
  ∃ batch w',
    load_entities Sample.fqdn Sample.default_launch_plan_registerable
      [] (Mode DEFAULT) Sample.world = (Return batch, w')
    ∧ length (entities Sample.world) = 2
    ∧ length (entities w') = 3
    ∧ ∃ chunks, batch = concat chunks ∧ length chunks = 2.
Proof.
  eexists _, _. split; [vm_compute; reflexivity|].
  split; [reflexivity|]. split; [reflexivity|].
  edestruct (expansion_iterates_snapshot Sample.fqdn
               Sample.default_launch_plan_registerable [] (Mode DEFAULT)
               Sample.world)
    as (triples & chunks & added & Hscan & Hbatch & Hlen & _);
    [vm_compute; reflexivity|].
  vm_compute in Hscan. injection Hscan as <-.
  exists chunks. split; [exact Hbatch|exact Hlen].
Defined.

Lemma output_filenames_deterministic_witness :
  entities Sample.world = entities Sample.world_later
  ∧ packages Sample.world = packages Sample.world_later
  ∧ written_by
      (serialize_all Sample.fqdn Sample.default_launch_plan_registerable Sample.fs_write
         ["pkg"] (Some "out") (Mode DEFAULT)) Sample.world
    = written_by
        (serialize_all Sample.fqdn Sample.default_launch_plan_registerable Sample.fs_write
           ["pkg"] (Some "out") (Mode DEFAULT)) Sample.world_later.
Proof.
  split; [reflexivity|]. split; [reflexivity|].
  destruct (output_filenames_deterministic Sample.fqdn
              Sample.default_launch_plan_registerable Sample.fs_write ["pkg"] (Mode DEFAULT)
              (Some "out") None Sample.world Sample.world_later
              eq_refl eq_refl) as (_ & Hsame & _).
  exact Hsame.
Defined.

(** The scenario of the spec: the package binds the task and the workflow,
    the registry holds [T] and [W]; one record pair is written, for the
    task. *)
Lemma serialize_tasks_only_writes_tasks_witness :
  iterate_registerable_entities_in_order (packages Sample.world) ["pkg"] None
  = ([("pkg.legacy", "t", Sample.sdk_t); ("pkg.legacy", "w", Sample.sdk_w)], None)
  ∧ ∃ w',
      serialize_tasks_only Sample.fqdn Sample.fs_write ["pkg"] (Some "out") Sample.world
      = (Return tt, w')
      ∧ entities w' = entities Sample.world
      ∧ written_by (serialize_tasks_only Sample.fqdn Sample.fs_write ["pkg"] (Some "out"))
          Sample.world
        = [("out/0_pkg.legacy.t.pb", Serialized "sdk task t");
           ("out/0_pkg.legacy.t.identifier.pb",
            IdentifierIdl (Sample.placeholder_id TASK "pkg.legacy.t"))].
Proof.
  split; [reflexivity|].
  destruct (serialize_tasks_only_writes_tasks Sample.fqdn Sample.fs_write ["pkg"] (Some "out")
              Sample.world
              [("pkg.legacy", "t", Sample.sdk_t); ("pkg.legacy", "w", Sample.sdk_w)]
              eq_refl)
    as (w' & tasks & Hrun & -> & _ & Hent & Hwritten & _).
  exists w'. split; [exact Hrun|]. split; [exact Hent|].
  rewrite Hwritten. vm_compute. reflexivity.
Defined.

(** The output folder is the source directory itself: the record files
    that [serialize_all] has written there are in the archive, and in the
    digest of its name. *)
Lemma fast_workflows_archive_witness :
  (serialize_all Sample.fqdn Sample.default_launch_plan_registerable
     Sample.fs_write ["pkg"] (Some "/src") (Mode FAST) Sample.world).1 = Return tt
  ∧ ∃ tree w' archive,
      lookup_assoc "/src"
        (disk_after Sample.fs_write
           (written_by
              (serialize_all Sample.fqdn Sample.default_launch_plan_registerable
                 Sample.fs_write ["pkg"] (Some "/src") (Mode FAST)) Sample.world)
           (disk Sample.world)) = Some tree
      ∧ fast_workflows Sample.fqdn Sample.default_launch_plan_registerable
          Sample.fs_write Sample.filter_tar_file_fn Sample.hexdigest ["pkg"] "/src"
          (Some "/src") Sample.world = (Return tt, w')
      ∧ archives w' = [archive]
      ∧ archive_gzip archive = true
      ∧ archive_fname archive = "/src/474.tar.gz"
      ∧ ti_name <$> archive_members archive
        = [""; "tasks.py";
           "0_pkg.legacy.t.pb"; "0_pkg.legacy.t.identifier.pb";
           "1_pkg.legacy.w.pb"; "1_pkg.legacy.w.identifier.pb";
           "2_pkg.tasks.t.pb"; "2_pkg.tasks.t.identifier.pb";
           "3_pkg.workflows.w.pb"; "3_pkg.workflows.w.identifier.pb";
           "4_pkg.workflows.w.pb"; "4_pkg.workflows.w.identifier.pb"]
      ∧ regular (archive_members archive)
        = digest_entries Sample.filter_tar_file_fn tree.
Proof.
  split; [vm_compute; reflexivity|].
  eexists.
  edestruct (fast_workflows_archive Sample.fqdn
               Sample.default_launch_plan_registerable Sample.fs_write
               Sample.filter_tar_file_fn Sample.hexdigest ["pkg"] "/src"
               (Some "/src") Sample.world)
    as (w' & archive & Hrun & Harchives & Hgzip & Hfname & _ & Hmembers & _
        & _ & Hsame & _);
    [vm_compute; reflexivity|vm_compute; reflexivity|].
  exists w', archive. split; [vm_compute; reflexivity|].
  split; [exact Hrun|]. split; [exact Harchives|]. split; [exact Hgzip|].
  split; [rewrite Hfname; vm_compute; reflexivity|].
  split; [rewrite Hmembers; vm_compute; reflexivity|].
  apply Hsame. vm_compute.
  repeat split; try (intros Hrejected; discriminate Hrejected);
    intros _; repeat constructor.
Defined.

Lemma skipped_entities_keep_their_index_witness :
  ∃ batch w1,
    load_entities Sample.fqdn Sample.default_launch_plan_registerable
      [] (Mode DEFAULT) Sample.world_with_registered = (Return batch, w1)
    ∧ batch !! 0 = Some (task_registerable Sample.T_registered)
    ∧ batch !! 1 = Some (task_registerable Sample.T)
    ∧ written_by
        (serialize_all Sample.fqdn Sample.default_launch_plan_registerable Sample.fs_write
           [] None (Mode DEFAULT)) Sample.world_with_registered
      = [("1_pkg.tasks.t.pb", Serialized "task t");
         ("1_pkg.tasks.t.identifier.pb",
          IdentifierIdl (Sample.placeholder_id TASK "pkg.tasks.t"))].
Proof.
  eexists _, _. split; [vm_compute; reflexivity|].
  split; [reflexivity|]. split; [reflexivity|].
  edestruct (skipped_entities_keep_their_index Sample.fqdn
               Sample.default_launch_plan_registerable Sample.fs_write [] None (Mode DEFAULT)
               Sample.world_with_registered)
    as [Hwritten _]; [vm_compute; reflexivity|].
  rewrite Hwritten. vm_compute. reflexivity.
Defined.

(** ** The scenarios of the file names and of the outcome *)

(** A task named [/etc/passwd] is written under the folder all the same. *)
Lemma written_paths_in_folder_witness :
  ∃ batch w1,
    load_entities Sample.fqdn Sample.default_launch_plan_registerable
      [] (Mode DEFAULT) Scenario.world_absolute = (Return batch, w1)
    ∧ (written_by
         (serialize_all Sample.fqdn Sample.default_launch_plan_registerable Sample.fs_write
            [] (Some "out") (Mode DEFAULT)) Scenario.world_absolute).*1
      = ["out/0_/etc/passwd.pb"; "out/0_/etc/passwd.identifier.pb"]
    ∧ ∀ file,
        file ∈ written_by
                 (serialize_all Sample.fqdn Sample.default_launch_plan_registerable Sample.fs_write
                    [] (Some "out") (Mode DEFAULT)) Scenario.world_absolute →
        String.prefix "out" file.1 = true.
Proof.
  eexists _, _. split; [vm_compute; reflexivity|].
  edestruct (written_paths_in_folder Sample.fqdn
               Sample.default_launch_plan_registerable Sample.fs_write [] (Some "out")
               (Mode DEFAULT) Scenario.world_absolute)
    as [Hnames Hprefix]; [vm_compute; reflexivity|].
  split.
  - rewrite Hnames. vm_compute. reflexivity.
  - intros file Hfile. apply (Hprefix "out" file); [reflexivity|discriminate|exact Hfile].
Defined.

(** The registry of eleven tasks: the file of index [02] sorts before the
    files of index [10]. *)
Lemma file_names_sort_in_batch_order_witness :
  ∃ batch w1,
    load_entities Sample.fqdn Sample.default_launch_plan_registerable
      [] (Mode DEFAULT) Scenario.world_eleven = (Return batch, w1)
    ∧ ("out/02_pkg.tasks.t.pb", Serialized "task t")
        ∈ written_by
            (serialize_all Sample.fqdn Sample.default_launch_plan_registerable Sample.fs_write
               [] (Some "out") (Mode DEFAULT)) Scenario.world_eleven
    ∧ String.compare "out/02_pkg.tasks.t.pb" "out/10_pkg.tasks.t.identifier.pb" = Lt.
Proof.
  eexists _, _. split; [vm_compute; reflexivity|].
  edestruct (file_names_sort_in_batch_order Sample.fqdn
               Sample.default_launch_plan_registerable Sample.fs_write [] (Some "out")
               (Mode DEFAULT) Scenario.world_eleven)
    with (i := 2) (j := 10)
         (ei := task_registerable Sample.T) (ej := task_registerable Sample.T)
         (fi := ("out/02_pkg.tasks.t.pb", Serialized "task t"))
         (fj := ("out/10_pkg.tasks.t.identifier.pb",
                 IdentifierIdl (Sample.placeholder_id TASK "pkg.tasks.t")))
    as (Hfi & _ & Hlt);
    [vm_compute; reflexivity|lia|reflexivity|reflexivity
    |vm_compute; apply list_elem_of_here
    |vm_compute; apply list_elem_of_further, list_elem_of_here|].
  split; [exact Hfi|exact Hlt].
Defined.

(** A package that cannot be imported: the exception is the scanner's, and
    nothing has been written. *)
Lemma scan_failure_ends_serialize_all_witness :
  (iterate_registerable_entities_in_order (packages Sample.world)
     ["pkg"; "missing"] None).2 = Some (ModuleNotFoundError "missing")
  ∧ ∃ w',
      serialize_all Sample.fqdn Sample.default_launch_plan_registerable Sample.fs_write
        ["pkg"; "missing"] (Some "out") (Mode DEFAULT) Sample.world
      = (Raise (ModuleNotFoundError "missing"), w')
      ∧ written w' = written Sample.world ∧ archives w' = archives Sample.world.
Proof.
  assert ((iterate_registerable_entities_in_order (packages Sample.world)
             ["pkg"; "missing"] None).2 = Some (ModuleNotFoundError "missing"))
    as Hscan by reflexivity.
  split; [exact Hscan|].
  destruct (scan_failure_ends_serialize_all Sample.fqdn
              Sample.default_launch_plan_registerable Sample.fs_write
              ["pkg"; "missing"] (Some "out") (Mode DEFAULT) Sample.world
              (ModuleNotFoundError "missing") Hscan)
    as (w' & Hrun & Hwritten & Harchives & _).
  exists w'. split; [exact Hrun|]. split; [exact Hwritten|exact Harchives].
Defined.

Lemma scan_failure_ends_serialize_tasks_only_witness :
  (iterate_registerable_entities_in_order (packages Sample.world)
     ["pkg"; "missing"] None).2 = Some (ModuleNotFoundError "missing")
  ∧ ∃ w',
      serialize_tasks_only Sample.fqdn Sample.fs_write
        ["pkg"; "missing"] (Some "out") Sample.world
      = (Raise (ModuleNotFoundError "missing"), w')
      ∧ written w' = written Sample.world.
Proof.
  assert ((iterate_registerable_entities_in_order (packages Sample.world)
             ["pkg"; "missing"] None).2 = Some (ModuleNotFoundError "missing"))
    as Hscan by reflexivity.
  split; [exact Hscan|].
  destruct (scan_failure_ends_serialize_tasks_only Sample.fqdn Sample.fs_write
              ["pkg"; "missing"] (Some "out") Sample.world
              (ModuleNotFoundError "missing") Hscan)
    as (w' & Hrun & Hwritten & _).
  exists w'. split; [exact Hrun|exact Hwritten].
Defined.

Lemma tasks_only_identifiers_witness :
  ("out/0_pkg.legacy.t.identifier.pb",
   IdentifierIdl (Sample.placeholder_id TASK "pkg.legacy.t"))
    ∈ written_by (serialize_tasks_only Sample.fqdn Sample.fs_write ["pkg"] (Some "out")) Sample.world
  ∧ Identifier.resource_type (Sample.placeholder_id TASK "pkg.legacy.t") = TASK
  ∧ Identifier.project (Sample.placeholder_id TASK "pkg.legacy.t")
    = "{{ registration.project }}".
Proof.
  assert (("out/0_pkg.legacy.t.identifier.pb",
           IdentifierIdl (Sample.placeholder_id TASK "pkg.legacy.t"))
            ∈ written_by (serialize_tasks_only Sample.fqdn Sample.fs_write ["pkg"] (Some "out"))
                Sample.world) as Hfile
    by (vm_compute; apply list_elem_of_further, list_elem_of_here).
  split; [exact Hfile|].
  destruct (tasks_only_identifiers Sample.fqdn Sample.fs_write ["pkg"] (Some "out") Sample.world
              _ _ Hfile) as (Htype & Hproject & _).
  split; [exact Htype|exact Hproject].
Defined.


(** The registry with [T] and [W]: the first run synthesizes the launch
    plan of [W]; the second run loads it once more, at the end. *)
Lemma second_run_repeats_launch_plans_witness :
  ∃ batch1 w1,
    load_entities Sample.fqdn Sample.default_launch_plan_registerable
      [] (Mode DEFAULT) Sample.world = (Return batch1, w1)
    ∧ length batch1 = 3
    ∧ ∃ batch2 w2 lp,
        load_entities Sample.fqdn Sample.default_launch_plan_registerable
          [] (Mode DEFAULT) w1 = (Return batch2, w2)
        ∧ entities w2 = entities w1
        ∧ batch2 = batch1 ++ [lp_registerable lp].
Proof.
  eexists _, _. split; [vm_compute; reflexivity|]. split; [reflexivity|].
  edestruct (second_run_repeats_launch_plans Sample.fqdn
               Sample.default_launch_plan_registerable [] (Mode DEFAULT)
               Sample.world)
    as (batch2 & w2 & added & Hload2 & Hent & Hent2 & Hbatch2);
    [vm_compute; reflexivity|].
  destruct added as [|lp [|lp' added]]; [discriminate Hent| |discriminate Hent].
  exists batch2, w2, lp. split; [exact Hload2|]. split; [exact Hent2|exact Hbatch2].
Defined.

(** * The sidecar task plugin: properties *)

Section SidecarProperties.

Context {ResourceName : Type}.
Variable Name : ResourceName → string.

Implicit Types (self : SidecarFunctionTask ResourceName).
Implicit Types (settings : RegistrationSettings) (container : Container.t).
Implicit Types (containers : list Container.t) (primary_container_name : string).
Implicit Types (sdk_default_container : SdkContainer ResourceName).

Lemma foldl_snoc_fmap {A B} (g : A → B) (l : list A) (acc : list B) :
  foldl (λ acc x, acc ++ [g x]) acc l = acc ++ (g <$> l).
Proof.
  revert acc. induction l as [|x l IH]; intros acc; simpl.
  - by rewrite app_nil_r.
  - by rewrite IH, <-app_assoc.
Qed.

(** [get_custom], loop by loop. *)
Lemma get_custom_unfold self settings :
  get_custom Name self settings
  = (let pod_spec :=
       {| PodSpec.containers := fitted Name self settings <$> with_primary self;
          PodSpec.unread_fields :=
            PodSpec.unread_fields (_pod_spec (task_config self)) |} in
     ({| SidecarJob.pod_spec := pod_spec;
         SidecarJob.primary_container_name :=
           _primary_container_name (task_config self) |},
      {| task_config :=
           {| _pod_spec := pod_spec;
              _primary_container_name := _primary_container_name (task_config self) |};
         get_container := get_container self |})).
Proof.
  unfold get_custom. fold (pod_containers self). fold (with_primary self).
  pose proof (foldl_snoc_fmap (fitted Name self settings) (with_primary self) [])
    as Hloop.
  simpl in Hloop. unfold fitted in Hloop at 1. by rewrite Hloop.
Qed.

Lemma get_custom_containers self settings :
  pod_containers (get_custom Name self settings).2
  = fitted Name self settings <$> with_primary self.
Proof. by rewrite get_custom_unfold. Qed.

Lemma fitted_name self settings container :
  Container.name (fitted Name self settings container) = Container.name container.
Proof. unfold fitted. by case_decide. Qed.

Lemma fitted_names self settings containers :
  Container.name <$> (fitted Name self settings <$> containers)
  = Container.name <$> containers.
Proof.
  rewrite <-list_fmap_compose. apply list_fmap_ext.
  intros i container _. apply fitted_name.
Qed.

Lemma primary_exists_names containers primary_container_name :
  primary_exists containers primary_container_name = true
  ↔ primary_container_name ∈ Container.name <$> containers.
Proof.
  induction containers as [|container rest IH]; simpl.
  - split; [done|by intros ?%elem_of_nil].
  - rewrite elem_of_cons. case_decide as Hname.
    + split; [intros _; by left|done].
    + rewrite IH. split; [by right|]. by intros [->|?].
Qed.

Lemma primary_exists_app containers primary_container_name :
  primary_exists (containers ++ [placeholder_container primary_container_name])
    primary_container_name = true.
Proof.
  apply primary_exists_names. rewrite fmap_app. apply elem_of_app. right.
  apply list_elem_of_here.
Qed.

Lemma with_primary_exists self :
  primary_exists (with_primary self) (_primary_container_name (task_config self))
  = true.
Proof.
  unfold with_primary.
  destruct (primary_exists (pod_containers self) _) eqn:Hexists;
    [done|apply primary_exists_app].
Qed.

Lemma get_custom_primary_exists self settings :
  primary_exists (pod_containers (get_custom Name self settings).2)
    (_primary_container_name (task_config self)) = true.
Proof.
  rewrite get_custom_containers. apply primary_exists_names.
  rewrite fitted_names. apply primary_exists_names, with_primary_exists.
Qed.

(** X13: after [get_custom] the pod specification of the task has a
    container under the primary container name; the containers are those
    it had, under the same names and in the same order, followed by a new
    one under the primary name exactly when none bore that name. *)
Theorem get_custom_has_primary self settings :
  let primary_container_name := _primary_container_name (task_config self) in
  let self' := (get_custom Name self settings).2 in
  _primary_container_name (task_config self') = primary_container_name
  ∧ primary_exists (pod_containers self') primary_container_name = true
  ∧ Container.name <$> pod_containers self'
    = (Container.name <$> pod_containers self)
      ++ (if primary_exists (pod_containers self) primary_container_name
          then [] else [primary_container_name])
  ∧ SidecarJob.pod_spec (get_custom Name self settings).1 = _pod_spec (task_config self').
Proof.
  intros primary_container_name self'.
  split_and!; [by unfold self'; rewrite get_custom_unfold
              |apply get_custom_primary_exists|
              |by unfold self'; rewrite get_custom_unfold].
  unfold self'. rewrite get_custom_containers, fitted_names.
  unfold with_primary. fold primary_container_name.
  destruct (primary_exists (pod_containers self) primary_container_name).
  - by rewrite app_nil_r.
  - by rewrite fmap_app.
Qed.

(** X14: [get_custom] leaves every container that does not bear the
    primary container name as it is and where it is, and does not touch
    the rest of the pod specification. *)
Theorem get_custom_keeps_other_containers self settings i container :
  pod_containers self !! i = Some container →
  Container.name container ≠ _primary_container_name (task_config self) →
  pod_containers (get_custom Name self settings).2 !! i = Some container
  ∧ PodSpec.unread_fields (_pod_spec (task_config (get_custom Name self settings).2))
    = PodSpec.unread_fields (_pod_spec (task_config self)).
Proof.
  intros Hi Hname. split; [|by rewrite get_custom_unfold].
  rewrite get_custom_containers, list_lookup_fmap.
  assert (with_primary self !! i = Some container) as ->.
  { unfold with_primary.
    destruct (primary_exists _ _); [done|by apply lookup_app_l_Some]. }
  simpl. unfold fitted. by rewrite decide_False.
Qed.

(** The resources copied from the SDK container. *)
Lemma copy_resources_cons (resource : ResourceEntry ResourceName) entries target :
  copy_resources Name (resource :: entries) target
  = copy_resources Name entries
      (<[resource_key Name resource := Quantity.Build (re_value resource)]> target).
Proof. done. Qed.

Lemma copy_resources_non_empty (entries : list (ResourceEntry ResourceName)) :
  ∀ target, target ≠ ∅ → copy_resources Name entries target ≠ ∅.
Proof.
  induction entries as [|resource entries IH]; intros target Htarget; [done|].
  rewrite copy_resources_cons. apply IH, insert_non_empty.
Qed.

Lemma copy_resources_empty (entries : list (ResourceEntry ResourceName)) :
  copy_resources Name entries ∅ = ∅ ↔ entries = [].
Proof.
  split; [|by intros ->].
  destruct entries as [|resource entries]; [done|].
  rewrite copy_resources_cons. intros Hempty.
  by apply copy_resources_non_empty in Hempty; [|apply insert_non_empty].
Qed.

Lemma ByteSize_nonzero_copied (resources : Resources ResourceName) :
  ByteSize_nonzero
    {| ResourceRequirements.limits := copy_resources Name (res_limits resources) ∅;
       ResourceRequirements.requests := copy_resources Name (res_requests resources) ∅ |}
  = false
  ↔ res_limits resources = [] ∧ res_requests resources = [].
Proof.
  unfold ByteSize_nonzero, empty_resource_requirements.
  rewrite negb_false_iff, bool_decide_eq_true.
  rewrite <-!copy_resources_empty. split.
  - by intros [= -> ->].
  - by intros [-> ->].
Qed.

(** X15: after [get_custom] every container that bears the primary
    container name has image, command, arguments and environment of the
    SDK container, whatever it had before.  Its resources are those of the
    SDK container when that one names any, limit or request; when it names
    none, the container keeps the resources the pod specification gave it.
    The other fields of the container are as they were. *)
Theorem get_custom_overwrites_primary self settings i container' :
  pod_containers (get_custom Name self settings).2 !! i = Some container' →
  Container.name container' = _primary_container_name (task_config self) →
  let sdk_default_container := get_container self settings in
  let container :=
    default (placeholder_container (_primary_container_name (task_config self)))
      (pod_containers self !! i) in
  Container.image container' = sdk_image sdk_default_container
  ∧ Container.command container' = sdk_command sdk_default_container
  ∧ Container.args container' = sdk_args sdk_default_container
  ∧ Container.env container'
    = (λ '(key, val), EnvVar.Build key val) <$> sdk_env sdk_default_container
  ∧ Container.unread_fields container' = Container.unread_fields container
  ∧ (res_limits (sdk_resources sdk_default_container) = [] →
     res_requests (sdk_resources sdk_default_container) = [] →
     Container.resources container' = Container.resources container)
  ∧ (res_limits (sdk_resources sdk_default_container) ≠ []
     ∨ res_requests (sdk_resources sdk_default_container) ≠ [] →
     Container.resources container'
     = {| ResourceRequirements.limits :=
            copy_resources Name (res_limits (sdk_resources sdk_default_container)) ∅;
          ResourceRequirements.requests :=
            copy_resources Name (res_requests (sdk_resources sdk_default_container)) ∅ |}).
Proof.
  intros Hi Hname sdk_default_container container.
  rewrite get_custom_containers, list_lookup_fmap in Hi.
  assert (∃ c0, container' = fitted Name self settings c0
                ∧ (pod_containers self !! i = Some c0
                   ∨ (pod_containers self !! i = None
                      ∧ c0 = placeholder_container
                               (_primary_container_name (task_config self)))))
    as (c0 & -> & Hc0).
  { unfold with_primary in Hi. destruct (primary_exists _ _).
    - destruct (pod_containers self !! i) as [c0|] eqn:Hc0; [|done].
      injection Hi as <-. eauto.
    - apply fmap_Some in Hi as (c0 & Hc0 & ->). exists c0. split; [done|].
      apply lookup_app_Some in Hc0 as [Hc0|[Hlen Hc0]]; [by left|right].
      split; [by apply lookup_ge_None_2|].
      by apply list_lookup_singleton_Some in Hc0 as [_ <-]. }
  assert (container = c0) as ->.
  { unfold container. by destruct Hc0 as [->|[-> ->]]. }
  rewrite fitted_name in Hname. unfold fitted. rewrite decide_True by done.
  fold sdk_default_container. simpl. split_and!; [done..| |].
  - intros Hlimits Hrequests.
    by rewrite (proj2 (ByteSize_nonzero_copied _) (conj Hlimits Hrequests)).
  - intros Hsome.
    destruct (ByteSize_nonzero _) eqn:Hsize; [done|].
    apply ByteSize_nonzero_copied in Hsize as [? ?]. by destruct Hsome.
Qed.

Lemma overwrite_primary_idemp sdk_default_container container :
  overwrite_primary Name sdk_default_container
    (overwrite_primary Name sdk_default_container container)
  = overwrite_primary Name sdk_default_container container.
Proof.
  unfold overwrite_primary. simpl. f_equal.
  by destruct (ByteSize_nonzero _).
Qed.

Lemma fitted_idemp self settings container :
  fitted Name self settings (fitted Name self settings container)
  = fitted Name self settings container.
Proof.
  unfold fitted.
  destruct (decide (Container.name container
                    = _primary_container_name (task_config self))) as [Hname|Hname].
  - simpl. rewrite decide_True by done. apply overwrite_primary_idemp.
  - by rewrite decide_False.
Qed.

(** X16: [get_custom] is idempotent: it changes the pod specification of
    the task in place, and a second call returns what the first one
    returned and leaves the task as the first one left it. *)
Theorem get_custom_idempotent self settings :
  get_custom Name (get_custom Name self settings).2 settings
  = get_custom Name self settings.
Proof.
  pose proof (get_custom_primary_exists self settings) as Hexists.
  pose proof (get_custom_containers self settings) as Hcontainers.
  set (self' := (get_custom Name self settings).2) in *.
  assert (_primary_container_name (task_config self')
          = _primary_container_name (task_config self)) as Hprimary
    by (by unfold self'; rewrite get_custom_unfold).
  assert (get_container self' = get_container self) as Hget
    by (by unfold self'; rewrite get_custom_unfold).
  assert (PodSpec.unread_fields (_pod_spec (task_config self'))
          = PodSpec.unread_fields (_pod_spec (task_config self))) as Hunread
    by (by unfold self'; rewrite get_custom_unfold).
  assert (fitted Name self' settings <$> with_primary self'
          = fitted Name self settings <$> with_primary self) as Hfitted.
  { unfold with_primary at 1. rewrite Hprimary, Hexists, Hcontainers.
    rewrite <-list_fmap_compose. apply list_fmap_ext. intros i container _.
    simpl. unfold fitted at 1. rewrite Hprimary, Hget.
    apply fitted_idemp. }
  rewrite (get_custom_unfold self' settings).
  rewrite Hprimary, Hget, Hunread, Hfitted.
  by rewrite (get_custom_unfold self settings).
Qed.

(** The keys of the resources of the primary container. *)
Lemma lower_char_idemp (c : ascii) : lower_char (lower_char c) = lower_char c.
Proof.
  unfold lower_char. pose proof (N_ascii_bounded c) as Hc.
  destruct (decide (65 ≤ N_of_ascii c ≤ 90)%N) as [Hupper|Hother].
  - rewrite N_ascii_embedding by lia. by rewrite decide_False by lia.
  - by rewrite decide_False.
Qed.

Lemma lower_idemp (s : string) : lower (lower s) = lower s.
Proof.
  induction s as [|c s IH]; [done|]. simpl. by rewrite lower_char_idemp, IH.
Qed.

Lemma copy_resources_lookup (entries : list (ResourceEntry ResourceName)) :
  ∀ target key,
    copy_resources Name entries target !! key
    = match last (filter (λ resource, resource_key Name resource = key) entries) with
      | Some resource => Some (Quantity.Build (re_value resource))
      | None => target !! key
      end.
Proof.
  induction entries as [|resource entries IH]; intros target key; [done|].
  rewrite copy_resources_cons, IH, filter_cons.
  destruct (decide (resource_key Name resource = key)) as [<-|Hkey].
  - rewrite last_cons. destruct (last _); [done|]. by rewrite lookup_insert_eq.
  - destruct (last _); [done|]. by rewrite lookup_insert_ne.
Qed.

(** X17: the resources the primary container takes from an SDK container
    that names some are filed under the names of the enumeration
    [ResourceName] in lower case, each with the value of the last entry
    for that name, limits and requests apart: a later entry overrides an
    earlier one for the same resource. *)
Theorem primary_resources_by_name sdk_default_container container key :
  res_limits (sdk_resources sdk_default_container) ≠ []
  ∨ res_requests (sdk_resources sdk_default_container) ≠ [] →
  let resources :=
    Container.resources (overwrite_primary Name sdk_default_container container) in
  ResourceRequirements.limits resources !! key
  = (λ resource, Quantity.Build (re_value resource))
      <$> last (filter (λ resource, lower (Name (re_name resource)) = key)
                  (res_limits (sdk_resources sdk_default_container)))
  ∧ ResourceRequirements.requests resources !! key
    = (λ resource, Quantity.Build (re_value resource))
        <$> last (filter (λ resource, lower (Name (re_name resource)) = key)
                    (res_requests (sdk_resources sdk_default_container)))
  ∧ (is_Some (ResourceRequirements.limits resources !! key)
     ∨ is_Some (ResourceRequirements.requests resources !! key) →
     lower key = key).
Proof.
  intros Hsome resources.
  assert (resources
          = {| ResourceRequirements.limits :=
                 copy_resources Name (res_limits (sdk_resources sdk_default_container)) ∅;
               ResourceRequirements.requests :=
                 copy_resources Name (res_requests (sdk_resources sdk_default_container))
                   ∅ |}) as ->.
  { unfold resources, overwrite_primary. simpl.
    destruct (ByteSize_nonzero _) eqn:Hsize; [done|].
    apply ByteSize_nonzero_copied in Hsize as [? ?]. by destruct Hsome. }
  simpl. rewrite !copy_resources_lookup, !lookup_empty.
  assert (∀ entries : list (ResourceEntry ResourceName),
            is_Some (last (filter (λ resource, lower (Name (re_name resource)) = key)
                             entries)) →
            lower key = key) as Hlower.
  { intros entries [resource Hlast].
    apply last_Some_elem_of, list_elem_of_filter in Hlast as [<- _].
    apply lower_idemp. }
  split_and!.
  - by destruct (last _).
  - by destruct (last _).
  - intros [Hkey|Hkey]; eapply Hlower; unfold resource_key in Hkey;
      destruct (last _) eqn:Hlast; try by (destruct Hkey); by rewrite Hlast.
Qed.

(** X18: a configuration that [Sidecar.__init__] accepts has the pod
    specification and the primary container name it was given, a name
    that is not empty; and [get_custom], on a task so configured, leaves a
    pod specification with a container of that name.  Without a pod
    specification, or with a name that is missing or empty, the
    constructor raises [FlyteValidationException]. *)
Theorem sidecar_config_validated (pod_spec : option PodSpec.t)
    (primary_container_name : option string) :
  match Sidecar__init__ pod_spec primary_container_name with
  | inr task_config =>
      pod_spec = Some (_pod_spec task_config)
      ∧ primary_container_name = Some (_primary_container_name task_config)
      ∧ _primary_container_name task_config ≠ ""
      ∧ ∀ get_container settings,
          ∃ container,
            container
              ∈ pod_containers
                  (get_custom Name {| task_config := task_config;
                                      get_container := get_container |} settings).2
            ∧ Container.name container = _primary_container_name task_config
            ∧ Container.name container ≠ ""
  | inl e =>
      (pod_spec = None ∨ primary_container_name = None
       ∨ primary_container_name = Some "")
      ∧ ∃ msg, e = FlyteValidationException msg
  end.
Proof.
  destruct pod_spec as [pod_spec|]; simpl; [|by eauto].
  destruct primary_container_name as [[|c name]|]; simpl; [by eauto| |by eauto].
  split_and!; [done..|]. intros get_container settings.
  pose proof (get_custom_primary_exists
                {| task_config := {| _pod_spec := pod_spec;
                                     _primary_container_name := String c name |};
                   get_container := get_container |} settings) as Hexists.
  apply primary_exists_names, list_elem_of_fmap in Hexists
    as (container & Hname & Hcontainer).
  exists container. split; [done|]. simpl in Hname. by rewrite <-Hname.
Qed.

End SidecarProperties.

(** ** The scenarios of the sidecar task *)

(** The pod specification with the logger alone: the logger stays as it is,
    the primary container is added after it. *)
Lemma get_custom_keeps_other_containers_witness :
  pod_containers SidecarSample.task !! 0 = Some SidecarSample.logger
  ∧ pod_containers (get_custom SidecarSample.Name SidecarSample.task
                      SidecarSample.settings).2 !! 0
    = Some SidecarSample.logger
  ∧ length (pod_containers (get_custom SidecarSample.Name SidecarSample.task
                              SidecarSample.settings).2) = 2.
Proof.
  split; [reflexivity|]. split; [|reflexivity].
  destruct (get_custom_keeps_other_containers SidecarSample.Name SidecarSample.task
              SidecarSample.settings 0 SidecarSample.logger)
    as [Hkept _]; [reflexivity|discriminate|].
  exact Hkept.
Defined.

(** The primary container written by hand, and an SDK container that asks
    for no resources: image and command are the SDK's, the limit of the pod
    specification is kept. *)
Lemma get_custom_overwrites_primary_witness :
  ∃ container',
    pod_containers (get_custom SidecarSample.Name SidecarSample.task_plain
                      SidecarSample.settings).2 !! 1 = Some container'
    ∧ Container.image container' = "registry/flyte:v1"
    ∧ Container.command container' = ["pyflyte-execute"]
    ∧ Container.resources container' = Container.resources SidecarSample.primary.
Proof.
  eexists. split; [reflexivity|].
  edestruct (get_custom_overwrites_primary SidecarSample.Name SidecarSample.task_plain
               SidecarSample.settings 1)
    as (Himage & Hcommand & _ & _ & _ & Hkept & _); [reflexivity|reflexivity|].
  split; [exact Himage|]. split; [exact Hcommand|].
  apply Hkept; reflexivity.
Defined.

(** Two limits for the CPU: the later one counts, under the key [cpu]. *)
Lemma primary_resources_by_name_witness :
  ResourceRequirements.limits
    (Container.resources
       (overwrite_primary SidecarSample.Name
          (SidecarSample.sdk_container SidecarSample.settings)
          SidecarSample.primary)) !! "cpu"
  = Some (Quantity.Build "4").
Proof.
  destruct (primary_resources_by_name SidecarSample.Name
              (SidecarSample.sdk_container SidecarSample.settings)
              SidecarSample.primary "cpu") as (Hlimits & _);
    [left; discriminate|].
  rewrite Hlimits. reflexivity.
Defined.
